(** * Signal engines of the trading bot: a shallow embedding

    Two engines are embedded here:
    - [TechnicalAnalyzer]: [technical_analyzer.py], class
      [MurphyTechnicalAnalyzer] (short-horizon, crypto oriented);
    - [TradingBot]: [trading_bot.py], class [IndonesianStockBot]
      (long-horizon, equity oriented), with the constants of [config.py].

    Around the second engine, [IndonesianStockBot] embeds the bot object
    of [trading_bot.py] (download, confirmation, sending, watchlist, daily
    run), [InteractiveTradingBot] the symbol formatting of
    [interactive_telegram_bot.py] and [ProductionTradingBot] the error
    counter of [run_production.py].

    Numbers.  The programs compute on float64 values held in pandas
    Series.  The embedding keeps the IEEE special values (not-a-number and
    the two infinities) because the code relies on them: undefined
    indicator cells are NaN and every comparison with NaN is false.
    Finite values are exact rationals ([Qc], canonical fractions, so that
    numeric equality is Leibniz equality); rounding error of float64
    arithmetic and the sign of zero are not modelled. *)

From Stdlib Require Import ZArith QArith Qcanon Qround Qabs.
From Stdlib Require Import String Ascii List Bool Lia Lqa.
Import ListNotations.

Set Implicit Arguments.

Open Scope string_scope.
Open Scope list_scope.

(* ================================================================== *)
(** ** Numbers *)

Module Num.

Inductive fnum : Type :=
| Fin (q : Qc)
| PInf
| NInf
| NaN.

Definition ofQ (q : Q) : fnum := Fin (Q2Qc q).
Definition ofZ (z : Z) : fnum := Fin (Q2Qc (inject_Z z)).

Definition zero : fnum := ofZ 0.

Definition isna (x : fnum) : bool :=
  match x with NaN => true | _ => false end.

(** Three-way comparison; [None] when an operand is NaN (unordered). *)
Definition cmp (x y : fnum) : option comparison :=
  match x, y with
  | NaN, _ | _, NaN => None
  | Fin a, Fin b => Some (a ?= b)%Qc
  | PInf, PInf => Some Eq
  | NInf, NInf => Some Eq
  | PInf, _ => Some Gt
  | _, PInf => Some Lt
  | NInf, _ => Some Lt
  | _, NInf => Some Gt
  end.

Definition ltb (x y : fnum) : bool :=
  match cmp x y with Some Lt => true | _ => false end.
Definition gtb (x y : fnum) : bool := ltb y x.
Definition leb (x y : fnum) : bool :=
  match cmp x y with Some Lt | Some Eq => true | _ => false end.
Definition geb (x y : fnum) : bool := leb y x.
Definition eqb (x y : fnum) : bool :=
  match cmp x y with Some Eq => true | _ => false end.
(** [!=] is the negation of [==]: true as soon as an operand is NaN. *)
Definition neb (x y : fnum) : bool := negb (eqb x y).

Definition neg (x : fnum) : fnum :=
  match x with
  | Fin a => Fin (- a)
  | PInf => NInf
  | NInf => PInf
  | NaN => NaN
  end.

Definition add (x y : fnum) : fnum :=
  match x, y with
  | NaN, _ | _, NaN => NaN
  | Fin a, Fin b => Fin (a + b)
  | PInf, NInf | NInf, PInf => NaN
  | PInf, _ | _, PInf => PInf
  | NInf, _ | _, NInf => NInf
  end.

Definition sub (x y : fnum) : fnum := add x (neg y).

(** Sign of a rational as a comparison with zero. *)
Definition sgn (a : Qc) : comparison := (a ?= 0)%Qc.

Definition signed_inf (s : comparison) : fnum :=
  match s with Gt => PInf | Lt => NInf | Eq => NaN end.

Definition flip (s : comparison) : comparison := CompOpp s.

Definition mul (x y : fnum) : fnum :=
  match x, y with
  | NaN, _ | _, NaN => NaN
  | Fin a, Fin b => Fin (a * b)
  | Fin a, PInf | PInf, Fin a => signed_inf (sgn a)
  | Fin a, NInf | NInf, Fin a => signed_inf (flip (sgn a))
  | PInf, PInf | NInf, NInf => PInf
  | PInf, NInf | NInf, PInf => NInf
  end.

(** Division as numpy performs it: no exception on a zero divisor, the
    quotient is an infinity carrying the sign of the dividend, and
    zero over zero is NaN. *)
Definition div (x y : fnum) : fnum :=
  match x, y with
  | NaN, _ | _, NaN => NaN
  | Fin a, Fin b =>
      match sgn b with
      | Eq => signed_inf (sgn a)
      | _ => Fin (a / b)
      end
  | Fin _, PInf | Fin _, NInf => Fin 0
  | PInf, Fin b => match sgn b with Lt => NInf | _ => PInf end
  | NInf, Fin b => match sgn b with Lt => PInf | _ => NInf end
  | _, _ => NaN
  end.

Definition abs (x : fnum) : fnum :=
  match x with
  | Fin a => match sgn a with Lt => Fin (- a) | _ => Fin a end
  | PInf | NInf => PInf
  | NaN => NaN
  end.

(** Python's built-in [max(a, b)] and [min(a, b)]: the first argument is
    kept unless the second compares strictly greater (smaller). *)
Definition py_max (a b : fnum) : fnum := if gtb b a then b else a.
Definition py_min (a b : fnum) : fnum := if ltb b a then b else a.

(** Round half to even, to an integer. *)
Definition rint (q : Q) : Z :=
  let f := Qfloor q in
  match (q - inject_Z f ?= 1 # 2)%Q with
  | Lt => f
  | Gt => (f + 1)%Z
  | Eq => if Z.even f then f else (f + 1)%Z
  end.

Definition pow10 (n : nat) : Z := (10 ^ Z.of_nat n)%Z.

Definition round_q (nd : nat) (a : Qc) : Qc :=
  Q2Qc (inject_Z (rint (this a * inject_Z (pow10 nd))) / inject_Z (pow10 nd)).

(** [round(x, nd)] on a float64 scalar; NaN and infinities pass through. *)
Definition round (nd : nat) (x : fnum) : fnum :=
  match x with
  | Fin a => Fin (round_q nd a)
  | _ => x
  end.

End Num.

Import Num.

Declare Scope fnum_scope.
Delimit Scope fnum_scope with F.
Bind Scope fnum_scope with fnum.
Infix "+" := add : fnum_scope.
Infix "-" := sub : fnum_scope.
Infix "*" := mul : fnum_scope.
Infix "/" := div : fnum_scope.
Notation "- x" := (neg x) : fnum_scope.
Infix "<?" := ltb : fnum_scope.
Infix ">?" := gtb : fnum_scope.
Infix "<=?" := leb : fnum_scope.
Infix ">=?" := geb : fnum_scope.
Infix "=?" := eqb : fnum_scope.

(* ================================================================== *)
(** ** The pandas operations the engines use *)

Module Pandas.

Definition Series := list fnum.

(** [s.iloc[-k]] for k >= 1; [None] stands for IndexError. *)
Definition iloc_neg (A : Type) (k : nat) (l : list A) : option A :=
  if (k =? 0)%nat then None
  else if (length l <? k)%nat then None
  else nth_error l (length l - k).

(** [s.tail(n)]. *)
Definition tail (A : Type) (n : nat) (l : list A) : list A :=
  skipn (length l - n) l.

Definition has_nan (w : list fnum) : bool := existsb isna w.

Definition fsum (w : list fnum) : fnum := fold_left add w zero.

(** Aggregates of one full window.  A window holding a NaN has fewer
    valid observations than [min_periods] (which defaults to the window
    length) and yields NaN. *)
Definition win_mean (w : list fnum) : fnum :=
  if has_nan w then NaN else (fsum w / ofZ (Z.of_nat (length w)))%F.

Definition min2 (a b : fnum) : fnum := if (b <? a)%F then b else a.
Definition max2 (a b : fnum) : fnum := if (b >? a)%F then b else a.

Definition win_min (w : list fnum) : fnum :=
  if has_nan w then NaN
  else match w with [] => NaN | x :: r => fold_left min2 r x end.

Definition win_max (w : list fnum) : fnum :=
  if has_nan w then NaN
  else match w with [] => NaN | x :: r => fold_left max2 r x end.

(** The window ending at position [i] (inclusive), of length [w]. *)
Definition window (w i : nat) (s : Series) : list fnum :=
  firstn w (skipn (i + 1 - w) s).

(** [s.rolling(window=w).agg()]: NaN until the window is full. *)
Definition rolling (agg : list fnum -> fnum) (w : nat) (s : Series) : Series :=
  map (fun i => if (i + 1 <? w)%nat then NaN else agg (window w i s))
      (seq 0 (length s)).

Definition rolling_mean := rolling win_mean.
Definition rolling_min := rolling win_min.
Definition rolling_max := rolling win_max.

(** [s.shift(k)] for k >= 0. *)
Definition shift (k : nat) (s : Series) : Series :=
  firstn (length s) (repeat NaN k ++ s).

Definition map2 (A B C : Type) (f : A -> B -> C) (a : list A) (b : list B)
  : list C := map (fun p => f (fst p) (snd p)) (combine a b).

Definition sadd : Series -> Series -> Series := map2 add.
Definition ssub : Series -> Series -> Series := map2 sub.
Definition sdiv : Series -> Series -> Series := map2 div.
Definition smul_c (c : fnum) (s : Series) : Series := map (fun x => x * c)%F s.

(** [s.diff()]. *)
Definition diff (s : Series) : Series := ssub s (shift 1 s).

(** [s.pct_change()]: the ratio to the previous value, minus one. *)
Definition pct_change (s : Series) : Series :=
  map (fun x => x - ofZ 1)%F (sdiv s (shift 1 s)).

(** [s.where(cond, other)]: keep where the condition holds. *)
Definition where_ (cond : fnum -> bool) (other : fnum) (s : Series) : Series :=
  map (fun x => if cond x then x else other) s.

(** Boolean masks. *)
Definition Mask := list bool.
Definition mand : Mask -> Mask -> Mask := map2 andb.
Definition mor : Mask -> Mask -> Mask := map2 orb.
Definition mnot (m : Mask) : Mask := map negb m.
Definition scmp (f : fnum -> fnum -> bool) : Series -> Series -> Mask := map2 f.
Definition scmp_c (f : fnum -> fnum -> bool) (c : fnum) (s : Series) : Mask :=
  map (fun x => f x c) s.

(** [col.loc[mask] = v]. *)
Definition loc_set (A : Type) (m : Mask) (v : A) (col : list A) : list A :=
  map2 (fun (b : bool) old => if b then v else old) m col.

(** Pointwise [==] of two series of the same length. *)
Fixpoint series_eqb (a b : Series) : bool :=
  match a, b with
  | [], [] => true
  | x :: a', y :: b' => (x =? y)%F && series_eqb a' b'
  | _, _ => false
  end.

(** Cell access with NaN for a missing cell. *)
Definition at_ (s : Series) (i : nat) : fnum := nth i s NaN.
Definition mat (m : Mask) (i : nat) : bool := nth i m false.

End Pandas.

Import Pandas.

(* ================================================================== *)
(** ** Vocabulary shared by the two engines *)

Inductive Direction : Type := BUY | SELL | STRONG_SELL | HOLD | NO_DATA.

Inductive Strength : Type :=
  WEAK | MODERATE | MEDIUM | STRONG | VERY_STRONG | NONE.

Definition Direction_eqb (a b : Direction) : bool :=
  match a, b with
  | BUY, BUY | SELL, SELL | STRONG_SELL, STRONG_SELL
  | HOLD, HOLD | NO_DATA, NO_DATA => true
  | _, _ => false
  end.

(** Python's [sub in s] on strings. *)
Fixpoint contains (sub s : string) : bool :=
  String.prefix sub s
  || match s with
     | EmptyString => false
     | String _ t => contains sub t
     end.

(* ================================================================== *)
(** ** technical_analyzer.py *)

Module TechnicalAnalyzer.

(** One OHLCV record as the exchange delivers it (finite numbers). *)
Record Bar : Type := mkBar {
  timestamp : Z;
  open : Qc;
  high : Qc;
  low : Qc;
  close : Qc;
  volume : Qc
}.

(** The functions of the third-party [ta] package that
    [calculate_indicators] calls.  The package is not part of the
    repository, so the engine is parameterised by it. *)
Record TaLib : Type := mkTa {
  ta_sma_indicator : Series -> nat -> Series;
  ta_ema_indicator : Series -> nat -> Series;
  ta_macd_diff : Series -> Series;
  ta_macd_signal : Series -> Series;
  ta_macd : Series -> Series;
  ta_rsi : Series -> nat -> Series;
  ta_bollinger_hband : Series -> Series;
  ta_bollinger_mavg : Series -> Series;
  ta_bollinger_lband : Series -> Series;
  ta_on_balance_volume : Series -> Series -> Series
}.

(** A row of the indicator table: the bar and the derived columns. *)
Record Row : Type := mkRow {
  bar : Bar;
  sma_20 : fnum;
  sma_50 : fnum;
  ema_12 : fnum;
  ema_26 : fnum;
  macd : fnum;
  macd_signal : fnum;
  macd_histogram : fnum;
  rsi : fnum;
  bb_upper : fnum;
  bb_middle : fnum;
  bb_lower : fnum;
  bb_width : fnum;
  volume_sma : fnum;
  obv : fnum;
  support : fnum;
  resistance : fnum;
  fib_23_6 : fnum;
  fib_38_2 : fnum;
  fib_50_0 : fnum;
  fib_61_8 : fnum
}.

Definition DataFrame := list Row.

Definition col (f : Bar -> Qc) (df : list Bar) : Series :=
  map (fun b => Fin (f b)) df.

(** Fibonacci retracement levels: four constant columns computed from
    the extremes of the last 20 bars, absent below 20 bars. *)
Definition calculate_fibonacci_levels (df : list Bar)
  : option (fnum * fnum * fnum * fnum) :=
  if (length df <? 20)%nat then None
  else
    let recent_high := win_max (tail 20 (col high df)) in
    let recent_low := win_min (tail 20 (col low df)) in
    let diff := (recent_high - recent_low)%F in
    Some ((recent_high - diff * ofQ 0.236)%F,
          (recent_high - diff * ofQ 0.382)%F,
          (recent_high - diff * ofQ 0.500)%F,
          (recent_high - diff * ofQ 0.618)%F).

Definition calculate_indicators (ta : TaLib) (df : list Bar) : DataFrame :=
  let c := col close df in
  let c_sma_20 := ta_sma_indicator ta c 20 in
  let c_sma_50 := ta_sma_indicator ta c 50 in
  let c_ema_12 := ta_ema_indicator ta c 12 in
  let c_ema_26 := ta_ema_indicator ta c 26 in
  let c_macd := ta_macd_diff ta c in
  let c_macd_signal := ta_macd_signal ta c in
  let c_macd_histogram := ta_macd ta c in
  let c_rsi := ta_rsi ta c 14 in
  let c_bb_upper := ta_bollinger_hband ta c in
  let c_bb_middle := ta_bollinger_mavg ta c in
  let c_bb_lower := ta_bollinger_lband ta c in
  let c_bb_width :=
    smul_c (ofZ 100) (sdiv (ssub c_bb_upper c_bb_lower) c_bb_middle) in
  let c_volume_sma := rolling_mean 20 (col volume df) in
  let c_obv := ta_on_balance_volume ta c (col volume df) in
  let c_support := rolling_min 20 (col low df) in
  let c_resistance := rolling_max 20 (col high df) in
  let fib := calculate_fibonacci_levels df in
  let fibc (p : fnum * fnum * fnum * fnum -> fnum) : fnum :=
    match fib with Some f => p f | None => NaN end in
  map (fun ib : nat * Bar =>
         let i := fst ib in
         {| bar := snd ib;
            sma_20 := at_ c_sma_20 i;
            sma_50 := at_ c_sma_50 i;
            ema_12 := at_ c_ema_12 i;
            ema_26 := at_ c_ema_26 i;
            macd := at_ c_macd i;
            macd_signal := at_ c_macd_signal i;
            macd_histogram := at_ c_macd_histogram i;
            rsi := at_ c_rsi i;
            bb_upper := at_ c_bb_upper i;
            bb_middle := at_ c_bb_middle i;
            bb_lower := at_ c_bb_lower i;
            bb_width := at_ c_bb_width i;
            volume_sma := at_ c_volume_sma i;
            obv := at_ c_obv i;
            support := at_ c_support i;
            resistance := at_ c_resistance i;
            fib_23_6 := fibc (fun f => fst (fst (fst f)));
            fib_38_2 := fibc (fun f => snd (fst (fst f)));
            fib_50_0 := fibc (fun f => snd (fst f));
            fib_61_8 := fibc (fun f => snd f) |})
      (combine (seq 0 (length df)) df).

(** *** Pattern detection *)

Record Patterns : Type := mkPatterns {
  head_shoulders : string;
  double_top : string;
  double_bottom : string;
  triangle : string;
  flag : string
}.

Definition no_patterns : Patterns :=
  {| head_shoulders := "NONE"; double_top := "NONE";
     double_bottom := "NONE"; triangle := "NONE"; flag := "NONE" |}.

(** Insertion into a list sorted in descending order.  A value goes in
    front of the values it equals; the sort below inserts from the right,
    so equal values keep their order of appearance ([keep='first']). *)
Fixpoint insert_desc (x : fnum) (l : list fnum) : list fnum :=
  match l with
  | [] => [x]
  | y :: r => if (x >=? y)%F then x :: l else y :: insert_desc x r
  end.

Fixpoint insert_asc (x : fnum) (l : list fnum) : list fnum :=
  match l with
  | [] => [x]
  | y :: r => if (x <=? y)%F then x :: l else y :: insert_asc x r
  end.

Definition dropna (s : Series) : Series := filter (fun x => negb (isna x)) s.

Definition sort_desc (s : Series) : Series := fold_right insert_desc [] s.
Definition sort_asc (s : Series) : Series := fold_right insert_asc [] s.

(** Descending order: no value exceeds its predecessor. *)
Fixpoint sorted_desc (l : list fnum) : Prop :=
  match l with
  | a :: (b :: _) as r => gtb b a = false /\ sorted_desc r
  | _ => True
  end.

(** [s.nlargest(n)] and [s.nsmallest(n)]: the [n] extreme values, NaN
    dropped, ordered by VALUE (largest, resp. smallest, first). *)
Definition nlargest (n : nat) (s : Series) : Series :=
  firstn n (sort_desc (dropna s)).
Definition nsmallest (n : nat) (s : Series) : Series :=
  firstn n (sort_asc (dropna s)).

(** Slope of the least-squares line through the points (0, y0),
    (1, y1), ...: the leading coefficient of [np.polyfit(range(n), y, 1)]. *)
Definition polyfit_slope (y : Series) : fnum :=
  let n := ofZ (Z.of_nat (length y)) in
  let xs := map (fun i => ofZ (Z.of_nat i)) (seq 0 (length y)) in
  let sx := fsum xs in
  let sy := fsum y in
  let sxy := fsum (map2 mul xs y) in
  let sxx := fsum (map2 mul xs xs) in
  ((n * sxy - sx * sy) / (n * sxx - sx * sx))%F.

Definition highs (df : DataFrame) : Series := map (fun r => Fin (high (bar r))) df.
Definition lows (df : DataFrame) : Series := map (fun r => Fin (low (bar r))) df.

Definition detect_head_shoulders (df : DataFrame) : string :=
  let recent_highs := tail 20 (highs df) in
  if (3 <=? length recent_highs)%nat then
    let peaks := nlargest 3 recent_highs in
    match peaks with
    | [p0; p1; p2] =>
        if (p1 >? p0)%F && (p1 >? p2)%F then "BEARISH" else "NONE"
    | _ => "NONE"
    end
  else "NONE".

Definition detect_double_top (df : DataFrame) : string :=
  let hs := tail 30 (highs df) in
  if (2 <=? length hs)%nat then
    let max_high := win_max (dropna hs) in
    match nlargest 2 hs with
    | [_; second_max] =>
        if (abs (max_high - second_max) / max_high <? ofQ 0.02)%F
        then "BEARISH" else "NONE"
    | _ => "NONE"
    end
  else "NONE".

Definition detect_double_bottom (df : DataFrame) : string :=
  let ls := tail 30 (lows df) in
  if (2 <=? length ls)%nat then
    let min_low := win_min (dropna ls) in
    match nsmallest 2 ls with
    | [_; second_min] =>
        if (abs (min_low - second_min) / min_low <? ofQ 0.02)%F
        then "BULLISH" else "NONE"
    | _ => "NONE"
    end
  else "NONE".

Definition detect_triangle (df : DataFrame) : string :=
  if (20 <=? length df)%nat then
    let high_trend := polyfit_slope (tail 20 (highs df)) in
    let low_trend := polyfit_slope (tail 20 (lows df)) in
    if (abs high_trend <? ofQ 0.1)%F && (low_trend >? ofQ 0.1)%F then "ASCENDING"
    else if (high_trend <? ofQ (-0.1))%F && (abs low_trend <? ofQ 0.1)%F
         then "DESCENDING"
    else if (high_trend <? ofQ (-0.1))%F && (low_trend >? ofQ 0.1)%F
         then "SYMMETRICAL"
    else "NONE"
  else "NONE".

Definition detect_patterns (df : DataFrame) : Patterns :=
  if (length df <? 50)%nat then no_patterns
  else {| head_shoulders := detect_head_shoulders df;
          double_top := detect_double_top df;
          double_bottom := detect_double_bottom df;
          triangle := detect_triangle df;
          flag := "NONE" |}.

(** *** Signal generation *)

Record Indicators : Type := mkIndicators {
  i_rsi : fnum;
  i_macd : fnum;
  i_sma_20 : fnum;
  i_sma_50 : fnum;
  i_bb_width : fnum;
  i_volume_ratio : fnum
}.

Record Analysis : Type := mkAnalysis {
  a_trend : list string;
  a_momentum : list string;
  a_volatility : list string;
  a_volume : list string;
  a_support_resistance : list string
}.

(** The dictionary returned by [generate_signals].  [indicators],
    [patterns] and [analysis] are [None] where the code leaves the empty
    container it initialised them with. *)
Record Signal : Type := mkSignal {
  s_timestamp : Z;
  price : fnum;
  signal : Direction;
  strength : Strength;
  confidence : Z;
  entry_price : fnum;
  stop_loss : fnum;
  take_profit : fnum;
  risk_reward : fnum;
  indicators : option Indicators;
  patterns : option Patterns;
  analysis : option Analysis
}.

(** [empty_signal]: the time stamp is the wall clock at the moment of the
    call ([datetime.now()]), passed in as [now]. *)
Definition empty_signal (now : Z) : Signal :=
  {| s_timestamp := now;
     price := zero;
     signal := NO_DATA;
     strength := NONE;
     confidence := 0;
     entry_price := zero;
     stop_loss := zero;
     take_profit := zero;
     risk_reward := zero;
     indicators := None;
     patterns := None;
     analysis := None |}.

Definition cl (r : Row) : fnum := Fin (close (bar r)).
Definition vol (r : Row) : fnum := Fin (volume (bar r)).

Definition trend_signals (latest prev : Row) : list string :=
  (if (ema_12 latest >? ema_26 latest)%F && (ema_12 prev <=? ema_26 prev)%F
   then ["BULLISH_MA_CROSS"]
   else if (ema_12 latest <? ema_26 latest)%F && (ema_12 prev >=? ema_26 prev)%F
   then ["BEARISH_MA_CROSS"]
   else [])
  ++
  (if (cl latest >? sma_20 latest)%F && (sma_20 latest >? sma_50 latest)%F
   then ["BULLISH_TREND"]
   else if (cl latest <? sma_20 latest)%F && (sma_20 latest <? sma_50 latest)%F
   then ["BEARISH_TREND"]
   else []).

Definition macd_signals (latest prev : Row) : list string :=
  if (macd latest >? macd_signal latest)%F && (macd prev <=? macd_signal prev)%F
  then ["BULLISH_MACD"]
  else if (macd latest <? macd_signal latest)%F && (macd prev >=? macd_signal prev)%F
  then ["BEARISH_MACD"]
  else [].

Definition rsi_signals (latest : Row) : list string :=
  if (rsi latest <? ofZ 30)%F then ["OVERSOLD"]
  else if (rsi latest >? ofZ 70)%F then ["OVERBOUGHT"]
  else if (ofZ 40 <=? rsi latest)%F && (rsi latest <=? ofZ 60)%F then ["NEUTRAL"]
  else [].

Definition bb_signals (latest : Row) : list string :=
  if (cl latest >? bb_upper latest)%F then ["BB_BREAKOUT_UP"]
  else if (cl latest <? bb_lower latest)%F then ["BB_BREAKOUT_DOWN"]
  else if (bb_width latest <? ofZ 10)%F then ["BB_SQUEEZE"]
  else [].

Definition volume_signals (latest : Row) : list string :=
  if (vol latest >? volume_sma latest * ofQ 1.5)%F then ["HIGH_VOLUME"]
  else if (vol latest <? volume_sma latest * ofQ 0.5)%F then ["LOW_VOLUME"]
  else [].

Definition sr_signals (latest : Row) : list string :=
  let price := cl latest in
  if (abs (price - support latest) / price <? ofQ 0.02)%F then ["AT_SUPPORT"]
  else if (abs (price - resistance latest) / price <? ofQ 0.02)%F
  then ["AT_RESISTANCE"]
  else [].

(** The tags that enter the evidence count. *)
Definition counted_tags (latest prev : Row) : list string :=
  trend_signals latest prev ++ macd_signals latest prev
  ++ rsi_signals latest ++ bb_signals latest.

Definition bullish_count (latest prev : Row) : Z :=
  Z.of_nat (length (filter (fun s => contains "BULLISH" s || contains "OVERSOLD" s)
                           (counted_tags latest prev))).

Definition bearish_count (latest prev : Row) : Z :=
  Z.of_nat (length (filter (fun s => contains "BEARISH" s || contains "OVERBOUGHT" s)
                           (counted_tags latest prev))).

(** Direction and confidence from the two counts. *)
Definition decide (bullish bearish : Z) : Direction * Z :=
  if (bullish >? bearish)%Z && (bullish >=? 2)%Z
  then (BUY, Z.min (bullish * 20) 100)
  else if (bearish >? bullish)%Z && (bearish >=? 2)%Z
  then (SELL, Z.min (bearish * 20) 100)
  else (HOLD, 50%Z).

Definition strength_of (conf : Z) : Strength :=
  if (conf >=? 80)%Z then STRONG
  else if (conf >=? 60)%Z then MEDIUM
  else WEAK.

(** Entry, stop-loss and take-profit for a direction. *)
Definition levels (d : Direction) (latest : Row) : fnum * fnum * fnum :=
  match d with
  | BUY =>
      (cl latest,
       py_max (support latest) (cl latest * ofQ 0.95)%F,
       py_min (resistance latest) (cl latest * ofQ 1.1)%F)
  | SELL =>
      (cl latest,
       py_min (resistance latest) (cl latest * ofQ 1.05)%F,
       py_max (support latest) (cl latest * ofQ 0.9)%F)
  | _ => (zero, zero, zero)
  end.

Definition risk_reward_of (entry stop take : fnum) : fnum :=
  if neb stop zero then
    let risk := abs (entry - stop) in
    let reward := abs (take - entry) in
    if (risk >? zero)%F then round 2 (reward / risk) else zero
  else zero.

(** The body of [generate_signals] once [latest = df.iloc[-1]] and
    [prev = df.iloc[-2]] have been read. *)
Definition signal_from (df : DataFrame) (latest prev : Row) : Signal :=
  let '(dir, conf) :=
    decide (bullish_count latest prev) (bearish_count latest prev) in
  let '(entry, stop, take) := levels dir latest in
  {| s_timestamp := timestamp (bar latest);
     price := cl latest;
     signal := dir;
     strength := strength_of conf;
     confidence := conf;
     entry_price := entry;
     stop_loss := stop;
     take_profit := take;
     risk_reward := risk_reward_of entry stop take;
     indicators :=
       Some {| i_rsi := round 2 (rsi latest);
               i_macd := round 4 (macd latest);
               i_sma_20 := round 2 (sma_20 latest);
               i_sma_50 := round 2 (sma_50 latest);
               i_bb_width := round 2 (bb_width latest);
               i_volume_ratio := round 2 (vol latest / volume_sma latest) |};
     patterns := Some (detect_patterns df);
     analysis :=
       Some {| a_trend := trend_signals latest prev;
               a_momentum := macd_signals latest prev ++ rsi_signals latest;
               a_volatility := bb_signals latest;
               a_volume := volume_signals latest;
               a_support_resistance := sr_signals latest |} |}.

(** [generate_signals]; the last case cannot be reached (a frame of 50
    rows has a last and a last-but-one row). *)
Definition generate_signals (now : Z) (df : DataFrame) : Signal :=
  if (length df <? 50)%nat then empty_signal now
  else
    match iloc_neg 1 df, iloc_neg 2 df with
    | Some latest, Some prev => signal_from df latest prev
    | _, _ => empty_signal now
    end.

(** Record update of the time stamp. *)
Definition with_timestamp (t : Z) (s : Signal) : Signal :=
  {| s_timestamp := t;
     price := price s;
     signal := signal s;
     strength := strength s;
     confidence := confidence s;
     entry_price := entry_price s;
     stop_loss := stop_loss s;
     take_profit := take_profit s;
     risk_reward := risk_reward s;
     indicators := indicators s;
     patterns := patterns s;
     analysis := analysis s |}.

(** Conditions on the input records. *)
Definition positive_prices (b : Bar) : bool :=
  (zero <? Fin (open b))%F && (zero <? Fin (high b))%F
  && (zero <? Fin (low b))%F && (zero <? Fin (close b))%F.

Definition ohlc_consistent (b : Bar) : bool :=
  (Fin (low b) <=? Fin (close b))%F && (Fin (close b) <=? Fin (high b))%F.

(** [analyze_symbol] once the bars have been fetched: indicators, then
    signals.  (An empty frame is answered by [empty_signal] before any
    computation, which [generate_signals] does as well.) *)
Definition analyze (ta : TaLib) (now : Z) (bars : list Bar) : Signal :=
  generate_signals now (calculate_indicators ta bars).

End TechnicalAnalyzer.

(* ================================================================== *)
(** ** config.py *)

Module Config.

Definition SMA_SHORT_PERIOD : nat := 20.
Definition SMA_LONG_PERIOD : nat := 50.
Definition MIN_VOLUME_THRESHOLD : fnum := ofZ 1000000.
Definition MIN_PRICE_CHANGE : fnum := ofQ 0.03.
Definition STOP_LOSS_PERCENTAGE : fnum := ofQ 0.15.
Definition TAKE_PROFIT_PERCENTAGE : fnum := ofQ 0.25.
Definition RSI_OVERBOUGHT_THRESHOLD : fnum := ofZ 80.
Definition RSI_OVERSOLD_THRESHOLD : fnum := ofZ 20.
Definition RSI_PERIOD : nat := 21.
Definition HIGH_VOLUME_SELL_MULTIPLIER : fnum := ofQ 3.0.

End Config.

(* ================================================================== *)
(** ** trading_bot.py *)

Module TradingBot.

Import Config.

(** One daily record of the price history (finite numbers). *)
Record Bar : Type := mkBar {
  Date : Z;
  Open : Qc;
  High : Qc;
  Low : Qc;
  Close : Qc;
  Volume : Qc
}.

Definition col (f : Bar -> Qc) (data : list Bar) : Series :=
  map (fun b => Fin (f b)) data.

(** The two rolling averages [calculate_rsi] divides. *)
Definition rsi_gain (closes : Series) (period : nat) : Series :=
  let delta := diff closes in
  rolling_mean period (where_ (fun d => d >? zero)%F zero delta).

Definition rsi_loss (closes : Series) (period : nat) : Series :=
  let delta := diff closes in
  rolling_mean period (map neg (where_ (fun d => d <? zero)%F zero delta)).

Definition rsi_of_rs (rs : fnum) : fnum :=
  (ofZ 100 - ofZ 100 / (ofZ 1 + rs))%F.

Definition calculate_rsi (closes : Series) (period : nat) : Series :=
  let gain := rsi_gain closes period in
  let loss := rsi_loss closes period in
  let rs := sdiv gain loss in
  map rsi_of_rs rs.

(** The columns added by [calculate_technical_indicators]. *)
Record Indicators : Type := mkIndicators {
  c_Close : Series;
  c_Volume : Series;
  c_SMA_short : Series;
  c_SMA_long : Series;
  c_RSI : Series;
  c_Volume_MA : Series;
  c_Price_Change_Pct : Series;
  c_Recent_High : Series;
  c_Recent_Low : Series
}.

Definition calculate_technical_indicators (data : list Bar) : Indicators :=
  let closes := col Close data in
  {| c_Close := closes;
     c_Volume := col Volume data;
     c_SMA_short := rolling_mean SMA_SHORT_PERIOD closes;
     c_SMA_long := rolling_mean SMA_LONG_PERIOD closes;
     c_RSI := calculate_rsi closes RSI_PERIOD;
     c_Volume_MA := rolling_mean 20 (col Volume data);
     c_Price_Change_Pct := smul_c (ofZ 100) (pct_change closes);
     c_Recent_High := rolling_max 10 (col High data);
     c_Recent_Low := rolling_min 10 (col Low data) |}.

Section Conditions.

Variable ind : Indicators.

Let sma_short := c_SMA_short ind.
Let sma_long := c_SMA_long ind.
Let rsi := c_RSI ind.
Let closes := c_Close ind.
Let pct := c_Price_Change_Pct ind.

Definition volume_ratio : Series := sdiv (c_Volume ind) (c_Volume_MA ind).

(** Buy conditions. *)
Definition buy_sma_cross : Mask :=
  mand (scmp gtb sma_short sma_long)
       (scmp leb (shift 1 sma_short) (shift 1 sma_long)).
Definition buy_rsi_ok : Mask := scmp_c ltb RSI_OVERBOUGHT_THRESHOLD rsi.
Definition rsi_oversold_recovery : Mask :=
  mand (scmp_c gtb RSI_OVERSOLD_THRESHOLD rsi)
       (scmp_c leb RSI_OVERSOLD_THRESHOLD (shift 1 rsi)).
Definition strong_uptrend : Mask :=
  mand (mand (mand (scmp gtb sma_short sma_long) (scmp gtb closes sma_short))
             (scmp_c gtb (ofZ 50) rsi))
       (scmp_c ltb RSI_OVERBOUGHT_THRESHOLD rsi).
Definition price_momentum : Mask := scmp gtb closes (shift 5 closes).
Definition buy_condition : Mask :=
  mor (mor (mand buy_sma_cross buy_rsi_ok)
           (mand rsi_oversold_recovery (scmp gtb sma_short sma_long)))
      (mand strong_uptrend price_momentum).

(** Regular sell conditions. *)
Definition sell_sma_cross : Mask :=
  mand (scmp ltb sma_short sma_long)
       (scmp geb (shift 1 sma_short) (shift 1 sma_long)).
Definition sma_cross_confirmed : Mask :=
  mand sell_sma_cross (scmp geb (shift 2 sma_short) (shift 2 sma_long)).
Definition sell_rsi_overbought : Mask :=
  scmp_c gtb RSI_OVERBOUGHT_THRESHOLD rsi.
Definition sell_high_volume : Mask :=
  mand (scmp_c gtb HIGH_VOLUME_SELL_MULTIPLIER volume_ratio)
       (scmp_c ltb (ofZ (-5)) pct).
Definition price_trend : Mask :=
  scmp gtb (rolling_mean 10 closes) (shift 10 (rolling_mean 10 closes)).
Definition rsi_trend : Mask := scmp ltb rsi (shift 10 rsi).
Definition sell_divergence : Mask :=
  mand (mand price_trend rsi_trend) (scmp_c gtb (ofZ 70) rsi).

(** Strong sell conditions. *)
Definition strong_sell_multiple : Mask :=
  mand sma_cross_confirmed sell_rsi_overbought.
Definition strong_sell_extreme : Mask :=
  mand (scmp_c gtb (ofZ 85) rsi)
       (scmp_c gtb HIGH_VOLUME_SELL_MULTIPLIER volume_ratio).
Definition strong_sell_crash : Mask :=
  mand (scmp_c ltb (ofZ (-10)) pct)
       (scmp_c gtb HIGH_VOLUME_SELL_MULTIPLIER volume_ratio).

Definition strong_sell : Mask :=
  mor (mor strong_sell_multiple strong_sell_extreme) strong_sell_crash.

Definition regular_sell : Mask :=
  mand (mor (mor (mor sma_cross_confirmed sell_rsi_overbought) sell_high_volume)
            sell_divergence)
       (mnot strong_sell).

(** The [Signal], [Position] and [Signal_Reason] columns after the
    sequence of masked assignments. *)
Definition signal_column (n : nat) : list Direction :=
  loc_set strong_sell STRONG_SELL
    (loc_set regular_sell SELL
       (loc_set buy_condition BUY (repeat HOLD n))).

Definition position_column (n : nat) : list Z :=
  loc_set strong_sell (-2)%Z
    (loc_set regular_sell (-1)%Z
       (loc_set buy_condition 1%Z (repeat 0%Z n))).

Definition reason_column (n : nat) : list string :=
  loc_set strong_sell_crash "Major Price Crash (-10%+)"
  (loc_set strong_sell_extreme "Extreme Overbought (85+)"
  (loc_set strong_sell_multiple "Multiple Confirmed Bearish Signals"
  (loc_set sell_divergence "Long-term Bearish Divergence"
  (loc_set sell_high_volume "Major High Volume Sell-off"
  (loc_set sell_rsi_overbought "RSI Extremely Overbought (80+)"
  (loc_set sma_cross_confirmed "Confirmed SMA Bearish Crossover"
  (loc_set (mand strong_uptrend price_momentum) "Strong Uptrend Continuation"
  (loc_set (mand rsi_oversold_recovery (scmp gtb sma_short sma_long))
           "RSI Oversold Recovery"
  (loc_set (mand buy_sma_cross buy_rsi_ok) "Long-term SMA Crossover"
     (repeat "No Signal" n)))))))))).

End Conditions.

(** A row of the frame returned by [generate_enhanced_signals]. *)
Record Row : Type := mkRow {
  bar : Bar;
  SMA_short : fnum;
  SMA_long : fnum;
  RSI : fnum;
  Volume_MA : fnum;
  Price_Change_Pct : fnum;
  Recent_High : fnum;
  Recent_Low : fnum;
  Signal : Direction;
  Position : Z;
  Signal_Reason : string;
  Signal_Strength : Strength
}.

Definition generate_enhanced_signals (data : list Bar) : list Row :=
  let ind := calculate_technical_indicators data in
  let n := length data in
  let sig := signal_column ind n in
  let pos := position_column ind n in
  let rea := reason_column ind n in
  map (fun ib : nat * Bar =>
         let i := fst ib in
         {| bar := snd ib;
            SMA_short := at_ (c_SMA_short ind) i;
            SMA_long := at_ (c_SMA_long ind) i;
            RSI := at_ (c_RSI ind) i;
            Volume_MA := at_ (c_Volume_MA ind) i;
            Price_Change_Pct := at_ (c_Price_Change_Pct ind) i;
            Recent_High := at_ (c_Recent_High ind) i;
            Recent_Low := at_ (c_Recent_Low ind) i;
            Signal := nth i sig HOLD;
            Position := nth i pos 0%Z;
            Signal_Reason := nth i rea "No Signal";
            Signal_Strength := WEAK |})
      (combine (seq 0 n) data).

(** The dictionary returned by [validate_signal]. *)
Record SignalInfo : Type := mkSignalInfo {
  symbol : string;
  date : Z;
  signal : Direction;
  signal_reason : string;
  current_price : fnum;
  previous_close : fnum;
  price_change : fnum;
  volume : Z;
  info_volume_ratio : fnum;
  sma_short : fnum;
  sma_long : fnum;
  rsi : fnum;
  stop_loss_price : fnum;
  take_profit_price : fnum;
  recent_high : fnum;
  recent_low : fnum;
  valid : bool;
  strength : Strength
}.

Definition cl (r : Row) : fnum := Fin (Close (bar r)).

Definition price_change_of (latest_data previous_data : Row) : fnum :=
  round 2 (((cl latest_data - cl previous_data) / cl previous_data) * ofZ 100)%F.

Definition volume_valid (latest_data : Row) : bool :=
  (Fin (Volume (bar latest_data)) >=? MIN_VOLUME_THRESHOLD)%F.

Definition price_change_significant (pc : fnum) : bool :=
  (abs pc >=? MIN_PRICE_CHANGE * ofZ 100)%F.

Definition sma_valid (latest_data : Row) : bool :=
  negb (isna (SMA_short latest_data) || isna (SMA_long latest_data)).

Definition strength_of (sig : Direction) (is_valid significant : bool) : Strength :=
  if Direction_eqb sig STRONG_SELL then VERY_STRONG
  else if is_valid && significant then STRONG
  else if is_valid then MODERATE
  else WEAK.

(** [data.iloc[-2] if len(data) > 1 else latest_data]. *)
Definition previous_row (data : list Row) (latest_data : Row) : Row :=
  if (1 <? length data)%nat then
    match iloc_neg 2 data with Some p => p | None => latest_data end
  else latest_data.

(** [validate_signal]; [None] stands for the IndexError raised on an
    empty frame. *)
Definition validate_signal (data : list Row) (sym : string) : option SignalInfo :=
  match iloc_neg 1 data with
  | None => None
  | Some latest_data =>
      let previous_data := previous_row data latest_data in
      let current := cl latest_data in
      let stop_loss := (current * (ofZ 1 - STOP_LOSS_PERCENTAGE))%F in
      let take_profit := (current * (ofZ 1 + TAKE_PROFIT_PERCENTAGE))%F in
      let pc := price_change_of latest_data previous_data in
      let is_valid := volume_valid latest_data && sma_valid latest_data in
      Some
        {| symbol := sym;
           date := Date (bar latest_data);
           signal := Signal latest_data;
           signal_reason := Signal_Reason latest_data;
           current_price := round 2 current;
           previous_close := round 2 (cl previous_data);
           price_change := pc;
           volume :=
             let v := this (Volume (bar latest_data)) in
             (Qnum v ÷ Zpos (Qden v))%Z;
           info_volume_ratio :=
             if negb (isna (Volume_MA latest_data))
             then round 2 (Fin (Volume (bar latest_data)) / Volume_MA latest_data)%F
             else ofQ 1.0;
           sma_short := round 2 (SMA_short latest_data);
           sma_long := round 2 (SMA_long latest_data);
           rsi := if negb (isna (RSI latest_data))
                  then round 2 (RSI latest_data) else ofZ 50;
           stop_loss_price := round 2 stop_loss;
           take_profit_price := round 2 take_profit;
           recent_high := round 2 (Recent_High latest_data);
           recent_low := round 2 (Recent_Low latest_data);
           valid := is_valid;
           strength :=
             strength_of (Signal latest_data) is_valid
                         (price_change_significant pc) |}
  end.

(** The computational core of [analyze_stock]: refuse short histories,
    then generate and validate. *)
Definition analyze_stock (data : list Bar) (sym : string) : option SignalInfo :=
  if (length data <? Nat.max SMA_LONG_PERIOD RSI_PERIOD)%nat then None
  else validate_signal (generate_enhanced_signals data) sym.

End TradingBot.

(* ================================================================== *)
(** ** The risk-level rule in the words of the specification

    "BUY: entry = close; stop-loss = max(rolling support, close x (1 -
    stop_fraction)); take-profit = min(rolling resistance, close x (1 +
    profit_fraction)).  SELL/STRONG_SELL: entry = close; stop-loss =
    min(rolling resistance, close x (1 + stop_fraction)); take-profit =
    max(rolling support, close x (1 - profit_fraction)).  HOLD/NO_DATA:
    all levels zero." *)

Module RiskSpec.

Definition qmax (a b : Qc) : Qc := if Qclt_le_dec a b then b else a.
Definition qmin (a b : Qc) : Qc := if Qclt_le_dec b a then b else a.

Definition spec_levels (stop_fraction profit_fraction : Qc) (d : Direction)
           (close support resistance : Qc) : Qc * Qc * Qc :=
  match d with
  | BUY =>
      (close,
       qmax support (close * (1 - stop_fraction)),
       qmin resistance (close * (1 + profit_fraction)))%Qc
  | SELL | STRONG_SELL =>
      (close,
       qmin resistance (close * (1 + stop_fraction)),
       qmax support (close * (1 - profit_fraction)))%Qc
  | HOLD | NO_DATA => (0, 0, 0)%Qc
  end.

Definition lift (l : Qc * Qc * Qc) : fnum * fnum * fnum :=
  let '(e, s, t) := l in (Fin e, Fin s, Fin t).

End RiskSpec.

(* ================================================================== *)
(** ** A reference instance of the [ta] functions

    The theorems below hold for every [TaLib].  To run the analyzer on
    concrete bars an instance is needed: this one follows the formulas of
    the [ta] package (rolling means, exponentially weighted means with
    [adjust=False], MACD 12/26/9, Wilder's RSI, 20-bar bands at two
    standard deviations) in exact arithmetic. *)

Module TaReference.

Import TechnicalAnalyzer.

(** State of the exponentially weighted mean: the running mean (NaN
    before the first observation), the weight of the past, and the number
    of observations seen. *)
Definition ewm_step (alpha : fnum)
           (st : fnum * fnum * nat) (cur : fnum) : fnum * fnum * nat :=
  let '(weighted, old_wt, nobs) := st in
  let is_obs := negb (isna cur) in
  let nobs' := if is_obs then S nobs else nobs in
  if negb (isna weighted) then
    let old_wt1 := (old_wt * (ofZ 1 - alpha))%F in
    if is_obs then
      let w := if neb weighted cur
               then ((old_wt1 * weighted + alpha * cur) / (old_wt1 + alpha))%F
               else weighted in
      (w, ofZ 1, nobs')
    else (weighted, old_wt1, nobs')
  else if is_obs then (cur, ofZ 1, nobs')
  else (weighted, old_wt, nobs').

Fixpoint ewm_run (alpha : fnum) (min_periods : nat)
         (st : fnum * fnum * nat) (s : Series) : Series :=
  match s with
  | [] => []
  | x :: r =>
      let st' := ewm_step alpha st x in
      let '(w, _, nobs) := st' in
      (if (min_periods <=? nobs)%nat then w else NaN)
        :: ewm_run alpha min_periods st' r
  end.

Definition ewm_mean (alpha : fnum) (min_periods : nat) (s : Series) : Series :=
  ewm_run alpha min_periods (NaN, ofZ 1, 0%nat) s.

Definition ema (s : Series) (periods : nat) : Series :=
  ewm_mean (ofZ 2 / ofZ (Z.of_nat periods + 1))%F periods s.

Definition sma (s : Series) (periods : nat) : Series := rolling_mean periods s.

Definition macd_line (c : Series) : Series := ssub (ema c 12) (ema c 26).
Definition macd_signal_line (c : Series) : Series := ema (macd_line c) 9.
Definition macd_diff_line (c : Series) : Series :=
  ssub (macd_line c) (macd_signal_line c).

Definition wilder_rsi (c : Series) (w : nat) : Series :=
  let d := diff c in
  let up := where_ (fun x => x >? zero)%F zero d in
  let dn := map neg (where_ (fun x => x <? zero)%F zero d) in
  let alpha := (ofZ 1 / ofZ (Z.of_nat w))%F in
  let emaup := ewm_mean alpha w up in
  let emadn := ewm_mean alpha w dn in
  map2 (fun u d =>
          if (d =? zero)%F then ofZ 100
          else (ofZ 100 - ofZ 100 / (ofZ 1 + u / d))%F)
       emaup emadn.

(** Square root, correct to twelve decimals. *)
Definition sqrt12 (x : fnum) : fnum :=
  match x with
  | Fin a =>
      match sgn a with
      | Lt => NaN
      | _ => ofQ (inject_Z (Z.sqrt (Qfloor (this a * inject_Z (10 ^ 24))))
                  / inject_Z (10 ^ 12))
      end
  | PInf => PInf
  | _ => NaN
  end.

(** Population standard deviation of one window ([ddof=0]). *)
Definition win_std (w : list fnum) : fnum :=
  if has_nan w then NaN
  else
    let m := win_mean w in
    sqrt12 (win_mean (map (fun x => (x - m) * (x - m))%F w)).

Definition bb_mavg (c : Series) : Series := rolling_mean 20 c.
Definition bb_hband (c : Series) : Series :=
  sadd (bb_mavg c) (smul_c (ofZ 2) (rolling win_std 20 c)).
Definition bb_lband (c : Series) : Series :=
  ssub (bb_mavg c) (smul_c (ofZ 2) (rolling win_std 20 c)).

Fixpoint cumsum_from (acc : fnum) (s : Series) : Series :=
  match s with
  | [] => []
  | x :: r => let a := (acc + x)%F in a :: cumsum_from a r
  end.

Definition obv_line (c v : Series) : Series :=
  cumsum_from zero
    (map2 (fun (lt : bool) x => if lt then (- x)%F else x)
          (scmp ltb c (shift 1 c)) v).

Definition ta_reference : TaLib :=
  {| ta_sma_indicator := sma;
     ta_ema_indicator := ema;
     ta_macd_diff := macd_diff_line;
     ta_macd_signal := macd_signal_line;
     ta_macd := macd_line;
     ta_rsi := wilder_rsi;
     ta_bollinger_hband := bb_hband;
     ta_bollinger_mavg := bb_mavg;
     ta_bollinger_lband := bb_lband;
     ta_on_balance_volume := obv_line |}.

End TaReference.

(* ================================================================== *)
(** ** Concrete histories used in the examples *)

Module Samples.

Definition q (z : Z) : Qc := Q2Qc (inject_Z z).

(** Short-horizon engine: [n] quiet bars at price 100. *)
Definition quiet (t0 : Z) (n : nat) : list TechnicalAnalyzer.Bar :=
  map (fun i => TechnicalAnalyzer.mkBar (t0 + Z.of_nat i) (q 100) (q 100)
                                         (q 100) (q 100) (q 1000))
      (seq 0 n).

(** 49 quiet bars, then a bar that opens at 100 and closes at its high
    of 200. *)
Definition breakout : list TechnicalAnalyzer.Bar :=
  quiet 0 49 ++ [TechnicalAnalyzer.mkBar 49 (q 100) (q 200) (q 100) (q 200) (q 1000)].

(** 49 quiet bars, then a bar that closes at its low of 50. *)
Definition breakdown : list TechnicalAnalyzer.Bar :=
  quiet 0 49 ++ [TechnicalAnalyzer.mkBar 49 (q 100) (q 100) (q 50) (q 50) (q 1000)].

(** As [breakout], but the last record reports a close (200) above its
    own high (150). *)
Definition inconsistent : list TechnicalAnalyzer.Bar :=
  quiet 0 49 ++ [TechnicalAnalyzer.mkBar 49 (q 100) (q 150) (q 100) (q 200) (q 1000)].

(** Long-horizon engine: [n] flat days at price 100 on a volume of two
    million. *)
Definition flat (n : nat) : list TradingBot.Bar :=
  map (fun i => TradingBot.mkBar (Z.of_nat i) (q 100) (q 100) (q 100) (q 100)
                                 (q 2000000))
      (seq 0 n).

(** 49 flat days, then a 20% drop on ten times the volume. *)
Definition crash : list TradingBot.Bar :=
  flat 49 ++ [TradingBot.mkBar 49 (q 100) (q 100) (q 80) (q 80) (q 20000000)].

(** 49 flat days at 100000, then a close of 102996: a rise of 2.996%. *)
Definition near_three : list TradingBot.Bar :=
  map (fun i => TradingBot.mkBar (Z.of_nat i) (q 100000) (q 100000) (q 100000)
                                 (q 100000) (q 2000000))
      (seq 0 49)
  ++ [TradingBot.mkBar 49 (q 100000) (q 102996) (q 100000) (q 102996)
                       (q 2000000)].

(** A history that rises by one every day. *)
Definition rising (n : nat) : list TradingBot.Bar :=
  map (fun i => let p := q (100 + Z.of_nat i) in
                TradingBot.mkBar (Z.of_nat i) p p p p (q 2000000))
      (seq 0 n).

(** The last twenty highs trace a left shoulder (10), a head (12) and a
    right shoulder (10) above a base of 5. *)
Definition shoulders_high (i : nat) : Z :=
  if (i =? 40)%nat then 10
  else if (i =? 44)%nat then 12
  else if (i =? 48)%nat then 10
  else 5.

Definition shoulders : list TechnicalAnalyzer.Bar :=
  map (fun i => TechnicalAnalyzer.mkBar (Z.of_nat i) (q 4) (q (shoulders_high i))
                                         (q 3) (q 4) (q 1000))
      (seq 0 50).

End Samples.

(* ================================================================== *)
(** ** More histories *)

Module MoreSamples.

Import Samples.

(** Long-horizon engine: sixty days that climb by 6 and fall back by 2 in
    turn from 20 to 136, then a day that loses 7 (about 5%) on four times
    the usual volume while the trend is still up. *)
Definition pullback_price (i : nat) : Z :=
  if (i =? 59)%nat then 129
  else (20 + 2 * Z.of_nat i + (if Nat.odd i then 4 else 0))%Z.

Definition pullback : list TradingBot.Bar :=
  map (fun i => let p := q (pullback_price i) in
                TradingBot.mkBar (Z.of_nat i) p p p p
                  (q (if (i =? 59)%nat then 8000000 else 2000000)))
      (seq 0 60).

(** The same prices on thin trading: every volume below the minimum. *)
Definition thin : list TradingBot.Bar :=
  map (fun b => TradingBot.mkBar (TradingBot.Date b) (TradingBot.Open b)
                  (TradingBot.High b) (TradingBot.Low b) (TradingBot.Close b)
                  (q 500000))
      pullback.

End MoreSamples.

(* ================================================================== *)
(** ** Views and frames used to state further properties *)

Module AnalyzerViews.

Import TechnicalAnalyzer.

(** The cells of the latest row read by the rules whose tags can count
    as evidence: price against the moving averages, the two crossovers
    and the oscillator. *)
Definition counted_view (r : Row)
  : Qc * fnum * fnum * fnum * fnum * fnum * fnum * fnum :=
  (close (bar r), ema_12 r, ema_26 r, sma_20 r, sma_50 r, macd r,
   macd_signal r, rsi r).

(** The cells of the previous row read by the two crossover rules. *)
Definition crossover_view (r : Row) : fnum * fnum * fnum * fnum :=
  (ema_12 r, ema_26 r, macd r, macd_signal r).

(** The two tests of the evidence count. *)
Definition is_bullish (s : string) : bool :=
  contains "BULLISH" s || contains "OVERSOLD" s.
Definition is_bearish (s : string) : bool :=
  contains "BEARISH" s || contains "OVERBOUGHT" s.

(** A row whose derived columns are all undefined. *)
Definition undefined_row (b : Bar) : Row :=
  {| bar := b;
     sma_20 := NaN; sma_50 := NaN; ema_12 := NaN; ema_26 := NaN;
     macd := NaN; macd_signal := NaN; macd_histogram := NaN; rsi := NaN;
     bb_upper := NaN; bb_middle := NaN; bb_lower := NaN; bb_width := NaN;
     volume_sma := NaN; obv := NaN; support := NaN; resistance := NaN;
     fib_23_6 := NaN; fib_38_2 := NaN; fib_50_0 := NaN; fib_61_8 := NaN |}.

Definition undefined_frame : DataFrame := map undefined_row (Samples.quiet 0 50).

End AnalyzerViews.

(* ================================================================== *)
(** ** Vocabulary for the long-horizon engine's columns *)

Module BotViews.

Import TradingBot.

(** The value of [Position] that goes with a value of [Signal]. *)
Definition position_of (d : Direction) : Z :=
  match d with
  | BUY => 1
  | SELL => -1
  | STRONG_SELL => -2
  | HOLD | NO_DATA => 0
  end.

(** The texts written to [Signal_Reason], by the kind of rule. *)
Definition buy_reasons : list string :=
  ["Long-term SMA Crossover"; "RSI Oversold Recovery";
   "Strong Uptrend Continuation"].

Definition sell_reasons : list string :=
  ["Confirmed SMA Bearish Crossover"; "RSI Extremely Overbought (80+)";
   "Major High Volume Sell-off"; "Long-term Bearish Divergence"].

Definition strong_sell_reasons : list string :=
  ["Multiple Confirmed Bearish Signals"; "Extreme Overbought (85+)";
   "Major Price Crash (-10%+)"].

(** Tests on cells: neither infinity; a finite value that is at least 0;
    a finite value between 0 and 100. *)
Definition no_inf (x : fnum) : bool :=
  match x with PInf | NInf => false | _ => true end.

Definition nonneg (x : fnum) : bool := leb zero x && negb (eqb x PInf).

Definition in_0_100 (x : fnum) : bool := leb zero x && leb x (ofZ 100).

Definition mem (s : string) (l : list string) : bool :=
  existsb (String.eqb s) l.

End BotViews.

(* ================================================================== *)
(** ** config.py: the stock lists, confirmation, watchlist and HOLD
       settings *)

Module BotSettings.

Definition INDONESIAN_STOCKS : list string :=
  ["BBCA.JK"; "BBRI.JK"; "BMRI.JK"; "TLKM.JK"; "ASII.JK";
   "UNVR.JK"; "ICBP.JK"; "GGRM.JK"; "INDF.JK"; "KLBF.JK"].

Definition DATA_PERIOD : string := "1y".

Definition ENABLE_CHATGPT_CONFIRMATION : bool := true.
Definition CHATGPT_CONFIDENCE_THRESHOLD : fnum := ofQ 0.7.
Definition CHATGPT_MAX_RETRIES : nat := 2.

Definition ENABLE_WATCHLIST : bool := true.
Definition WATCHLIST_STOCKS : list string :=
  ["BBCA.JK"; "BBRI.JK"; "BMRI.JK"; "TLKM.JK"; "AADI.JK"].
Definition WATCHLIST_ALERT_THRESHOLD : fnum := ofQ 0.5.
Definition WATCHLIST_PRIORITY_MULTIPLIER : fnum := ofQ 1.2.
Definition ENABLE_WATCHLIST_DAILY_SUMMARY : bool := true.
Definition WATCHLIST_PRICE_ALERT_PERCENTAGE : fnum := ofQ 5.0.
Definition ENABLE_WATCHLIST_VOLUME_ALERTS : bool := true.

Definition ENABLE_HOLD_SIGNALS : bool := true.
Definition HOLD_SIGNAL_CONFIDENCE_THRESHOLD : fnum := ofQ 0.3.
Definition SEND_HOLD_SIGNALS_REGARDLESS_OF_CONFIDENCE : bool := true.

End BotSettings.

(* ================================================================== *)
(** ** trading_bot.py: downloading, confirming, sending, the watchlist
       and the daily run

    The bot object is a record passed from call to call.  What the
    outside world answers is an argument: the downloads of Yahoo Finance,
    the replies of ChatGPT and the clock.  The texts of the Telegram
    messages are not built; a message is recorded by its kind and by the
    values it is formatted from, in the order of the calls of
    [send_telegram_message].  Drawing the chart and formatting the texts
    are taken to succeed. *)

Module IndonesianStockBot.

Import Config BotSettings TradingBot.

(** *** Python dictionaries keyed by symbol, and the slice [l[-n:]] *)

Section Dict.

Variable V : Type.

Fixpoint dict_get (k : string) (d : list (string * V)) : option V :=
  match d with
  | [] => None
  | (k', v) :: t => if String.eqb k k' then Some v else dict_get k t
  end.

Fixpoint dict_set (k : string) (v : V) (d : list (string * V))
  : list (string * V) :=
  match d with
  | [] => [(k, v)]
  | (k', v') :: t =>
      if String.eqb k k' then (k, v) :: t else (k', v') :: dict_set k v t
  end.

Definition keys (d : list (string * V)) : list string := map fst d.

End Dict.

Definition last_items (A : Type) (n : nat) (l : list A) : list A :=
  skipn (length l - n) l.

Definition is_empty (A : Type) (l : list A) : bool :=
  match l with [] => true | _ => false end.

(** *** [fetch_stock_data] *)

(** What [stock.history(period=...)] does: raise, or return a frame. *)
Inductive Download : Type :=
| DownloadError
| Downloaded (data : list Bar).

(** What an attempt does before the downloads: raise with a message, or
    give the ticker whose history is then asked for. *)
Inductive Ticker : Type :=
| TickerError (message : string)
| TickerReady (history : string -> Download).

Definition max_retries : nat := 3.

Definition periods_to_try : list string := [DATA_PERIOD; "30d"; "1mo"; "3mo"].

Definition lower_ascii (c : ascii) : ascii :=
  let n := nat_of_ascii c in
  if (65 <=? n)%nat && (n <=? 90)%nat then ascii_of_nat (n + 32) else c.

(** [str.lower()], on ASCII text. *)
Fixpoint lower (s : string) : string :=
  match s with
  | EmptyString => EmptyString
  | String c t => String (lower_ascii c) (lower t)
  end.

Definition enough_rows (data : list Bar) : bool :=
  negb (is_empty data)
  && (Nat.max SMA_LONG_PERIOD RSI_PERIOD <=? length data)%nat.

(** The inner loop over the periods: the result, and the periods whose
    history was requested, in order. *)
Fixpoint try_periods (history : string -> Download) (periods : list string)
  : option (list Bar) * list string :=
  match periods with
  | [] => (None, [])
  | period :: rest =>
      match history period with
      | Downloaded data =>
          if enough_rows data then (Some data, [period])
          else let (r, log) := try_periods history rest in (r, period :: log)
      | DownloadError =>
          let (r, log) := try_periods history rest in (r, period :: log)
      end
  end.

(** The handler of the outer [except]: is the next attempt made? *)
Definition retry_after (message : string) (attempt : nat) : bool :=
  let error_msg := lower message in
  if contains "429" error_msg || contains "too many requests" error_msg
  then (attempt <? max_retries - 1)%nat
  else if contains "404" error_msg || contains "not found" error_msg
  then false
  else (attempt <? max_retries - 1)%nat.

(** [for attempt in range(max_retries)]; the log lists the requested
    downloads as (attempt, period). *)
Fixpoint attempts (yf : nat -> Ticker) (remaining attempt : nat)
  : option (list Bar) * list (nat * string) :=
  match remaining with
  | O => (None, [])
  | S remaining' =>
      match yf attempt with
      | TickerReady history =>
          let (r, log) := try_periods history periods_to_try in
          (r, map (pair attempt) log)
      | TickerError message =>
          if retry_after message attempt
          then attempts yf remaining' (S attempt)
          else (None, [])
      end
  end.

Definition fetch_stock_data (yf : nat -> Ticker)
  : option (list Bar) * list (nat * string) :=
  attempts yf max_retries 0.

(** *** [get_chatgpt_confirmation] *)

(** The keys of the confirmation that the bot's decisions read.  Every
    dictionary the function returns has both. *)
Record Confirmation : Type := mkConfirmation {
  confidence : fnum;
  recommendation : string
}.

(** What one request to the model ends in: an exception; a text that is
    not JSON; JSON without one of the required fields; JSON with them. *)
Inductive ApiReply : Type :=
| ApiError
| NotJson
| MissingFields
| Parsed (c : Confirmation).

Definition disabled_confirmation : Confirmation :=
  {| confidence := ofQ 1.0; recommendation := "Proceed with original signal" |}.

Definition text_fallback : Confirmation :=
  {| confidence := ofQ 0.5; recommendation := "CONFIRM" |}.

Definition error_fallback : Confirmation :=
  {| confidence := ofQ 0.5; recommendation := "PROCEED_WITH_CAUTION" |}.

(** [for attempt in range(CHATGPT_MAX_RETRIES)]; [None] is the value of
    a call that reaches the end of the loop without a [return].  An
    exception raised while the request is prepared ends in the same
    fallback as two failed attempts. *)
Fixpoint request (api : nat -> ApiReply) (remaining attempt : nat)
  : option Confirmation :=
  match remaining with
  | O => None
  | S remaining' =>
      match api attempt with
      | Parsed c => Some c
      | MissingFields => request api remaining' (S attempt)
      | NotJson => Some text_fallback
      | ApiError =>
          if (attempt <? CHATGPT_MAX_RETRIES - 1)%nat
          then request api remaining' (S attempt)
          else Some error_fallback
      end
  end.

Definition get_chatgpt_confirmation (client : bool) (api : nat -> ApiReply)
  : option Confirmation :=
  if negb client || negb ENABLE_CHATGPT_CONFIRMATION
  then Some disabled_confirmation
  else request api CHATGPT_MAX_RETRIES 0.

(** *** The bot object *)

Inductive Alert : Type :=
| PRICE_MOVE (symbol : string) (old_price new_price change_pct : fnum)
             (timestamp : Z)
| HIGH_VOLUME (symbol : string) (volume_ratio : fnum) (volume : Z)
              (timestamp : Z).

Record HistoryItem : Type := mkHistoryItem {
  item_signal : Direction;
  item_price : fnum;
  item_timestamp : Z
}.

Record WatchlistEntry : Type := mkWatchlistEntry {
  last_price : fnum;
  last_update : Z;
  price_alerts : list Alert;
  volume_alerts : list Alert;
  signal_history : list HistoryItem
}.

Record Counters : Type := mkCounters {
  signals_sent : nat;
  buy_signals : nat;
  sell_signals : nat;
  strong_sell_signals : nat;
  hold_signals : nat;
  chatgpt_filtered_count : nat;
  chatgpt_confirmed : nat
}.

Inductive Message : Type :=
| SignalMessage (info : SignalInfo) (confirmation : Confirmation)
| AiAnalysisMessage (info : SignalInfo) (confirmation : Confirmation)
| StartMessage
| SummaryMessage (counters : Counters)
| AlertMessage (price volume : list Alert)
| WatchlistSummaryMessage (entries : list (string * option WatchlistEntry)).

Record Bot : Type := mkBot {
  openai_client : bool;
  signals_history : list (SignalInfo * Confirmation);
  watchlist_data : list (string * WatchlistEntry);
  watchlist_alerts : list Alert;
  telegram : list Message
}.

(** [__init__]: no history, no watchlist data, nothing sent. *)
Definition new_bot (client : bool) : Bot :=
  {| openai_client := client; signals_history := [];
     watchlist_data := []; watchlist_alerts := []; telegram := [] |}.

Definition send_telegram_message (m : Message) (bot : Bot) : Bot :=
  {| openai_client := openai_client bot;
     signals_history := signals_history bot;
     watchlist_data := watchlist_data bot;
     watchlist_alerts := watchlist_alerts bot;
     telegram := telegram bot ++ [m] |}.

(** *** The watchlist *)

Definition is_watchlist_stock (sym : string) : bool :=
  ENABLE_WATCHLIST && existsb (String.eqb sym) WATCHLIST_STOCKS.

Definition when (A : Type) (b : bool) (x : A) : list A :=
  if b then [x] else [].

Definition update_watchlist_data (now : Z) (sym : string) (info : SignalInfo)
           (bot : Bot) : Bot :=
  if negb (is_watchlist_stock sym) then bot
  else
    let watchlist_entry :=
      match dict_get sym (watchlist_data bot) with
      | Some e => e
      | None =>
          {| last_price := current_price info; last_update := now;
             price_alerts := []; volume_alerts := [];
             signal_history := [] |}
      end in
    let last := last_price watchlist_entry in
    let current := current_price info in
    let change_pct := ((current - last) / last * ofZ 100)%F in
    let price_moved :=
      (abs change_pct >=? WATCHLIST_PRICE_ALERT_PERCENTAGE)%F in
    let price_alert := PRICE_MOVE sym last current change_pct now in
    let high_volume :=
      ENABLE_WATCHLIST_VOLUME_ALERTS
      && (info_volume_ratio info >? HIGH_VOLUME_SELL_MULTIPLIER)%F in
    let volume_alert :=
      HIGH_VOLUME sym (info_volume_ratio info) (volume info) now in
    let entry :=
      {| last_price := current;
         last_update := now;
         price_alerts :=
           last_items 10
             (price_alerts watchlist_entry ++ when price_moved price_alert);
         volume_alerts :=
           last_items 10
             (volume_alerts watchlist_entry ++ when high_volume volume_alert);
         signal_history :=
           last_items 10
             (signal_history watchlist_entry
              ++ [{| item_signal := signal info; item_price := current;
                     item_timestamp := now |}]) |} in
    {| openai_client := openai_client bot;
       signals_history := signals_history bot;
       watchlist_data := dict_set sym entry (watchlist_data bot);
       watchlist_alerts :=
         watchlist_alerts bot ++ when price_moved price_alert
                              ++ when high_volume volume_alert;
       telegram := telegram bot |}.

Definition is_price_move (a : Alert) : bool :=
  match a with PRICE_MOVE _ _ _ _ _ => true | _ => false end.

Definition is_high_volume (a : Alert) : bool :=
  match a with HIGH_VOLUME _ _ _ _ => true | _ => false end.

Definition send_watchlist_alerts (bot : Bot) : Bot :=
  if negb ENABLE_WATCHLIST || is_empty (watchlist_alerts bot) then bot
  else
    let price := filter is_price_move (watchlist_alerts bot) in
    let volume := filter is_high_volume (watchlist_alerts bot) in
    if is_empty price && is_empty volume then bot
    else
      {| openai_client := openai_client bot;
         signals_history := signals_history bot;
         watchlist_data := watchlist_data bot;
         watchlist_alerts := [];
         telegram :=
           telegram bot
           ++ [AlertMessage (last_items 5 price) (last_items 5 volume)] |}.

(** [generate_watchlist_summary]: [None] for the empty text; otherwise
    one paragraph per watchlist symbol, from its entry if it has one. *)
Definition generate_watchlist_summary (bot : Bot) : option Message :=
  if negb ENABLE_WATCHLIST || negb ENABLE_WATCHLIST_DAILY_SUMMARY then None
  else
    Some (WatchlistSummaryMessage
            (map (fun sym => (sym, dict_get sym (watchlist_data bot)))
                 WATCHLIST_STOCKS)).

(** *** [analyze_stock] *)

(** The returned dictionary: the signal, and the two keys added when the
    signal went through the confirmation. *)
Record Analysis : Type := mkAnalysis {
  info : SignalInfo;
  chatgpt_filtered : bool;
  chatgpt_confirmation : option Confirmation
}.

Inductive Outcome : Type :=
| Raised
| Returned (r : option Analysis).

Definition signal_listed (d : Direction) : bool :=
  match d with
  | BUY | SELL | STRONG_SELL | HOLD => true
  | NO_DATA => false
  end.

(** The confidence of a watchlist stock is raised in the confirmation
    itself, which is later formatted and stored. *)
Definition boost (c : Confirmation) : Confirmation :=
  {| confidence :=
       py_min (ofQ 1.0) (confidence c * WATCHLIST_PRIORITY_MULTIPLIER)%F;
     recommendation := recommendation c |}.

(** The first [if]/[elif] chain: the flag, the threshold, and the
    confirmation as it is from then on. *)
Definition route (sym : string) (sig : Direction) (c : Confirmation)
  : bool * fnum * Confirmation :=
  if Direction_eqb sig HOLD then
    if negb ENABLE_HOLD_SIGNALS then (false, CHATGPT_CONFIDENCE_THRESHOLD, c)
    else if SEND_HOLD_SIGNALS_REGARDLESS_OF_CONFIDENCE then (true, ofQ 0.0, c)
    else (true, HOLD_SIGNAL_CONFIDENCE_THRESHOLD, c)
  else if is_watchlist_stock sym then (true, WATCHLIST_ALERT_THRESHOLD, boost c)
  else (true, CHATGPT_CONFIDENCE_THRESHOLD, c).

(** The second [if]: rejection and the threshold count only with a
    client. *)
Definition confirm (client : bool) (threshold : fnum) (c : Confirmation)
           (should_send_signal : bool) : bool :=
  if ENABLE_CHATGPT_CONFIRMATION && client then
    if String.eqb (recommendation c) "REJECT" then false
    else if (confidence c <? threshold)%F then false
    else should_send_signal
  else should_send_signal.

Definition should_send (client : bool) (sym : string) (sig : Direction)
           (c : Confirmation) : bool * Confirmation :=
  let '(flag, threshold, c') := route sym sig c in
  (confirm client threshold c' flag, c').

(** What the world answers while one symbol is analysed. *)
Record World : Type := mkWorld {
  yf : nat -> Ticker;
  api : nat -> ApiReply;
  now : Z
}.

(** A missing confirmation makes the function raise at the first use
    of the confirmation, before anything is sent or stored. *)
Definition analyze_stock (w : World) (sym : string) (bot : Bot)
  : Outcome * Bot :=
  match fst (fetch_stock_data (yf w)) with
  | None => (Returned None, bot)
  | Some data =>
      match TradingBot.analyze_stock data sym with
      | None => (Returned None, bot)
      | Some signal_info =>
          if signal_listed (signal signal_info) && valid signal_info then
            match get_chatgpt_confirmation (openai_client bot) (api w) with
            | None => (Raised, bot)
            | Some confirmation0 =>
                let (should_send_signal, confirmation) :=
                  should_send (openai_client bot) sym (signal signal_info)
                              confirmation0 in
                let bot1 :=
                  if should_send_signal then
                    {| openai_client := openai_client bot;
                       signals_history :=
                         signals_history bot ++ [(signal_info, confirmation)];
                       watchlist_data := watchlist_data bot;
                       watchlist_alerts := watchlist_alerts bot;
                       telegram :=
                         telegram bot
                         ++ [SignalMessage signal_info confirmation]
                         ++ when (ENABLE_CHATGPT_CONFIRMATION
                                  && openai_client bot)
                                 (AiAnalysisMessage signal_info confirmation) |}
                  else bot in
                (Returned
                   (Some {| info := signal_info;
                            chatgpt_filtered := negb should_send_signal;
                            chatgpt_confirmation := Some confirmation |}),
                 update_watchlist_data (now w) sym signal_info bot1)
            end
          else
            (Returned
               (Some {| info := signal_info; chatgpt_filtered := false;
                        chatgpt_confirmation := None |}),
             bot)
      end
  end.

(** *** [run_daily_analysis] *)

Definition no_counts : Counters := mkCounters 0 0 0 0 0 0 0.

(** The body of the loop after [analyze_stock] returned or raised. *)
Definition tally (o : Outcome) (c : Counters) : Counters :=
  match o with
  | Returned (Some a) =>
      if signal_listed (signal (info a)) then
        if chatgpt_filtered a then
          mkCounters (signals_sent c) (buy_signals c) (sell_signals c)
                     (strong_sell_signals c) (hold_signals c)
                     (S (chatgpt_filtered_count c)) (chatgpt_confirmed c)
        else
          let one d := if Direction_eqb (signal (info a)) d then 1%nat else 0%nat in
          mkCounters (S (signals_sent c))
                     (buy_signals c + one BUY) (sell_signals c + one SELL)
                     (strong_sell_signals c + one STRONG_SELL)
                     (hold_signals c + one HOLD)
                     (chatgpt_filtered_count c) (S (chatgpt_confirmed c))
      else c
  | _ => c
  end.

Fixpoint analyze_each (world : string -> World) (symbols : list string)
         (bot : Bot) (c : Counters) : Bot * Counters :=
  match symbols with
  | [] => (bot, c)
  | sym :: rest =>
      let (o, bot') := analyze_stock (world sym) sym bot in
      analyze_each world rest bot' (tally o c)
  end.

Definition run_daily_analysis (world : string -> World) (bot : Bot)
  : Bot * Counters :=
  let bot0 := send_telegram_message StartMessage bot in
  let (bot1, c) := analyze_each world INDONESIAN_STOCKS bot0 no_counts in
  let bot2 := send_telegram_message (SummaryMessage c) bot1 in
  let bot3 := send_watchlist_alerts bot2 in
  let bot4 :=
    if ENABLE_WATCHLIST && ENABLE_WATCHLIST_DAILY_SUMMARY then
      match generate_watchlist_summary bot3 with
      | Some m => send_telegram_message m bot3
      | None => bot3
      end
    else bot3 in
  (bot4, c).

End IndonesianStockBot.

(* ================================================================== *)
(** ** Vocabulary for the bot object *)

Module StockBotViews.

Import TradingBot IndonesianStockBot.

Definition is_signal_message (m : Message) : bool :=
  match m with SignalMessage _ _ => true | _ => false end.

(** The number of signal messages among the messages sent. *)
Definition signal_messages (bot : Bot) : nat :=
  length (filter is_signal_message (telegram bot)).

(** The symbol has an analysable history whose latest signal is not
    valid. *)
Definition invalid_signal (w : World) (sym : string) : bool :=
  match fst (fetch_stock_data (yf w)) with
  | Some data =>
      match TradingBot.analyze_stock data sym with
      | Some signal_info =>
          signal_listed (signal signal_info) && negb (valid signal_info)
      | None => false
      end
  | None => false
  end.

(** The bounds the code keeps on the entry of one watchlist symbol. *)
Definition entry_bounded (e : WatchlistEntry) : bool :=
  (length (price_alerts e) <=? 10)%nat
  && (length (volume_alerts e) <=? 10)%nat
  && (length (signal_history e) <=? 10)%nat
  && negb (is_empty (signal_history e)).

(** The shape of the watchlist store: one entry per symbol, only for
    watchlist symbols, each within its bounds. *)
Definition store_ok (bot : Bot) : Prop :=
  NoDup (keys (watchlist_data bot)) /\
  forall sym e,
    dict_get sym (watchlist_data bot) = Some e ->
    is_watchlist_stock sym = true /\ entry_bounded e = true.

(** The number of symbols of a list whose latest signal is not valid. *)
Definition invalid_count (world : string -> World) (symbols : list string) : nat :=
  length (filter (fun sym => invalid_signal (world sym) sym) symbols).

(** The sum of the four counters by kind. *)
Definition by_kind (c : Counters) : nat :=
  buy_signals c + sell_signals c + strong_sell_signals c + hold_signals c.

(** A state the bot reaches from its creation by analysing stocks. *)
Inductive reachable (client : bool) : Bot -> Prop :=
| reach_new : reachable client (new_bot client)
| reach_analyze (w : World) (sym : string) (bot : Bot) :
    reachable client bot ->
    reachable client (snd (analyze_stock w sym bot))
| reach_run (world : string -> World) (bot : Bot) :
    reachable client bot ->
    reachable client (fst (run_daily_analysis world bot)).

End StockBotViews.

(* ================================================================== *)
(** ** interactive_telegram_bot.py: the symbols of the interactive bot

    Text is ASCII: [upper], [strip] and [isalpha] act on the letters and
    the white space of ASCII. *)

Module InteractiveTradingBot.

Local Open Scope string_scope.

Definition upper_ascii (c : ascii) : ascii :=
  let n := nat_of_ascii c in
  if (97 <=? n)%nat && (n <=? 122)%nat then ascii_of_nat (n - 32) else c.

Fixpoint upper (s : string) : string :=
  match s with
  | EmptyString => EmptyString
  | String c t => String (upper_ascii c) (upper t)
  end.

Definition isspace (c : ascii) : bool :=
  let n := nat_of_ascii c in
  ((9 <=? n)%nat && (n <=? 13)%nat) || ((28 <=? n)%nat && (n <=? 32)%nat).

Definition isalpha (c : ascii) : bool :=
  let n := nat_of_ascii c in
  ((65 <=? n)%nat && (n <=? 90)%nat) || ((97 <=? n)%nat && (n <=? 122)%nat).

Fixpoint lstrip (s : string) : string :=
  match s with
  | EmptyString => EmptyString
  | String c t => if isspace c then lstrip t else s
  end.

Fixpoint rstrip (s : string) : string :=
  match s with
  | EmptyString => EmptyString
  | String c t =>
      match rstrip t with
      | EmptyString => if isspace c then EmptyString else String c EmptyString
      | t' => String c t'
      end
  end.

Definition strip (s : string) : string := rstrip (lstrip s).

(** [s.endswith(suffix)]: a tail of [s] is [suffix]. *)
Fixpoint endswith (s suffix : string) : bool :=
  String.eqb s suffix
  || match s with
     | EmptyString => false
     | String _ t => endswith t suffix
     end.

(** [any(char.isalpha() for char in symbol)]. *)
Fixpoint any_alpha (s : string) : bool :=
  match s with
  | EmptyString => false
  | String c t => isalpha c || any_alpha t
  end.

Definition crypto_pairs : list (string * string) :=
  [("BTC", "BTC-USD"); ("ETH", "ETH-USD"); ("BNB", "BNB-USD");
   ("ADA", "ADA-USD"); ("SOL", "SOL-USD"); ("DOGE", "DOGE-USD");
   ("XRP", "XRP-USD"); ("DOT", "DOT-USD"); ("AVAX", "AVAX-USD");
   ("MATIC", "MATIC-USD"); ("LINK", "LINK-USD"); ("UNI", "UNI-USD");
   ("LTC", "LTC-USD"); ("BCH", "BCH-USD"); ("ATOM", "ATOM-USD");
   ("FTT", "FTT-USD"); ("NEAR", "NEAR-USD"); ("ALGO", "ALGO-USD");
   ("VET", "VET-USD"); ("ICP", "ICP-USD"); ("FIL", "FIL-USD");
   ("TRX", "TRX-USD"); ("ETC", "ETC-USD"); ("XLM", "XLM-USD");
   ("MANA", "MANA-USD"); ("SAND", "SAND-USD"); ("CRO", "CRO-USD")].

Definition format_symbol (symbol : string) : string :=
  let symbol := strip (upper symbol) in
  match IndonesianStockBot.dict_get symbol crypto_pairs with
  | Some formatted => formatted
  | None =>
      if negb (endswith symbol ".JK") && negb (endswith symbol "-USD")
         && negb (endswith symbol "-USDT")
      then
        if any_alpha symbol && (String.length symbol <=? 6)%nat
        then symbol ++ ".JK"
        else symbol
      else symbol
  end.

Definition crypto_symbols : list string :=
  ["BTC"; "ETH"; "ADA"; "DOT"; "MATIC"; "SOL"; "AVAX"; "LINK"; "UNI";
   "AAVE"; "COMP"; "MKR"; "SNX"; "YFI"; "CRV"; "BAL"; "SUSHI"; "LTC";
   "BCH"; "XRP"; "BNB"; "DOGE"; "SHIB"; "ATOM"].

Definition is_crypto (symbol : string) : bool :=
  endswith symbol "-USD" || existsb (String.eqb symbol) crypto_symbols.

Definition get_asset_type (symbol : string) : string :=
  if is_crypto symbol then "Cryptocurrency"
  else if endswith symbol ".JK" then "Indonesian Stock"
  else "Stock".

End InteractiveTradingBot.

(* ================================================================== *)
(** ** run_production.py: the error counter of the production runner

    What a scheduled run ends in is an argument: the [try] block of
    [run_daily_analysis_safe] either completes (at a time) or raises.
    The main loop makes the scheduled runs one after the other as long as
    [running] holds. *)

Module ProductionTradingBot.

Record State : Type := mkState {
  running : bool;
  last_successful_run : option Z;
  error_count : nat
}.

Definition max_errors : nat := 5.

Inductive RunResult : Type :=
| Completed (finished : Z)
| Failed.

Definition run_daily_analysis_safe (r : RunResult) (st : State) : State :=
  match r with
  | Completed finished =>
      {| running := running st;
         last_successful_run := Some finished;
         error_count := 0 |}
  | Failed =>
      let count := S (error_count st) in
      {| running := if (max_errors <=? count)%nat then false else running st;
         last_successful_run := last_successful_run st;
         error_count := count |}
  end.

(** [while self.running]: the scheduled runs, in order. *)
Fixpoint main_loop (results : list RunResult) (st : State) : State :=
  match results with
  | [] => st
  | r :: rest =>
      if running st then main_loop rest (run_daily_analysis_safe r st)
      else st
  end.

(** [__init__], then [run_production] sets [running]. *)
Definition run_production (results : list RunResult) : State :=
  main_loop results
    {| running := true; last_successful_run := None; error_count := 0 |}.

End ProductionTradingBot.

(* ================================================================== *)
(** * Properties *)

Unset Implicit Arguments.

(** ** Lists and frames *)

Section ListFacts.

Context {A : Type}.

Lemma iloc_neg_some (k : nat) (l : list A) :
  (1 <= k)%nat -> (k <= length l)%nat -> exists x, iloc_neg k l = Some x.
Proof.
  intros Hk Hl. unfold iloc_neg.
  destruct (Nat.eqb_spec k 0) as [->|_]; [lia|].
  destruct (Nat.ltb_spec (length l) k) as [H|_]; [lia|].
  destruct (nth_error l (length l - k)) as [x|] eqn:E; [now exists x|].
  apply nth_error_None in E. lia.
Qed.

Lemma iloc_neg_1_app (l : list A) (x : A) : iloc_neg 1 (l ++ [x]) = Some x.
Proof.
  unfold iloc_neg. rewrite length_app. cbn [length Nat.eqb].
  destruct (Nat.ltb_spec (length l + 1) 1) as [H|_]; [lia|].
  replace (length l + 1 - 1)%nat with (length l) by lia.
  rewrite nth_error_app2 by lia. now rewrite Nat.sub_diag.
Qed.

End ListFacts.

(** ** Numbers *)

Module NumFacts.

Lemma this_Q2Qc (x : Q) : (this (Q2Qc x) == x)%Q.
Proof. apply Qred_correct. Qed.

Lemma this_plus (a b : Qc) : (this (a + b)%Qc == this a + this b)%Q.
Proof. apply Qred_correct. Qed.

Lemma this_mult (a b : Qc) : (this (a * b)%Qc == this a * this b)%Q.
Proof. apply Qred_correct. Qed.

Lemma this_opp (a : Qc) : (this (- a)%Qc == - this a)%Q.
Proof. apply Qred_correct. Qed.

Lemma this_minus (a b : Qc) : (this (a - b)%Qc == this a - this b)%Q.
Proof. unfold Qcminus. rewrite this_plus, this_opp. reflexivity. Qed.

Lemma this_inv (a : Qc) : (this (/ a)%Qc == / this a)%Q.
Proof. apply Qred_correct. Qed.

Lemma this_div (a b : Qc) : (this (a / b)%Qc == this a / this b)%Q.
Proof. unfold Qcdiv. rewrite this_mult, this_inv. reflexivity. Qed.

(** Move an order statement on canonical rationals to plain rationals. *)
Ltac to_Q :=
  unfold Qcle, Qclt in *;
  repeat (rewrite ?this_plus, ?this_mult, ?this_minus, ?this_opp, ?this_div,
                   ?this_inv, ?this_Q2Qc in * );
  cbn [this Q2Qc Qred] in *.

Lemma ltb_Fin (a b : Qc) : ltb (Fin a) (Fin b) = true <-> (a < b)%Qc.
Proof.
  unfold ltb, cmp. rewrite Qclt_alt.
  destruct (a ?= b)%Qc; split; congruence.
Qed.

Lemma gtb_Fin (a b : Qc) : gtb (Fin a) (Fin b) = true <-> (b < a)%Qc.
Proof. apply ltb_Fin. Qed.

Lemma leb_Fin (a b : Qc) : leb (Fin a) (Fin b) = true <-> (a <= b)%Qc.
Proof.
  unfold leb, cmp. rewrite Qcle_alt.
  destruct (a ?= b)%Qc; split; congruence.
Qed.

Lemma eqb_Fin (a b : Qc) : eqb (Fin a) (Fin b) = true <-> a = b.
Proof.
  unfold eqb, cmp. rewrite Qceq_alt.
  destruct (a ?= b)%Qc; split; congruence.
Qed.

(** The boolean [==] decides Leibniz equality, NaN apart. *)
Lemma eqb_eq (x y : fnum) : eqb x y = true -> x = y.
Proof.
  destruct x as [a| | |], y as [b| | |]; try discriminate; try reflexivity.
  intros H. apply eqb_Fin in H. now subst.
Qed.

Lemma eqb_false_neq (x y : fnum) : eqb x y = false -> isna x = false -> x <> y.
Proof.
  intros H N E. subst y. destruct x as [a| | |]; try discriminate.
  assert (eqb (Fin a) (Fin a) = true) by now apply eqb_Fin.
  congruence.
Qed.

(** Settle a closed (in)equation between computed numbers. *)
Ltac fnum_eq := apply eqb_eq; vm_compute; reflexivity.
Ltac fnum_neq := apply eqb_false_neq; vm_compute; reflexivity.

Lemma ltb_false_Fin (a b : Qc) : ltb (Fin a) (Fin b) = false <-> (b <= a)%Qc.
Proof.
  rewrite <- Bool.not_true_iff_false, ltb_Fin. split.
  - apply Qcnot_lt_le.
  - intros H H'. exact (Qcle_not_lt _ _ H H').
Qed.

Lemma ltb_trans (x y z : fnum) :
  ltb x y = true -> ltb y z = true -> ltb x z = true.
Proof.
  destruct x as [a| | |], y as [b| | |], z as [c| | |];
    try discriminate; try reflexivity.
  rewrite !ltb_Fin. apply Qclt_trans.
Qed.

Lemma py_max_Fin (a b : Qc) :
  exists c, py_max (Fin a) (Fin b) = Fin c /\
            (a <= c)%Qc /\ (b <= c)%Qc /\ (c = a \/ c = b).
Proof.
  unfold py_max. destruct (gtb (Fin b) (Fin a)) eqn:E.
  - apply gtb_Fin in E. exists b. repeat split; auto.
    + now apply Qclt_le_weak.
    + apply Qcle_refl.
  - apply ltb_false_Fin in E. exists a. repeat split; auto. apply Qcle_refl.
Qed.

Lemma py_min_Fin (a b : Qc) :
  exists c, py_min (Fin a) (Fin b) = Fin c /\
            (c <= a)%Qc /\ (c <= b)%Qc /\ (c = a \/ c = b).
Proof.
  unfold py_min. destruct (ltb (Fin b) (Fin a)) eqn:E.
  - apply ltb_Fin in E. exists b. repeat split; auto.
    + now apply Qclt_le_weak.
    + apply Qcle_refl.
  - apply ltb_false_Fin in E. exists a. repeat split; auto. apply Qcle_refl.
Qed.

Lemma sgn_Lt (a : Qc) : sgn a = Lt <-> (a < 0)%Qc.
Proof. unfold sgn. symmetry. apply Qclt_alt. Qed.

Lemma sgn_Eq (a : Qc) : sgn a = Eq <-> a = 0%Qc.
Proof. unfold sgn. symmetry. apply Qceq_alt. Qed.

Lemma sgn_Gt (a : Qc) : sgn a = Gt <-> (0 < a)%Qc.
Proof. unfold sgn. rewrite Qclt_alt, <- Qcgt_alt. reflexivity. Qed.

Lemma abs_Fin (a : Qc) :
  exists b, abs (Fin a) = Fin b /\ (0 <= b)%Qc /\ (b = 0%Qc <-> a = 0%Qc).
Proof.
  unfold abs. destruct (sgn a) eqn:E.
  - apply (proj1 (sgn_Eq a)) in E. subst a. exists 0%Qc. repeat split; auto.
    apply Qcle_refl.
  - apply (proj1 (sgn_Lt a)) in E. exists (- a)%Qc. repeat split.
    + to_Q. lra.
    + intros H. apply Qc_is_canon. apply (f_equal this) in H.
      revert H. to_Q. intros H.
      assert (- this a == 0)%Q as H' by (rewrite <- this_opp, H; reflexivity).
      lra.
    + intros ->. apply Qc_is_canon. reflexivity.
  - apply (proj1 (sgn_Gt a)) in E. exists a. repeat split; auto.
    now apply Qclt_le_weak.
Qed.

Lemma pow10_pos (n : nat) : (0 < pow10 n)%Z.
Proof. unfold pow10. apply Z.pow_pos_nonneg; lia. Qed.

Lemma rint_nonneg (x : Q) : (0 <= x)%Q -> (0 <= rint x)%Z.
Proof.
  intros H. unfold rint.
  assert (0 <= Qfloor x)%Z as F.
  { change 0%Z with (Qfloor 0). now apply Qfloor_resp_le. }
  destruct (_ ?= _)%Q; [destruct (Z.even _)| |]; lia.
Qed.

Lemma round_q_nonneg (nd : nat) (a : Qc) : (0 <= a)%Qc -> (0 <= round_q nd a)%Qc.
Proof.
  intros H. unfold round_q. pose proof (pow10_pos nd) as P.
  assert (0 <= rint (this a * inject_Z (pow10 nd)))%Z as R.
  { apply rint_nonneg. unfold Qcle in H. cbn [this Q2Qc Qred] in H.
    apply Qmult_le_0_compat; [exact H|].
    change 0%Q with (inject_Z 0). rewrite <- Zle_Qle. lia. }
  unfold Qcle. rewrite !this_Q2Qc.
  apply Qle_shift_div_l.
  - change 0%Q with (inject_Z 0). rewrite <- Zlt_Qlt. exact P.
  - rewrite Qmult_0_l. change 0%Q with (inject_Z 0). now rewrite <- Zle_Qle.
Qed.

Lemma div_Fin_pos (a b : Qc) :
  (0 < b)%Qc -> div (Fin a) (Fin b) = Fin (a / b)%Qc.
Proof.
  intros H. unfold div. apply (proj2 (sgn_Gt b)) in H. now rewrite H.
Qed.

Lemma Qcdiv_nonneg (a b : Qc) : (0 <= a)%Qc -> (0 < b)%Qc -> (0 <= a / b)%Qc.
Proof.
  intros Ha Hb. to_Q. apply Qle_shift_div_l; [exact Hb|]. lra.
Qed.

End NumFacts.

(** ** Series *)

Module PandasFacts.

Import NumFacts.

Lemma map2_length (A B C : Type) (f : A -> B -> C) (a : list A) (b : list B) :
  length (map2 f a b) = Nat.min (length a) (length b).
Proof. unfold map2. now rewrite length_map, length_combine. Qed.

Lemma nth_map2 (A B C : Type) (f : A -> B -> C) (a : list A) (b : list B)
      (i : nat) (da : A) (db : B) (d : C) :
  (i < length a)%nat -> (i < length b)%nat ->
  nth i (map2 f a b) d = f (nth i a da) (nth i b db).
Proof.
  revert b i. induction a as [|x a IH]; intros [|y b] [|i] Ha Hb;
    cbn in *; try lia; try reflexivity.
  apply IH; lia.
Qed.

(** A cell of a pointwise combination that holds a value other than the
    default comes from cells of both operands. *)
Lemma nth_map2_default (A B C : Type) (f : A -> B -> C) (a : list A) (b : list B)
      (i : nat) (da : A) (db : B) (d : C) :
  nth i (map2 f a b) d = d \/ nth i (map2 f a b) d = f (nth i a da) (nth i b db).
Proof.
  revert b i. induction a as [|x a IH]; intros [|y b] [|i]; cbn;
    auto. apply IH.
Qed.

Lemma nth_map_seq (A : Type) (g : nat -> A) (n i : nat) (d : A) :
  (i < n)%nat -> nth i (map g (seq 0 n)) d = g i.
Proof.
  intros H. rewrite (nth_indep _ d (g 0%nat)) by now rewrite length_map, length_seq.
  rewrite map_nth. now rewrite seq_nth.
Qed.

Lemma rolling_length (agg : list fnum -> fnum) (w : nat) (s : Series) :
  length (rolling agg w s) = length s.
Proof. unfold rolling. now rewrite length_map, length_seq. Qed.

Lemma rolling_at (agg : list fnum -> fnum) (w : nat) (s : Series) (i : nat) :
  (i < length s)%nat ->
  at_ (rolling agg w s) i = if (i + 1 <? w)%nat then NaN else agg (window w i s).
Proof. intros H. unfold at_, rolling. now rewrite nth_map_seq. Qed.

Lemma shift_length (k : nat) (s : Series) : length (shift k s) = length s.
Proof.
  unfold shift. rewrite length_firstn, length_app, repeat_length. lia.
Qed.

Lemma has_nan_Fin (l : list Qc) : has_nan (map Fin l) = false.
Proof. induction l; cbn; auto. Qed.

Lemma fold_min2_Fin (l : list Qc) (x : Qc) :
  exists m, fold_left min2 (map Fin l) (Fin x) = Fin m /\
            In m (x :: l) /\ forall y, In y (x :: l) -> (m <= y)%Qc.
Proof.
  revert x. induction l as [|a l IH]; intros x; cbn [map fold_left].
  - exists x. split; [reflexivity|]. split; [now left|].
    intros y [<-|[]]. apply Qcle_refl.
  - unfold min2 at 2. destruct (ltb (Fin a) (Fin x)) eqn:E.
    + apply ltb_Fin in E. destruct (IH a) as (m & Hm & Hin & Hle).
      exists m. split; [exact Hm|]. split.
      * destruct Hin as [<-|Hin]; [right; now left|right; now right].
      * intros y [<-|[<-|Hy]].
        -- apply Qcle_trans with a; [apply Hle; now left|now apply Qclt_le_weak].
        -- apply Hle. now left.
        -- apply Hle. now right.
    + apply ltb_false_Fin in E. destruct (IH x) as (m & Hm & Hin & Hle).
      exists m. split; [exact Hm|]. split.
      * destruct Hin as [<-|Hin]; [now left|right; now right].
      * intros y [<-|[<-|Hy]].
        -- apply Hle. now left.
        -- apply Qcle_trans with x; [apply Hle; now left|exact E].
        -- apply Hle. now right.
Qed.

Lemma fold_max2_Fin (l : list Qc) (x : Qc) :
  exists m, fold_left max2 (map Fin l) (Fin x) = Fin m /\
            In m (x :: l) /\ forall y, In y (x :: l) -> (y <= m)%Qc.
Proof.
  revert x. induction l as [|a l IH]; intros x; cbn [map fold_left].
  - exists x. split; [reflexivity|]. split; [now left|].
    intros y [<-|[]]. apply Qcle_refl.
  - unfold max2 at 2. destruct (gtb (Fin a) (Fin x)) eqn:E.
    + apply gtb_Fin in E. destruct (IH a) as (m & Hm & Hin & Hle).
      exists m. split; [exact Hm|]. split.
      * destruct Hin as [<-|Hin]; [right; now left|right; now right].
      * intros y [<-|[<-|Hy]].
        -- apply Qcle_trans with a; [now apply Qclt_le_weak|apply Hle; now left].
        -- apply Hle. now left.
        -- apply Hle. now right.
    + apply ltb_false_Fin in E. destruct (IH x) as (m & Hm & Hin & Hle).
      exists m. split; [exact Hm|]. split.
      * destruct Hin as [<-|Hin]; [now left|right; now right].
      * intros y [<-|[<-|Hy]].
        -- apply Hle. now left.
        -- apply Qcle_trans with x; [exact E|apply Hle; now left].
        -- apply Hle. now right.
Qed.

(** The minimum of a non-empty window of finite values is one of them
    and is below all of them. *)
Lemma win_min_Fin (l : list Qc) :
  l <> [] ->
  exists m, win_min (map Fin l) = Fin m /\ In m l /\
            forall y, In y l -> (m <= y)%Qc.
Proof.
  intros H. unfold win_min. rewrite has_nan_Fin.
  destruct l as [|x l]; [congruence|]. apply fold_min2_Fin.
Qed.

Lemma win_max_Fin (l : list Qc) :
  l <> [] ->
  exists m, win_max (map Fin l) = Fin m /\ In m l /\
            forall y, In y l -> (y <= m)%Qc.
Proof.
  intros H. unfold win_max. rewrite has_nan_Fin.
  destruct l as [|x l]; [congruence|]. apply fold_max2_Fin.
Qed.

Lemma window_map_Fin (w i : nat) (l : list Qc) :
  window w i (map Fin l) = map Fin (firstn w (skipn (i + 1 - w) l)).
Proof. unfold window. now rewrite skipn_map, firstn_map. Qed.

(** A full window ending at [i] contains the cell at [i]. *)
Lemma window_contains_last (A : Type) (w i : nat) (l : list A) (d : A) :
  (1 <= w)%nat -> (w <= i + 1)%nat -> (i < length l)%nat ->
  In (nth i l d) (firstn w (skipn (i + 1 - w) l)).
Proof.
  intros Hw Hi Hl.
  replace (nth i l d) with (nth (w - 1) (firstn w (skipn (i + 1 - w) l)) d).
  - apply nth_In. rewrite length_firstn, length_skipn. lia.
  - rewrite nth_firstn.
    destruct (Nat.ltb_spec (w - 1) w) as [_|H]; [|lia].
    rewrite nth_skipn. f_equal. lia.
Qed.

(** From position [w - 1] on, the rolling minimum (maximum) of a finite
    column is finite and bounds the current cell. *)
Lemma rolling_min_bound (w i : nat) (l : list Qc) (d : Qc) :
  (1 <= w)%nat -> (w <= i + 1)%nat -> (i < length l)%nat ->
  exists m, at_ (rolling_min w (map Fin l)) i = Fin m /\ (m <= nth i l d)%Qc.
Proof.
  intros Hw Hi Hl. unfold rolling_min.
  rewrite rolling_at by now rewrite length_map.
  destruct (Nat.ltb_spec (i + 1) w) as [H|_]; [lia|].
  rewrite window_map_Fin.
  pose proof (window_contains_last Qc w i l d Hw Hi Hl) as Hin.
  destruct (win_min_Fin (firstn w (skipn (i + 1 - w) l))) as (m & E & _ & Hle).
  { intros E. now rewrite E in Hin. }
  exists m. split; [exact E|]. now apply Hle.
Qed.

Lemma rolling_max_bound (w i : nat) (l : list Qc) (d : Qc) :
  (1 <= w)%nat -> (w <= i + 1)%nat -> (i < length l)%nat ->
  exists m, at_ (rolling_max w (map Fin l)) i = Fin m /\ (nth i l d <= m)%Qc.
Proof.
  intros Hw Hi Hl. unfold rolling_max.
  rewrite rolling_at by now rewrite length_map.
  destruct (Nat.ltb_spec (i + 1) w) as [H|_]; [lia|].
  rewrite window_map_Fin.
  pose proof (window_contains_last Qc w i l d Hw Hi Hl) as Hin.
  destruct (win_max_Fin (firstn w (skipn (i + 1 - w) l))) as (m & E & _ & Hle).
  { intros E. now rewrite E in Hin. }
  exists m. split; [exact E|]. now apply Hle.
Qed.

Lemma series_eqb_eq (a b : Series) : series_eqb a b = true -> a = b.
Proof.
  revert b. induction a as [|x a IH]; intros [|y b]; cbn; try discriminate.
  - reflexivity.
  - intros H. apply andb_prop in H as [H1 H2].
    f_equal; [now apply eqb_eq|now apply IH].
Qed.

(** Settle a closed equation between computed series. *)
Ltac series_eq := apply series_eqb_eq; vm_compute; reflexivity.

Lemma nth_error_indexed (A B : Type) (f : nat * A -> B) (l : list A) (a i : nat) :
  nth_error (map f (combine (seq a (length l)) l)) i
  = option_map (fun x => f ((a + i)%nat, x)) (nth_error l i).
Proof.
  revert a i. induction l as [|x l IH]; intros a [|i]; cbn; auto.
  - now rewrite Nat.add_0_r.
  - rewrite IH. now replace (S a + i)%nat with (a + S i)%nat by lia.
Qed.

End PandasFacts.

(** ** The short-horizon analyzer *)

Module AnalyzerFacts.

Import TechnicalAnalyzer NumFacts PandasFacts.

Lemma calculate_indicators_length (ta : TaLib) (bars : list Bar) :
  length (calculate_indicators ta bars) = length bars.
Proof.
  unfold calculate_indicators. rewrite length_map, length_combine, length_seq.
  apply Nat.min_id.
Qed.

Lemma col_as_map (f : Bar -> Qc) (bars : list Bar) :
  col f bars = map Fin (map f bars).
Proof. unfold col. now rewrite map_map. Qed.

(** The last row of the indicator table of at least 20 bars: it carries
    the last bar, and its support and resistance are finite and enclose
    that bar's low and high. *)
Lemma indicators_latest (ta : TaLib) (bars : list Bar) (latest : Row) :
  (20 <= length bars)%nat ->
  iloc_neg 1 (calculate_indicators ta bars) = Some latest ->
  exists b s r,
    iloc_neg 1 bars = Some b /\ bar latest = b /\
    support latest = Fin s /\ resistance latest = Fin r /\
    (s <= low b)%Qc /\ (high b <= r)%Qc.
Proof.
  intros Hn E.
  unfold iloc_neg in E. rewrite calculate_indicators_length in E.
  cbn [Nat.eqb] in E.
  destruct (Nat.ltb_spec (length bars) 1) as [H|_]; [lia|].
  unfold calculate_indicators in E. cbv zeta in E.
  rewrite nth_error_indexed in E. cbn [Nat.add] in E.
  destruct (nth_error bars (length bars - 1)) as [b|] eqn:Eb; [|discriminate].
  cbn [option_map fst snd] in E. injection E as <-.
  cbn [bar support resistance].
  pose proof (nth_error_nth _ _ b Eb) as Nb.
  destruct (rolling_min_bound 20 (length bars - 1) (map low bars) (low b))
    as (s & Es & Hs); [lia|lia|rewrite length_map; lia|].
  destruct (rolling_max_bound 20 (length bars - 1) (map high bars) (high b))
    as (r & Er & Hr); [lia|lia|rewrite length_map; lia|].
  rewrite map_nth, Nb in Hs, Hr.
  exists b, s, r. rewrite !col_as_map.
  repeat split; auto.
  unfold iloc_neg. cbn [Nat.eqb].
  destruct (Nat.ltb_spec (length bars) 1) as [H|_]; [lia|exact Eb].
Qed.

Lemma generate_signals_short (now : Z) (df : DataFrame) :
  (length df < 50)%nat -> generate_signals now df = empty_signal now.
Proof.
  intros H. unfold generate_signals.
  now destruct (Nat.ltb_spec (length df) 50) as [_|H']; [|lia].
Qed.

Lemma generate_signals_long (now : Z) (df : DataFrame) :
  (50 <= length df)%nat ->
  exists latest prev,
    iloc_neg 1 df = Some latest /\ iloc_neg 2 df = Some prev /\
    generate_signals now df = signal_from df latest prev.
Proof.
  intros H. unfold generate_signals.
  destruct (Nat.ltb_spec (length df) 50) as [H'|_]; [lia|].
  destruct (iloc_neg_some 1 df) as [latest E1]; [lia|lia|].
  destruct (iloc_neg_some 2 df) as [prev E2]; [lia|lia|].
  exists latest, prev. now rewrite E1, E2.
Qed.

Lemma signal_from_decide (df : DataFrame) (latest prev : Row) :
  (signal (signal_from df latest prev), confidence (signal_from df latest prev))
  = decide (bullish_count latest prev) (bearish_count latest prev).
Proof.
  unfold signal_from.
  destruct (decide _ _) as [dir conf].
  now destruct (levels dir latest) as [[entry stop] take].
Qed.

(** C1. On a frame of at least 50 rows, with [latest] and [prev] its last
    two rows, the direction follows the two evidence counts: more bullish
    than bearish tags and at least two of them give BUY with confidence
    min(20 x bullish, 100); more bearish than bullish and at least two
    give SELL with confidence min(20 x bearish, 100); every other case, in
    particular equal counts, gives HOLD with confidence 50. *)
Theorem fusion_by_evidence_count (now : Z) (df : DataFrame) :
  (50 <= length df)%nat ->
  exists latest prev,
    iloc_neg 1 df = Some latest /\ iloc_neg 2 df = Some prev /\
    let bull := bullish_count latest prev in
    let bear := bearish_count latest prev in
    let s := generate_signals now df in
    ((bull > bear)%Z /\ (bull >= 2)%Z ->
       signal s = BUY /\ confidence s = Z.min (bull * 20) 100) /\
    ((bear > bull)%Z /\ (bear >= 2)%Z ->
       signal s = SELL /\ confidence s = Z.min (bear * 20) 100) /\
    (~ ((bull > bear)%Z /\ (bull >= 2)%Z) /\ ~ ((bear > bull)%Z /\ (bear >= 2)%Z) ->
       signal s = HOLD /\ confidence s = 50%Z) /\
    (bull = bear -> signal s = HOLD /\ confidence s = 50%Z).
Proof.
  intros H.
  destruct (generate_signals_long now df H) as (latest & prev & E1 & E2 & E).
  exists latest, prev. split; [exact E1|]. split; [exact E2|].
  cbv zeta. rewrite E.
  pose proof (signal_from_decide df latest prev) as D.
  set (bull := bullish_count latest prev) in *.
  set (bear := bearish_count latest prev) in *.
  unfold decide in D.
  destruct (Z.gtb_spec bull bear) as [G1|G1];
    destruct (Z.geb_spec bull 2) as [G2|G2];
    destruct (Z.gtb_spec bear bull) as [G3|G3];
    destruct (Z.geb_spec bear 2) as [G4|G4];
    cbn [andb] in D; injection D as -> ->;
    repeat split; intros; try lia; try reflexivity.
Qed.

Lemma fusion_by_evidence_count_witness :
  let df := calculate_indicators TaReference.ta_reference Samples.breakout in
  (50 <= length df)%nat /\
  exists latest prev,
    iloc_neg 1 df = Some latest /\ iloc_neg 2 df = Some prev /\
    let bull := bullish_count latest prev in
    let bear := bearish_count latest prev in
    let s := generate_signals 7 df in
    ((bull > bear)%Z /\ (bull >= 2)%Z ->
       signal s = BUY /\ confidence s = Z.min (bull * 20) 100) /\
    ((bear > bull)%Z /\ (bear >= 2)%Z ->
       signal s = SELL /\ confidence s = Z.min (bear * 20) 100) /\
    (~ ((bull > bear)%Z /\ (bull >= 2)%Z) /\ ~ ((bear > bull)%Z /\ (bear >= 2)%Z) ->
       signal s = HOLD /\ confidence s = 50%Z) /\
    (bull = bear -> signal s = HOLD /\ confidence s = 50%Z).
Proof.
  cbv zeta.
  assert (50 <= length (calculate_indicators TaReference.ta_reference
                                             Samples.breakout))%nat as H
    by (vm_compute; lia).
  split; [exact H|].
  exact (fusion_by_evidence_count 7 _ H).
Defined.

(** C2. A frame of fewer than 50 rows is answered by the empty signal:
    direction NO_DATA, confidence 0, and entry price, stop-loss,
    take-profit and risk/reward all 0; the same holds of the whole
    analysis of fewer than 50 bars, whatever the indicator library. *)
Theorem short_series_no_data (now : Z) (df : DataFrame) :
  (length df < 50)%nat ->
  let s := generate_signals now df in
  signal s = NO_DATA /\ confidence s = 0%Z /\
  entry_price s = zero /\ stop_loss s = zero /\ take_profit s = zero /\
  risk_reward s = zero /\
  forall (ta : TaLib) (bars : list Bar),
    (length bars < 50)%nat -> analyze ta now bars = empty_signal now.
Proof.
  intros H s. subst s. rewrite (generate_signals_short now df H).
  repeat split. intros ta bars Hb. unfold analyze.
  apply generate_signals_short. now rewrite calculate_indicators_length.
Qed.

Lemma short_series_no_data_witness :
  let df := calculate_indicators TaReference.ta_reference (Samples.quiet 0 10) in
  (length df < 50)%nat /\
  let s := generate_signals 7 df in
  signal s = NO_DATA /\ confidence s = 0%Z /\
  entry_price s = zero /\ stop_loss s = zero /\ take_profit s = zero /\
  risk_reward s = zero /\
  forall (ta : TaLib) (bars : list Bar),
    (length bars < 50)%nat -> analyze ta 7 bars = empty_signal 7.
Proof.
  cbv zeta.
  assert (length (calculate_indicators TaReference.ta_reference
                                       (Samples.quiet 0 10)) < 50)%nat as H
    by (vm_compute; lia).
  split; [exact H|].
  exact (short_series_no_data 7 _ H).
Defined.

Lemma Qc_zero_div (b : Qc) : (0 / b = 0)%Qc.
Proof.
  apply Qc_is_canon. rewrite this_div. change (this 0%Qc) with 0%Q.
  unfold Qdiv. apply Qmult_0_l.
Qed.

Lemma Qc_minus_diag_fnum (e : Qc) : sub (Fin e) (Fin e) = Fin 0%Qc.
Proof.
  unfold sub, neg, add. f_equal. apply Qc_is_canon.
  rewrite this_plus, this_opp, this_Q2Qc. lra.
Qed.

Lemma round_q_zero (nd : nat) : round_q nd 0%Qc = 0%Qc.
Proof.
  unfold round_q. change (this 0%Qc) with 0%Q.
  assert (rint (0 * inject_Z (pow10 nd)) = 0%Z) as ->.
  { unfold rint, Qfloor, Qmult, inject_Z. now cbn. }
  apply Qc_is_canon. rewrite !this_Q2Qc.
  unfold Qdiv. apply Qmult_0_l.
Qed.

Lemma levels_Fin (d : Direction) (latest : Row) (s r : Qc) :
  support latest = Fin s -> resistance latest = Fin r ->
  exists e st t, levels d latest = (Fin e, Fin st, Fin t).
Proof.
  intros Es Er. unfold levels, cl. rewrite Es, Er.
  destruct d; try (exists 0%Qc, 0%Qc, 0%Qc; reflexivity).
  - destruct (py_max_Fin s (close (bar latest) * Q2Qc 0.95)) as (st & E1 & _).
    destruct (py_min_Fin r (close (bar latest) * Q2Qc 1.1)) as (t & E2 & _).
    exists (close (bar latest)), st, t.
    change (Fin (close (bar latest)) * ofQ 0.95)%F
      with (Fin (close (bar latest) * Q2Qc 0.95)).
    change (Fin (close (bar latest)) * ofQ 1.1)%F
      with (Fin (close (bar latest) * Q2Qc 1.1)).
    now rewrite E1, E2.
  - destruct (py_min_Fin r (close (bar latest) * Q2Qc 1.05)) as (st & E1 & _).
    destruct (py_max_Fin s (close (bar latest) * Q2Qc 0.9)) as (t & E2 & _).
    exists (close (bar latest)), st, t.
    change (Fin (close (bar latest)) * ofQ 1.05)%F
      with (Fin (close (bar latest) * Q2Qc 1.05)).
    change (Fin (close (bar latest)) * ofQ 0.9)%F
      with (Fin (close (bar latest) * Q2Qc 0.9)).
    now rewrite E1, E2.
Qed.

Lemma signal_from_levels (df : DataFrame) (latest prev : Row) :
  let s := signal_from df latest prev in
  (entry_price s, stop_loss s, take_profit s) = levels (signal s) latest /\
  risk_reward s = risk_reward_of (entry_price s) (stop_loss s) (take_profit s).
Proof.
  unfold signal_from.
  destruct (decide _ _) as [dir conf].
  cbv zeta. destruct (levels dir latest) as [[entry stop] take] eqn:E.
  cbn. now rewrite E.
Qed.

(** Rounding half to even gives 0 exactly up to one half. *)
Lemma rint_zero_iff (x : Q) : (0 <= x)%Q -> (rint x = 0%Z <-> (x <= 1 # 2)%Q).
Proof.
  intros H.
  assert (0 <= Qfloor x)%Z as F
    by (change 0%Z with (Qfloor 0); now apply Qfloor_resp_le).
  pose proof (Qfloor_le x) as L. pose proof (Qlt_floor x) as U.
  unfold rint.
  destruct (Qcompare_spec (x - inject_Z (Qfloor x)) (1 # 2)) as [A|A|A].
  - split.
    + intros E.
      assert (Qfloor x = 0)%Z as Z0 by (destruct (Z.even (Qfloor x)); lia).
      rewrite Z0 in A. change (inject_Z 0) with 0%Q in A. lra.
    + intros X.
      assert (Qfloor x = 0)%Z as Z0.
      { destruct (Z.eq_dec (Qfloor x) 0) as [E|E]; [exact E|exfalso].
        assert (1 <= Qfloor x)%Z as G by lia.
        rewrite Zle_Qle in G. change (inject_Z 1) with 1%Q in G. lra. }
      rewrite Z0. reflexivity.
  - split.
    + intros E. rewrite E in A. change (inject_Z 0) with 0%Q in A. lra.
    + intros X.
      destruct (Z.eq_dec (Qfloor x) 0) as [E|E]; [exact E|exfalso].
      assert (1 <= Qfloor x)%Z as G by lia.
      rewrite Zle_Qle in G. change (inject_Z 1) with 1%Q in G. lra.
  - split.
    + intros E. lia.
    + intros X. exfalso.
      assert (0 <= inject_Z (Qfloor x))%Q as G
        by (change 0%Q with (inject_Z 0); now rewrite <- Zle_Qle).
      lra.
Qed.

(** Two decimals: a non-negative number rounds to 0 exactly when 200
    times the number is at most 1. *)
Lemma round_q_zero_iff (a : Qc) :
  (0 <= a)%Qc ->
  (round_q 2 a = 0%Qc <-> (Q2Qc (inject_Z 200) * a <= Q2Qc (inject_Z 1))%Qc).
Proof.
  intros H. unfold round_q. change (pow10 2) with 100%Z.
  assert (0 <= this a * inject_Z 100)%Q as P.
  { unfold Qcle in H. change (this 0%Qc) with 0%Q in H.
    change (inject_Z 100) with 100%Q. lra. }
  pose proof (rint_zero_iff _ P) as R.
  set (z := rint (this a * inject_Z 100)) in *.
  split.
  - intros E. apply (f_equal this) in E.
    assert (inject_Z z / inject_Z 100 == 0)%Q as E'.
    { rewrite <- (this_Q2Qc (inject_Z z / inject_Z 100)), E. reflexivity. }
    assert (z = 0%Z) as Z0.
    { change (inject_Z 100) with 100%Q in E'.
      assert (inject_Z z == inject_Z z / 100 * 100)%Q as I0 by field.
      assert (inject_Z z == 0)%Q as I by (rewrite E' in I0; lra).
      apply inject_Z_injective. exact I. }
    apply (proj1 R) in Z0. to_Q.
    change (inject_Z 200) with 200%Q. change (inject_Z 1) with 1%Q.
    change (inject_Z 100) with 100%Q in Z0. lra.
  - intros X.
    assert (this a * inject_Z 100 <= 1 # 2)%Q as Y.
    { revert X. to_Q. change (inject_Z 200) with 200%Q.
      change (inject_Z 1) with 1%Q. change (inject_Z 100) with 100%Q.
      intros X. lra. }
    apply (proj2 R) in Y. rewrite Y. apply Qc_is_canon. reflexivity.
Qed.

(** Risk/reward on finite levels, exactly: the rounded quotient of reward
    by risk unless the stop-loss is 0 or the risk is 0, and then 0. *)
Lemma risk_reward_of_exact (e s t : Qc) :
  exists r risk reward,
    risk_reward_of (Fin e) (Fin s) (Fin t) = Fin r /\
    abs (Fin e - Fin s)%F = Fin risk /\ abs (Fin t - Fin e)%F = Fin reward /\
    (0 <= r)%Qc /\ (risk = 0%Qc <-> e = s) /\
    (r = 0%Qc <->
     risk = 0%Qc \/ s = 0%Qc \/
     (Q2Qc (inject_Z 200) * reward <= risk)%Qc) /\
    (risk <> 0%Qc -> s <> 0%Qc -> r = round_q 2 (reward / risk)).
Proof.
  unfold risk_reward_of.
  destruct (abs_Fin (e + - s)%Qc) as (risk & Erisk & Hrisk & Zrisk).
  destruct (abs_Fin (t + - e)%Qc) as (reward & Ereward & Hreward & Zreward).
  change (sub (Fin e) (Fin s)) with (Fin (e + - s)%Qc).
  change (sub (Fin t) (Fin e)) with (Fin (t + - e)%Qc).
  rewrite Erisk, Ereward.
  assert (risk = 0%Qc <-> e = s) as Zr.
  { rewrite Zrisk. split.
    - intros H. apply Qc_is_canon. apply (f_equal this) in H.
      assert (this e + - this s == 0)%Q as H'
        by (rewrite <- this_opp, <- this_plus, H; reflexivity).
      lra.
    - intros ->. apply Qc_is_canon.
      rewrite this_plus, this_opp, this_Q2Qc. lra. }
  destruct (neb (Fin s) zero) eqn:Ez.
  - assert (s <> 0%Qc) as Ns.
    { intros ->. unfold neb in Ez. apply negb_true_iff in Ez.
      assert (eqb (Fin 0%Qc) zero = true) as T by now apply eqb_Fin.
      congruence. }
    destruct (gtb (Fin risk) zero) eqn:G.
    + apply gtb_Fin in G. rewrite (div_Fin_pos _ _ G). cbn [round].
      exists (round_q 2 (reward / risk)), risk, reward.
      split; [reflexivity|]. split; [reflexivity|]. split; [reflexivity|].
      assert (0 <= reward / risk)%Qc as Q0 by now apply Qcdiv_nonneg.
      split; [now apply round_q_nonneg|]. split; [exact Zr|]. split; [|auto].
      rewrite (round_q_zero_iff _ Q0).
      assert ((Q2Qc (inject_Z 200) * (reward / risk) <= Q2Qc (inject_Z 1))%Qc
              <-> (Q2Qc (inject_Z 200) * reward <= risk)%Qc) as M.
      { revert G Hreward. to_Q.
        change (inject_Z 200) with 200%Q. change (inject_Z 1) with 1%Q.
        change (inject_Z 0) with 0%Q. intros G Hreward.
        assert (this reward == this reward / this risk * this risk)%Q as D
          by (field; lra).
        set (x := (this reward / this risk)%Q) in *.
        split; intros X; [rewrite D|rewrite D in X]; nra. }
      rewrite M. split; [auto|].
      intros [R|[R|R]]; [|now destruct Ns|exact R].
      exfalso. subst risk. exact (Qcle_not_lt _ _ (Qcle_refl 0%Qc) G).
    + assert (risk = 0%Qc) as R0.
      { apply Qcle_antisym; [|exact Hrisk].
        apply Qcnot_lt_le. intros L.
        assert (gtb (Fin risk) zero = true) as T by (apply gtb_Fin; exact L).
        congruence. }
      exists 0%Qc, risk, reward.
      split; [reflexivity|]. split; [reflexivity|]. split; [reflexivity|].
      split; [apply Qcle_refl|]. split; [exact Zr|]. split; [tauto|].
      intros N. now destruct N.
  - assert (s = 0%Qc) as S0.
    { unfold neb in Ez. apply negb_false_iff in Ez. now apply eqb_Fin in Ez. }
    exists 0%Qc, risk, reward.
    split; [reflexivity|]. split; [reflexivity|]. split; [reflexivity|].
    split; [apply Qcle_refl|]. split; [exact Zr|]. split; [tauto|].
    intros _ N. now destruct N.
Qed.

(** C3 (amended). In every analysis result the risk/reward ratio is a
    finite number greater than or equal to 0.  With risk = |entry -
    stop-loss| and reward = |take-profit - entry|, it is 0 exactly when
    entry equals stop-loss (the risk is 0), or the stop-loss is 0, or the
    reward is at most 1/200 of the risk, so that the quotient rounds to
    0.00; in every other case it is the quotient rounded to two decimals.
    In particular it is 0 whenever take-profit equals entry. *)
Theorem risk_reward_nonneg_zero_cases (ta : TaLib) (now : Z) (bars : list Bar) :
  let s := analyze ta now bars in
  exists r risk reward st,
    risk_reward s = Fin r /\ stop_loss s = Fin st /\
    abs (entry_price s - stop_loss s)%F = Fin risk /\
    abs (take_profit s - entry_price s)%F = Fin reward /\
    (0 <= r)%Qc /\
    (entry_price s = stop_loss s -> r = 0%Qc) /\
    (take_profit s = entry_price s -> r = 0%Qc) /\
    (risk = 0%Qc <-> entry_price s = stop_loss s) /\
    (r = 0%Qc <->
     risk = 0%Qc \/ st = 0%Qc \/
     (Q2Qc (inject_Z 200) * reward <= risk)%Qc) /\
    (risk <> 0%Qc -> st <> 0%Qc -> r = round_q 2 (reward / risk)).
Proof.
  cbv zeta. unfold analyze.
  destruct (Nat.lt_ge_cases (length bars) 50) as [Hs|Hl].
  - rewrite generate_signals_short by now rewrite calculate_indicators_length.
    exists 0%Qc, 0%Qc, 0%Qc, 0%Qc. cbn [empty_signal risk_reward stop_loss
      entry_price take_profit].
    split; [reflexivity|]. split; [reflexivity|].
    split; [fnum_eq|]. split; [fnum_eq|]. split; [apply Qcle_refl|].
    repeat split; auto. intros N. now destruct N.
  - destruct (generate_signals_long now (calculate_indicators ta bars))
      as (latest & prev & E1 & E2 & E);
      [now rewrite calculate_indicators_length|].
    rewrite E.
    destruct (indicators_latest ta bars latest) as (b & s & r & _ & _ & Es & Er & _);
      [lia|exact E1|].
    destruct (signal_from_levels (calculate_indicators ta bars) latest prev)
      as [L R].
    set (sg := signal_from (calculate_indicators ta bars) latest prev) in *.
    destruct (levels_Fin (signal sg) latest s r Es Er) as (e & st & t & EL).
    rewrite EL in L. injection L as Le Lst Lt.
    rewrite R, Le, Lst, Lt.
    destruct (risk_reward_of_exact e st t)
      as (rr & risk & reward & Err & Erisk & Ereward & H0 & Zr & Hz & Hq).
    destruct (abs_Fin (t + - e)%Qc) as (reward' & Ereward' & Hreward & Zreward).
    change (sub (Fin t) (Fin e)) with (Fin (t + - e)%Qc) in Ereward.
    assert (reward' = reward) as -> by congruence.
    exists rr, risk, reward, st.
    split; [exact Err|]. split; [reflexivity|]. split; [exact Erisk|].
    split; [exact Ereward|]. split; [exact H0|].
    assert (Fin e = Fin st <-> e = st) as Inj
      by (split; [intros H; now injection H|intros ->; reflexivity]).
    split; [|split; [|split; [|split]]].
    + intros H. apply Hz. left. apply Zr. now apply Inj.
    + intros H. apply Hz. right. right.
      assert (reward = 0%Qc) as ->.
      { apply Zreward. injection H as ->. apply Qc_is_canon.
        rewrite this_plus, this_opp, this_Q2Qc. lra. }
      assert (0 <= risk)%Qc as Hrisk.
      { destruct (abs_Fin (e + - st)%Qc) as (risk' & Erisk' & Hr & _).
        change (sub (Fin e) (Fin st)) with (Fin (e + - st)%Qc) in Erisk.
        assert (risk' = risk) as <- by congruence. exact Hr. }
      revert Hrisk. to_Q. change (inject_Z 200) with 200%Q. intros. lra.
    + rewrite Zr. symmetry. exact Inj.
    + exact Hz.
    + exact Hq.
Qed.

(** C3 (counterexample). On the breakout history (positive prices, every
    close between its low and high) the analyzer answers BUY with entry
    200, stop-loss 190 and take-profit 200 (the 20-bar resistance is the
    close itself): the risk/reward ratio is 0 although entry and stop-loss
    differ. *)
Lemma breakout_zero_ratio_distinct_levels :
  let s := analyze TaReference.ta_reference 7 Samples.breakout in
  forallb positive_prices Samples.breakout = true /\
  forallb ohlc_consistent Samples.breakout = true /\
  signal s = BUY /\ entry_price s = ofZ 200 /\ stop_loss s = ofZ 190 /\
  take_profit s = ofZ 200 /\
  risk_reward s = zero /\ entry_price s <> stop_loss s.
Proof.
  cbv zeta. split; [vm_compute; reflexivity|].
  split; [vm_compute; reflexivity|]. split; [vm_compute; reflexivity|].
  split; [fnum_eq|]. split; [fnum_eq|]. split; [fnum_eq|].
  split; [fnum_eq|fnum_neq].
Qed.

Lemma mul_Fin (a : Qc) (q : Q) : (Fin a * ofQ q)%F = Fin (a * Q2Qc q).
Proof. reflexivity. Qed.

Lemma scale_down (c : Qc) (q : Q) : (0 <= c)%Qc -> (q <= 1)%Q -> (c * Q2Qc q <= c)%Qc.
Proof. intros Hc Hq. to_Q. nra. Qed.

Lemma scale_up (c : Qc) (q : Q) : (0 <= c)%Qc -> (1 <= q)%Q -> (c <= c * Q2Qc q)%Qc.
Proof. intros Hc Hq. to_Q. nra. Qed.

(** C10 (amended). For at least 50 bars whose prices are positive and
    whose latest bar has its close between its low and its high, the
    rolling support is at most the latest close, the rolling resistance
    is at least the latest close, and the levels are ordered around the
    entry: stop-loss <= entry <= take-profit for BUY, take-profit <= entry
    <= stop-loss for SELL. *)
Theorem levels_ordered_around_entry
        (ta : TaLib) (now : Z) (bars : list Bar) (b : Bar) :
  (50 <= length bars)%nat ->
  forallb positive_prices bars = true ->
  iloc_neg 1 bars = Some b ->
  ohlc_consistent b = true ->
  let s := analyze ta now bars in
  exists latest sp rs e st t,
    iloc_neg 1 (calculate_indicators ta bars) = Some latest /\
    support latest = Fin sp /\ resistance latest = Fin rs /\
    (sp <= close b)%Qc /\ (close b <= rs)%Qc /\
    entry_price s = Fin e /\ stop_loss s = Fin st /\ take_profit s = Fin t /\
    (signal s = BUY -> (st <= e)%Qc /\ (e <= t)%Qc) /\
    (signal s = SELL -> (t <= e)%Qc /\ (e <= st)%Qc).
Proof.
  intros Hn Hpos Hb Hc. cbv zeta. unfold analyze.
  destruct (generate_signals_long now (calculate_indicators ta bars))
    as (latest & prev & E1 & E2 & E);
    [now rewrite calculate_indicators_length|].
  rewrite E.
  destruct (indicators_latest ta bars latest)
    as (b' & sp & rs & Eb & Ebar & Es & Er & Hsp & Hrs); [lia|exact E1|].
  assert (b' = b) as Hbb by congruence. rewrite Hbb in *. clear Hbb b' Eb.
  (* the latest close is positive and lies between low and high *)
  assert (In b bars) as Hin.
  { unfold iloc_neg in Hb. cbn [Nat.eqb] in Hb.
    destruct (length bars <? 1)%nat; [discriminate|].
    eapply nth_error_In; eassumption. }
  pose proof (proj1 (forallb_forall _ _) Hpos b Hin) as Pb.
  unfold positive_prices in Pb. apply andb_prop in Pb as [_ Pc].
  apply (proj1 (ltb_Fin _ _)) in Pc. apply Qclt_le_weak in Pc.
  unfold ohlc_consistent in Hc. apply andb_prop in Hc as [Hlo Hhi].
  apply (proj1 (leb_Fin _ _)) in Hlo. apply (proj1 (leb_Fin _ _)) in Hhi.
  assert (sp <= close b)%Qc as Hsc by now apply Qcle_trans with (low b).
  assert (close b <= rs)%Qc as Hcr by now apply Qcle_trans with (high b).
  destruct (signal_from_levels (calculate_indicators ta bars) latest prev)
    as [L _].
  set (sg := signal_from (calculate_indicators ta bars) latest prev) in *.
  destruct (levels_Fin (signal sg) latest sp rs Es Er) as (e & st & t & EL).
  rewrite EL in L. injection L as Le Lst Lt.
  exists latest, sp, rs, e, st, t.
  repeat (split; [assumption|]).
  unfold levels, cl in EL. rewrite Es, Er, Ebar in EL.
  split; intros D; rewrite D in EL; rewrite !mul_Fin in EL.
  - destruct (py_max_Fin sp (close b * Q2Qc 0.95)) as (c1 & E1' & _ & _ & C1).
    destruct (py_min_Fin rs (close b * Q2Qc 1.1)) as (c2 & E2' & _ & _ & C2).
    rewrite E1', E2' in EL. injection EL as <- <- <-.
    pose proof (scale_down (close b) 0.95 Pc ltac:(lra)) as Hd.
    pose proof (scale_up (close b) 1.1 Pc ltac:(lra)) as Hu.
    split; [destruct C1 as [->| ->]|destruct C2 as [->| ->]]; assumption.
  - destruct (py_min_Fin rs (close b * Q2Qc 1.05)) as (c1 & E1' & _ & _ & C1).
    destruct (py_max_Fin sp (close b * Q2Qc 0.9)) as (c2 & E2' & _ & _ & C2).
    rewrite E1', E2' in EL. injection EL as <- <- <-.
    pose proof (scale_up (close b) 1.05 Pc ltac:(lra)) as Hu.
    pose proof (scale_down (close b) 0.9 Pc ltac:(lra)) as Hd.
    split; [destruct C2 as [->| ->]|destruct C1 as [->| ->]]; assumption.
Qed.

Lemma levels_ordered_around_entry_witness :
  exists b,
    (50 <= length Samples.breakdown)%nat /\
    forallb positive_prices Samples.breakdown = true /\
    iloc_neg 1 Samples.breakdown = Some b /\
    ohlc_consistent b = true /\
    let s := analyze TaReference.ta_reference 7 Samples.breakdown in
    exists latest sp rs e st t,
      iloc_neg 1 (calculate_indicators TaReference.ta_reference Samples.breakdown)
      = Some latest /\
      support latest = Fin sp /\ resistance latest = Fin rs /\
      (sp <= close b)%Qc /\ (close b <= rs)%Qc /\
      entry_price s = Fin e /\ stop_loss s = Fin st /\ take_profit s = Fin t /\
      (signal s = BUY -> (st <= e)%Qc /\ (e <= t)%Qc) /\
      (signal s = SELL -> (t <= e)%Qc /\ (e <= st)%Qc).
Proof.
  assert (50 <= length Samples.breakdown)%nat as H1 by (vm_compute; lia).
  assert (forallb positive_prices Samples.breakdown = true) as H2
    by (vm_compute; reflexivity).
  pose proof (iloc_neg_1_app (Samples.quiet 0 49)
                (mkBar 49 (Samples.q 100) (Samples.q 100) (Samples.q 50)
                       (Samples.q 50) (Samples.q 1000))) as H3.
  eexists. split; [exact H1|]. split; [exact H2|]. split; [exact H3|].
  assert (ohlc_consistent
            (mkBar 49 (Samples.q 100) (Samples.q 100) (Samples.q 50)
                   (Samples.q 50) (Samples.q 1000)) = true) as H4
    by (vm_compute; reflexivity).
  split; [exact H4|].
  exact (levels_ordered_around_entry TaReference.ta_reference 7
           Samples.breakdown _ H1 H2 H3 H4).
Defined.

(** C10 (counterexample). Fifty bars with positive prices whose last
    record reports a close of 200 above its own high of 150: the analyzer
    answers BUY with entry 200 and take-profit 150, below the entry. *)
Lemma inconsistent_bar_breaks_ordering :
  let s := analyze TaReference.ta_reference 7 Samples.inconsistent in
  (50 <= length Samples.inconsistent)%nat /\
  forallb positive_prices Samples.inconsistent = true /\
  signal s = BUY /\ entry_price s = ofZ 200 /\ take_profit s = ofZ 150 /\
  ltb (take_profit s) (entry_price s) = true /\
  leb (entry_price s) (take_profit s) = false.
Proof.
  cbv zeta. split; [vm_compute; lia|].
  split; [vm_compute; reflexivity|].
  split; [vm_compute; reflexivity|].
  split; [fnum_eq|]. split; [fnum_eq|].
  split; vm_compute; reflexivity.
Qed.

(** C9 (amended). With at least 50 bars the analysis does not depend on
    the clock: two calls on the same bars return the same record, time
    stamp included (it is the time stamp of the latest bar).  With fewer
    than 50 bars the two records agree in every field except the time
    stamp, which is the clock reading of each call. *)
Theorem analysis_deterministic_up_to_clock
        (ta : TaLib) (now1 now2 : Z) (bars : list Bar) :
  ((50 <= length bars)%nat ->
     analyze ta now1 bars = analyze ta now2 bars) /\
  ((length bars < 50)%nat ->
     analyze ta now1 bars = with_timestamp now1 (analyze ta now2 bars) /\
     s_timestamp (analyze ta now1 bars) = now1).
Proof.
  unfold analyze. split; intros H.
  - destruct (generate_signals_long now1 (calculate_indicators ta bars))
      as (l1 & p1 & A1 & A2 & A); [now rewrite calculate_indicators_length|].
    destruct (generate_signals_long now2 (calculate_indicators ta bars))
      as (l2 & p2 & B1 & B2 & B); [now rewrite calculate_indicators_length|].
    rewrite A, B. congruence.
  - rewrite !generate_signals_short by now rewrite calculate_indicators_length.
    split; reflexivity.
Qed.

Lemma analysis_deterministic_up_to_clock_witness :
  analyze TaReference.ta_reference 1 Samples.breakout
  = analyze TaReference.ta_reference 2 Samples.breakout.
Proof.
  apply (proj1 (analysis_deterministic_up_to_clock
                  TaReference.ta_reference 1 2 Samples.breakout)).
  vm_compute; lia.
Defined.

(** C9 (counterexample). Two analyses of the same ten bars, one when the
    clock reads 1 and one when it reads 2, return records that differ in
    their time stamp. *)
Lemma short_series_timestamp_differs :
  let s1 := analyze TaReference.ta_reference 1 (Samples.quiet 0 10) in
  let s2 := analyze TaReference.ta_reference 2 (Samples.quiet 0 10) in
  s_timestamp s1 = 1%Z /\ s_timestamp s2 = 2%Z /\ s1 <> s2.
Proof.
  cbv zeta. split; [reflexivity|]. split; [reflexivity|].
  intros H. apply (f_equal s_timestamp) in H. vm_compute in H. discriminate.
Qed.

(** *** The head-and-shoulders test *)

Lemma leb_not_gtb (x y : fnum) : leb y x = true -> ltb x y = false.
Proof.
  destruct x as [a| | |], y as [b| | |]; try discriminate; try reflexivity.
  intros H. apply (proj1 (leb_Fin _ _)) in H. now apply ltb_false_Fin.
Qed.

Lemma ltb_leb (x y : fnum) : ltb x y = true -> leb x y = true.
Proof. unfold ltb, leb. now destruct (cmp x y) as [[]|]. Qed.

Lemma not_geb_not_gtb (x y : fnum) : geb x y = false -> gtb x y = false.
Proof.
  unfold geb, gtb. intros H. destruct (ltb y x) eqn:E; [|reflexivity].
  apply ltb_leb in E. congruence.
Qed.

Lemma insert_desc_sorted (x : fnum) (l : list fnum) :
  sorted_desc l -> sorted_desc (insert_desc x l).
Proof.
  induction l as [|y r IH]; intros S; cbn [insert_desc].
  - exact I.
  - destruct (geb x y) eqn:E.
    + split; [|exact S]. unfold gtb. now apply leb_not_gtb.
    + apply not_geb_not_gtb in E. destruct r as [|z r'].
      * cbn. split; [exact E|exact I].
      * destruct S as [Szy S']. specialize (IH S').
        cbn [insert_desc] in *. destruct (geb x z) eqn:E'.
        -- split; [exact E|exact IH].
        -- split; [exact Szy|exact IH].
Qed.

Lemma sort_desc_sorted (s : Series) : sorted_desc (sort_desc s).
Proof.
  induction s as [|x s IH]; [exact I|]. cbn. now apply insert_desc_sorted.
Qed.

(** The second value returned by [nlargest] never exceeds the first. *)
Lemma nlargest_second_not_above_first (n : nat) (s : Series) (p0 p1 : fnum)
      (rest : list fnum) :
  nlargest n s = p0 :: p1 :: rest -> gtb p1 p0 = false.
Proof.
  unfold nlargest. pose proof (sort_desc_sorted (dropna s)) as S.
  destruct (sort_desc (dropna s)) as [|a [|b r]];
    destruct n as [|[|n]]; cbn; try discriminate.
  intros H. injection H as <- <- _. exact (proj1 S).
Qed.

(** The head-and-shoulders flag is NONE on every frame: the three peaks
    come back ordered by value, largest first, so the middle one is never
    above the first. *)
Lemma head_shoulders_always_none (df : DataFrame) :
  head_shoulders (detect_patterns df) = "NONE".
Proof.
  unfold detect_patterns. destruct (length df <? 50)%nat; [reflexivity|].
  cbn [head_shoulders]. unfold detect_head_shoulders.
  destruct (3 <=? length (tail 20 (highs df)))%nat; [|reflexivity].
  destruct (nlargest 3 (tail 20 (highs df))) as [|p0 [|p1 [|p2 [|p3 r]]]] eqn:E;
    try reflexivity.
  now rewrite (nlargest_second_not_above_first _ _ _ _ _ E).
Qed.

(** C5 (the code at the failing input). Among the last 20 highs of
    [Samples.shoulders] the three largest are 10, 12 and 10 in order of
    time, the middle one above both its neighbours, so the claim asks for
    BEARISH.  [nlargest] hands them over as 12, 10, 10 and the flag is
    NONE; indeed the flag is NONE on every frame. *)
Theorem head_shoulders_missed :
  let df := calculate_indicators TaReference.ta_reference Samples.shoulders in
  length df = 50%nat /\
  tail 20 (highs df)
  = map ofZ [5; 5; 5; 5; 5; 5; 5; 5; 5; 5; 10; 5; 5; 5; 12; 5; 5; 5; 10; 5]%Z /\
  nlargest 3 (tail 20 (highs df)) = [ofZ 12; ofZ 10; ofZ 10] /\
  head_shoulders (detect_patterns df) = "NONE" /\
  forall df' : DataFrame, head_shoulders (detect_patterns df') = "NONE".
Proof.
  cbv zeta. split; [vm_compute; reflexivity|].
  split; [series_eq|]. split; [series_eq|].
  split; [vm_compute; reflexivity|].
  exact head_shoulders_always_none.
Qed.

(** *** Levels against the specification's rule *)

Lemma decide_direction (bull bear : Z) :
  fst (decide bull bear) = BUY \/ fst (decide bull bear) = SELL
  \/ fst (decide bull bear) = HOLD.
Proof.
  unfold decide.
  destruct ((bull >? bear)%Z && (bull >=? 2)%Z); [now left|].
  destruct ((bear >? bull)%Z && (bear >=? 2)%Z); [right; now left|right; now right].
Qed.

Lemma signal_from_direction (df : DataFrame) (latest prev : Row) :
  let d := signal (signal_from df latest prev) in
  d = BUY \/ d = SELL \/ d = HOLD.
Proof.
  cbv zeta.
  pose proof (signal_from_decide df latest prev) as D.
  pose proof (decide_direction (bullish_count latest prev)
                               (bearish_count latest prev)) as H.
  rewrite <- D in H. exact H.
Qed.

(** A NO_DATA answer always carries the strength NONE, and is only given
    to frames of fewer than 50 rows. *)
Lemma no_data_strength_none (now : Z) (df : DataFrame) :
  signal (generate_signals now df) = NO_DATA ->
  strength (generate_signals now df) = NONE /\ (length df < 50)%nat.
Proof.
  destruct (Nat.lt_ge_cases (length df) 50) as [Hs|Hl].
  - rewrite generate_signals_short by exact Hs. now split.
  - destruct (generate_signals_long now df Hl) as (latest & prev & _ & _ & E).
    rewrite E. intros H.
    destruct (signal_from_direction df latest prev) as [D|[D|D]]; congruence.
Qed.

Lemma py_max_qmax (a b : Qc) : py_max (Fin a) (Fin b) = Fin (RiskSpec.qmax a b).
Proof.
  unfold py_max, gtb, RiskSpec.qmax. destruct (Qclt_le_dec a b) as [H|H].
  - now rewrite (proj2 (ltb_Fin a b) H).
  - now rewrite (proj2 (ltb_false_Fin a b) H).
Qed.

Lemma py_min_qmin (a b : Qc) : py_min (Fin a) (Fin b) = Fin (RiskSpec.qmin a b).
Proof.
  unfold py_min, RiskSpec.qmin. destruct (Qclt_le_dec b a) as [H|H].
  - now rewrite (proj2 (ltb_Fin b a) H).
  - now rewrite (proj2 (ltb_false_Fin b a) H).
Qed.

(** The constants of the code are one minus (plus) the fractions. *)
Lemma fraction_constants :
  Q2Qc 0.95 = (1 - Q2Qc 0.05)%Qc /\ Q2Qc 1.1 = (1 + Q2Qc 0.10)%Qc /\
  Q2Qc 1.05 = (1 + Q2Qc 0.05)%Qc /\ Q2Qc 0.9 = (1 - Q2Qc 0.10)%Qc.
Proof. repeat split; apply Qc_is_canon; reflexivity. Qed.

(** On finite support and resistance, the analyzer's levels are those of
    the specification's rule with a stop fraction of 5% and a profit
    fraction of 10%. *)
Lemma levels_match_spec (d : Direction) (latest : Row) (sp rs : Qc) :
  d <> STRONG_SELL ->
  support latest = Fin sp -> resistance latest = Fin rs ->
  levels d latest
  = RiskSpec.lift (RiskSpec.spec_levels (Q2Qc 0.05) (Q2Qc 0.10) d
                                         (close (bar latest)) sp rs).
Proof.
  intros Hd Es Er. unfold levels, cl. rewrite Es, Er.
  destruct d; try congruence; cbn [RiskSpec.spec_levels RiskSpec.lift];
    rewrite ?mul_Fin, ?py_max_qmax, ?py_min_qmin; reflexivity.
Qed.

Lemma analyzer_levels_spec (ta : TaLib) (now : Z) (bars : list Bar) :
  let s := analyze ta now bars in
  ((length bars < 50)%nat ->
     signal s = NO_DATA /\
     (entry_price s, stop_loss s, take_profit s) = (zero, zero, zero)) /\
  ((50 <= length bars)%nat ->
     exists b latest sp rs,
       iloc_neg 1 bars = Some b /\
       iloc_neg 1 (calculate_indicators ta bars) = Some latest /\
       bar latest = b /\ support latest = Fin sp /\ resistance latest = Fin rs /\
       (signal s = BUY \/ signal s = SELL \/ signal s = HOLD) /\
       (entry_price s, stop_loss s, take_profit s)
       = RiskSpec.lift (RiskSpec.spec_levels (Q2Qc 0.05) (Q2Qc 0.10) (signal s)
                                              (close b) sp rs)).
Proof.
  cbv zeta. unfold analyze. split; intros H.
  - rewrite generate_signals_short by now rewrite calculate_indicators_length.
    now split.
  - destruct (generate_signals_long now (calculate_indicators ta bars))
      as (latest & prev & E1 & E2 & E);
      [now rewrite calculate_indicators_length|].
    rewrite E.
    destruct (indicators_latest ta bars latest)
      as (b & sp & rs & Eb & Ebar & Es & Er & _); [lia|exact E1|].
    exists b, latest, sp, rs.
    pose proof (signal_from_direction (calculate_indicators ta bars) latest prev)
      as D. cbv zeta in D.
    destruct (signal_from_levels (calculate_indicators ta bars) latest prev)
      as [L _].
    repeat (split; [assumption|]).
    rewrite L, <- Ebar. apply levels_match_spec; [|assumption|assumption].
    destruct D as [D|[D|D]]; rewrite D; discriminate.
Qed.

End AnalyzerFacts.

(** ** The long-horizon engine *)

Module BotFacts.

Import Config TradingBot NumFacts PandasFacts.

(** *** Masks *)

Lemma mat_mand (a b : Mask) (i : nat) :
  mat (mand a b) i = true -> mat a i = true /\ mat b i = true.
Proof.
  unfold mat, mand.
  destruct (nth_map2_default _ _ _ andb a b i false false false) as [E|E];
    rewrite E; [discriminate|]. apply andb_prop.
Qed.

Lemma mat_mor (a b : Mask) (i : nat) :
  mat (mor a b) i = true -> mat a i = true \/ mat b i = true.
Proof.
  unfold mat, mor.
  destruct (nth_map2_default _ _ _ orb a b i false false false) as [E|E];
    rewrite E; [discriminate|]. apply orb_prop.
Qed.

Lemma mat_mand_intro (a b : Mask) (i : nat) :
  mat a i = true -> mat b i = true -> mat (mand a b) i = true.
Proof.
  intros Ha Hb. unfold mat, mand in *.
  destruct (Nat.lt_ge_cases i (length a)) as [H|H];
    [|now rewrite nth_overflow in Ha].
  destruct (Nat.lt_ge_cases i (length b)) as [H'|H'];
    [|now rewrite nth_overflow in Hb].
  rewrite (nth_map2 _ _ _ andb a b i false false false) by lia.
  now rewrite Ha, Hb.
Qed.

Lemma mat_scmp_c (f : fnum -> fnum -> bool) (c : fnum) (s : Series) (i : nat) :
  f NaN c = false -> mat (scmp_c f c s) i = f (at_ s i) c.
Proof.
  intros H. unfold mat, scmp_c, at_.
  rewrite <- H at 1. apply (map_nth (fun x => f x c)).
Qed.

(** A cell of a column after a masked assignment. *)
Lemma loc_set_cases (A : Type) (m : Mask) (v : A) (col : list A) (i : nat) (d : A) :
  nth i (loc_set m v col) d = d \/
  nth i (loc_set m v col) d = (if mat m i then v else nth i col d).
Proof.
  unfold loc_set, mat.
  apply (nth_map2_default _ _ _ (fun (b : bool) old => if b then v else old)).
Qed.

(** *** C4 *)

Lemma signal_column_strong (ind : Indicators) (n i : nat) :
  nth i (signal_column ind n) HOLD = STRONG_SELL ->
  mat (strong_sell ind) i = true.
Proof.
  unfold signal_column.
  destruct (loc_set_cases _ (strong_sell ind) STRONG_SELL
              (loc_set (regular_sell ind) SELL
                 (loc_set (buy_condition ind) BUY (repeat HOLD n))) i HOLD)
    as [E|E]; rewrite E; [discriminate|].
  destruct (mat (strong_sell ind) i); [reflexivity|].
  destruct (loc_set_cases _ (regular_sell ind) SELL
              (loc_set (buy_condition ind) BUY (repeat HOLD n)) i HOLD)
    as [E1|E1]; rewrite E1; [discriminate|].
  destruct (mat (regular_sell ind) i); [discriminate|].
  destruct (loc_set_cases _ (buy_condition ind) BUY (repeat HOLD n) i HOLD)
    as [E2|E2]; rewrite E2; [discriminate|].
  destruct (mat (buy_condition ind) i); [discriminate|].
  destruct (Nat.lt_ge_cases i n) as [H|H].
  - rewrite nth_repeat_lt by exact H. discriminate.
  - rewrite nth_overflow by (rewrite repeat_length; exact H). discriminate.
Qed.

Lemma row_signal (data : list Bar) (i : nat) (row : Row) :
  nth_error (generate_enhanced_signals data) i = Some row ->
  Signal row
  = nth i (signal_column (calculate_technical_indicators data) (length data)) HOLD
  /\ nth_error data i = Some (bar row).
Proof.
  unfold generate_enhanced_signals. cbv zeta.
  rewrite nth_error_indexed. cbn [Nat.add].
  destruct (nth_error data i) as [b|]; [|discriminate].
  cbn [option_map fst snd]. intros H. injection H as <-. now split.
Qed.

Lemma gtb_weaken (x a b : fnum) :
  ltb b a = true -> gtb x a = true -> gtb x b = true.
Proof. unfold gtb. intros H1 H2. exact (ltb_trans _ _ _ H1 H2). Qed.

Lemma ltb_weaken (x a b : fnum) :
  ltb a b = true -> ltb x a = true -> ltb x b = true.
Proof. intros H1 H2. exact (ltb_trans _ _ _ H2 H1). Qed.

(** Each strong-sell condition entails a regular-sell condition. *)
Lemma strong_multiple_regular (ind : Indicators) (i : nat) :
  mat (strong_sell_multiple ind) i = true -> mat (sma_cross_confirmed ind) i = true.
Proof. intros H. now apply mat_mand in H. Qed.

Lemma strong_extreme_regular (ind : Indicators) (i : nat) :
  mat (strong_sell_extreme ind) i = true -> mat (sell_rsi_overbought ind) i = true.
Proof.
  unfold strong_sell_extreme, sell_rsi_overbought. intros H.
  apply mat_mand in H as [H _].
  rewrite mat_scmp_c in * by reflexivity.
  apply gtb_weaken with (ofZ 85); [reflexivity|exact H].
Qed.

Lemma strong_crash_regular (ind : Indicators) (i : nat) :
  mat (strong_sell_crash ind) i = true -> mat (sell_high_volume ind) i = true.
Proof.
  unfold strong_sell_crash, sell_high_volume. intros H.
  apply mat_mand in H as [H1 H2].
  apply mat_mand_intro.
  - exact H2.
  - rewrite mat_scmp_c in * by reflexivity.
    apply ltb_weaken with (ofZ (-10)); [reflexivity|exact H1].
Qed.

(** C4. A row labelled STRONG_SELL satisfies at least one of the three
    strong-sell conditions (confirmed crossover with overbought RSI; RSI
    above 85 with the volume ratio above the high-volume multiplier; a
    price change below -10% with the volume ratio above the multiplier),
    and at that row at least one regular-sell condition holds as well
    (confirmed bearish crossover, RSI above the overbought threshold,
    high-volume sell-off, or bearish divergence). *)
Theorem strong_sell_has_strong_and_regular_evidence
        (data : list Bar) (i : nat) (row : Row) :
  nth_error (generate_enhanced_signals data) i = Some row ->
  Signal row = STRONG_SELL ->
  let ind := calculate_technical_indicators data in
  (mat (strong_sell_multiple ind) i = true
   \/ mat (strong_sell_extreme ind) i = true
   \/ mat (strong_sell_crash ind) i = true)
  /\
  (mat (sma_cross_confirmed ind) i = true
   \/ mat (sell_rsi_overbought ind) i = true
   \/ mat (sell_high_volume ind) i = true
   \/ mat (sell_divergence ind) i = true).
Proof.
  intros Hrow Hsig ind.
  destruct (row_signal data i row Hrow) as [E _].
  rewrite E in Hsig. apply signal_column_strong in Hsig.
  fold ind in Hsig. unfold strong_sell in Hsig.
  apply mat_mor in Hsig as [Hsig|Hc]; [apply mat_mor in Hsig as [Hm|He]|].
  - split; [now left|]. left. now apply strong_multiple_regular.
  - split; [right; now left|]. right; left. now apply strong_extreme_regular.
  - split; [right; now right|]. right; right; left.
    now apply strong_crash_regular.
Qed.

Lemma strong_sell_has_strong_and_regular_evidence_witness :
  exists row,
    nth_error (generate_enhanced_signals Samples.crash) 49 = Some row /\
    Signal row = STRONG_SELL /\
    let ind := calculate_technical_indicators Samples.crash in
    (mat (strong_sell_multiple ind) 49 = true
     \/ mat (strong_sell_extreme ind) 49 = true
     \/ mat (strong_sell_crash ind) 49 = true)
    /\
    (mat (sma_cross_confirmed ind) 49 = true
     \/ mat (sell_rsi_overbought ind) 49 = true
     \/ mat (sell_high_volume ind) 49 = true
     \/ mat (sell_divergence ind) 49 = true).
Proof.
  assert (exists row,
             nth_error (generate_enhanced_signals Samples.crash) 49 = Some row /\
             Signal row = STRONG_SELL) as (row & H1 & H2).
  { eexists. split; [vm_compute; reflexivity|reflexivity]. }
  exists row. split; [exact H1|]. split; [exact H2|].
  exact (strong_sell_has_strong_and_regular_evidence Samples.crash 49 row H1 H2).
Defined.

(** *** C6 *)

Lemma at_sdiv (a b : Series) (i : nat) :
  at_ (sdiv a b) i = (at_ a i / at_ b i)%F.
Proof.
  unfold at_, sdiv, map2. revert b i.
  induction a as [|x a IH]; intros [|y b] [|i]; cbn [combine map nth fst snd];
    try reflexivity;
    try (now destruct x); try (now destruct (nth i a NaN)).
Qed.

Lemma at_calculate_rsi (closes : Series) (period i : nat) :
  at_ (calculate_rsi closes period) i
  = rsi_of_rs (at_ (rsi_gain closes period) i / at_ (rsi_loss closes period) i)%F.
Proof.
  unfold calculate_rsi. cbv zeta. rewrite <- at_sdiv. unfold at_.
  change NaN with (rsi_of_rs NaN) at 1. apply map_nth.
Qed.

Lemma calculate_rsi_length (closes : Series) (period : nat) :
  length (calculate_rsi closes period) = length closes.
Proof.
  unfold calculate_rsi, rsi_gain, rsi_loss, rolling_mean, sdiv, where_, diff, ssub.
  cbv zeta.
  rewrite length_map, map2_length, !rolling_length, !length_map, !map2_length,
    shift_length.
  lia.
Qed.

(** C6. [calculate_rsi] is total: it returns one value per close and
    never fails on a zero denominator.  Where the rolling average loss is
    0 and the rolling average gain is positive the value is exactly 100;
    where both averages are 0 the value is NaN. *)
Theorem rsi_zero_loss_cases (closes : Series) (period i : nat) :
  let gain := at_ (rsi_gain closes period) i in
  let loss := at_ (rsi_loss closes period) i in
  let value := at_ (calculate_rsi closes period) i in
  length (calculate_rsi closes period) = length closes /\
  (forall g : Qc, loss = zero -> gain = Fin g -> (0 < g)%Qc -> value = ofZ 100) /\
  (loss = zero -> gain = zero -> value = NaN).
Proof.
  cbv zeta. split; [apply calculate_rsi_length|].
  rewrite at_calculate_rsi. split.
  - intros g -> -> Hg. unfold div.
    change (sgn (Q2Qc (inject_Z 0))) with Eq.
    rewrite (proj2 (sgn_Gt g) Hg). cbn [signed_inf]. fnum_eq.
  - intros -> ->. reflexivity.
Qed.

Lemma rsi_zero_loss_cases_witness :
  at_ (calculate_rsi (col Close (Samples.rising 50)) 21) 49 = ofZ 100
  /\ at_ (calculate_rsi (col Close (Samples.flat 50)) 21) 49 = NaN.
Proof.
  split.
  - apply (proj1 (proj2 (rsi_zero_loss_cases (col Close (Samples.rising 50)) 21 49))
             (Q2Qc 1)).
    + fnum_eq.
    + fnum_eq.
    + reflexivity.
  - apply (proj2 (proj2 (rsi_zero_loss_cases (col Close (Samples.flat 50)) 21 49))).
    + fnum_eq.
    + fnum_eq.
Defined.

(** *** C8 *)

Lemma strength_of_cases (sig : Direction) (v p : bool) :
  (sig = STRONG_SELL -> strength_of sig v p = VERY_STRONG) /\
  (sig <> STRONG_SELL -> v = true -> p = true -> strength_of sig v p = STRONG) /\
  (sig <> STRONG_SELL -> v = true -> p = false -> strength_of sig v p = MODERATE) /\
  (sig <> STRONG_SELL -> v = false -> strength_of sig v p = WEAK).
Proof.
  unfold strength_of.
  destruct sig, v, p; cbn; repeat split; intros; congruence.
Qed.

Lemma min_price_change_percent : (MIN_PRICE_CHANGE * ofZ 100)%F = ofZ 3.
Proof. fnum_eq. Qed.

(** C8 (amended). The validity flag is true exactly when the latest
    bar's volume is at least MIN_VOLUME_THRESHOLD and both moving averages
    are defined.  The strength is VERY_STRONG for a STRONG_SELL; otherwise
    STRONG when the signal is valid and the magnitude of the reported
    price change (the percentage rounded to two decimals, [price_change])
    is at least 3, MODERATE when it is valid but that rounded magnitude is
    smaller, and WEAK when it is not valid.  A NO_DATA signal (only the
    short-horizon analyzer gives one) has the strength NONE. *)
Theorem validator_flag_and_strength
        (data : list Row) (sym : string) (info : SignalInfo) (latest : Row) :
  validate_signal data sym = Some info ->
  iloc_neg 1 data = Some latest ->
  let significant := geb (abs (price_change info)) (ofZ 3) in
  price_change info = price_change_of latest (previous_row data latest) /\
  (valid info = true <->
     geb (Fin (Volume (bar latest))) MIN_VOLUME_THRESHOLD = true /\
     isna (SMA_short latest) = false /\ isna (SMA_long latest) = false) /\
  signal info = Signal latest /\
  (signal info = STRONG_SELL -> strength info = VERY_STRONG) /\
  (signal info <> STRONG_SELL -> valid info = true -> significant = true ->
     strength info = STRONG) /\
  (signal info <> STRONG_SELL -> valid info = true -> significant = false ->
     strength info = MODERATE) /\
  (signal info <> STRONG_SELL -> valid info = false -> strength info = WEAK) /\
  (forall (now : Z) (df : TechnicalAnalyzer.DataFrame),
     TechnicalAnalyzer.signal (TechnicalAnalyzer.generate_signals now df) = NO_DATA ->
     TechnicalAnalyzer.strength (TechnicalAnalyzer.generate_signals now df) = NONE).
Proof.
  intros Hv Hl. unfold validate_signal in Hv. rewrite Hl in Hv.
  injection Hv as <-. cbn [valid signal strength price_change].
  rewrite <- min_price_change_percent.
  fold (price_change_significant
          (price_change_of latest (previous_row data latest))).
  split; [reflexivity|]. split.
  { unfold volume_valid, sma_valid.
    rewrite andb_true_iff, negb_true_iff, orb_false_iff. tauto. }
  split; [reflexivity|].
  destruct (strength_of_cases (Signal latest)
              (volume_valid latest && sma_valid latest)
              (price_change_significant
                 (price_change_of latest (previous_row data latest))))
    as (S1 & S2 & S3 & S4).
  repeat (split; [assumption|]).
  intros now df H. exact (proj1 (AnalyzerFacts.no_data_strength_none now df H)).
Qed.

Lemma validator_flag_and_strength_witness :
  exists info latest,
    validate_signal (generate_enhanced_signals Samples.crash) "BBCA.JK" = Some info /\
    iloc_neg 1 (generate_enhanced_signals Samples.crash) = Some latest /\
    valid info = true /\ signal info = STRONG_SELL /\ strength info = VERY_STRONG.
Proof.
  assert (exists latest,
             iloc_neg 1 (generate_enhanced_signals Samples.crash) = Some latest)
    as (latest & Hl).
  { eexists. vm_compute. reflexivity. }
  assert (exists info,
             validate_signal (generate_enhanced_signals Samples.crash) "BBCA.JK"
             = Some info /\ signal info = STRONG_SELL /\ valid info = true)
    as (info & Hv & Hs & Hval).
  { eexists. split; [vm_compute; reflexivity|split; reflexivity]. }
  exists info, latest.
  pose proof (validator_flag_and_strength _ _ info latest Hv Hl) as T.
  cbv zeta in T. destruct T as (_ & _ & _ & T & _).
  repeat split; auto.
Defined.

(** C8 (counterexample). After 49 days at 100000 a close of 102996 on a
    volume of 2,000,000 is a valid signal whose price change, 2.996%, is
    below the minimum of 3%; the reported change is the rounded 3.0 and
    the strength is STRONG, not MODERATE. *)
Lemma rounded_change_reaches_minimum :
  exists info latest previous,
    validate_signal (generate_enhanced_signals Samples.near_three) "BBCA.JK"
    = Some info /\
    nth_error Samples.near_three 49 = Some latest /\
    nth_error Samples.near_three 48 = Some previous /\
    valid info = true /\ signal info <> STRONG_SELL /\
    ltb (abs ((Fin (Close latest) - Fin (Close previous))
              / Fin (Close previous) * ofZ 100)%F)
        (MIN_PRICE_CHANGE * ofZ 100)%F = true /\
    price_change info = ofZ 3 /\
    strength info = STRONG.
Proof.
  eexists. eexists. eexists.
  split; [vm_compute; reflexivity|].
  split; [reflexivity|]. split; [reflexivity|].
  split; [reflexivity|]. split; [discriminate|].
  split; [vm_compute; reflexivity|].
  split; [fnum_eq|reflexivity].
Qed.

(** *** C7 *)

Lemma validator_levels (data : list Row) (sym : string) (info : SignalInfo)
      (latest : Row) :
  validate_signal data sym = Some info ->
  iloc_neg 1 data = Some latest ->
  current_price info = round 2 (Fin (Close (bar latest))) /\
  stop_loss_price info
  = round 2 (Fin (Close (bar latest) * (1 - Q2Qc 0.15))%Qc) /\
  take_profit_price info
  = round 2 (Fin (Close (bar latest) * (1 + Q2Qc 0.25))%Qc).
Proof.
  intros Hv Hl. unfold validate_signal in Hv. rewrite Hl in Hv.
  injection Hv as <-. cbn [current_price stop_loss_price take_profit_price].
  repeat split.
Qed.

(** C7 (amended). The short-horizon analyzer follows the rule of the
    specification with a stop fraction of 5% and a profit fraction of 10%
    on the last bar's close and the rolling support and resistance of the
    last row: BUY and SELL as stated, HOLD and NO_DATA with all three
    levels zero; it never answers STRONG_SELL.  The long-horizon validator
    reports, whatever the direction, the close rounded to two decimals as
    current price, close x (1 - 0.15) as stop-loss and close x (1 + 0.25)
    as take-profit, both rounded to two decimals. *)
Theorem risk_levels_by_engine :
  (forall (ta : TechnicalAnalyzer.TaLib) (now : Z)
          (bars : list TechnicalAnalyzer.Bar),
     let s := TechnicalAnalyzer.analyze ta now bars in
     ((length bars < 50)%nat ->
        TechnicalAnalyzer.signal s = NO_DATA /\
        (TechnicalAnalyzer.entry_price s, TechnicalAnalyzer.stop_loss s,
         TechnicalAnalyzer.take_profit s) = (zero, zero, zero)) /\
     ((50 <= length bars)%nat ->
        exists b latest sp rs,
          iloc_neg 1 bars = Some b /\
          iloc_neg 1 (TechnicalAnalyzer.calculate_indicators ta bars) = Some latest /\
          TechnicalAnalyzer.bar latest = b /\
          TechnicalAnalyzer.support latest = Fin sp /\
          TechnicalAnalyzer.resistance latest = Fin rs /\
          (TechnicalAnalyzer.signal s = BUY \/ TechnicalAnalyzer.signal s = SELL
           \/ TechnicalAnalyzer.signal s = HOLD) /\
          (TechnicalAnalyzer.entry_price s, TechnicalAnalyzer.stop_loss s,
           TechnicalAnalyzer.take_profit s)
          = RiskSpec.lift
              (RiskSpec.spec_levels (Q2Qc 0.05) (Q2Qc 0.10)
                 (TechnicalAnalyzer.signal s) (TechnicalAnalyzer.close b) sp rs)))
  /\
  (forall (data : list Row) (sym : string) (info : SignalInfo) (latest : Row),
     validate_signal data sym = Some info ->
     iloc_neg 1 data = Some latest ->
     current_price info = round 2 (Fin (Close (bar latest))) /\
     stop_loss_price info
     = round 2 (Fin (Close (bar latest) * (1 - Q2Qc 0.15))%Qc) /\
     take_profit_price info
     = round 2 (Fin (Close (bar latest) * (1 + Q2Qc 0.25))%Qc)).
Proof.
  split.
  - intros ta now bars. apply AnalyzerFacts.analyzer_levels_spec.
  - apply validator_levels.
Qed.

(** C7 (counterexample). Fifty flat days at 100 give HOLD, yet the
    validator reports a stop-loss of 85 and a take-profit of 125, not
    zero.  On the crash history (close 80, ten-day high 100, ten-day low
    80) it labels the day STRONG_SELL and reports a stop-loss of 68 and a
    take-profit of 100, where the rule of the specification with the
    15% / 25% fractions gives 92 and 80. *)
Lemma validator_levels_ignore_direction :
  (exists info,
      analyze_stock (Samples.flat 50) "BBCA.JK" = Some info /\
      signal info = HOLD /\
      stop_loss_price info = ofZ 85 /\ take_profit_price info = ofZ 125 /\
      stop_loss_price info <> zero /\ take_profit_price info <> zero)
  /\
  (exists info,
      analyze_stock Samples.crash "BBCA.JK" = Some info /\
      signal info = STRONG_SELL /\
      current_price info = ofZ 80 /\
      recent_high info = ofZ 100 /\ recent_low info = ofZ 80 /\
      stop_loss_price info = ofZ 68 /\ take_profit_price info = ofZ 100 /\
      RiskSpec.lift (RiskSpec.spec_levels (Q2Qc 0.15) (Q2Qc 0.25) STRONG_SELL
                                           (Q2Qc 80) (Q2Qc 80) (Q2Qc 100))
      = (ofZ 80, ofZ 92, ofZ 80) /\
      stop_loss_price info <> ofZ 92 /\ take_profit_price info <> ofZ 80).
Proof.
  split.
  - eexists. split; [vm_compute; reflexivity|].
    split; [reflexivity|].
    split; [fnum_eq|]. split; [fnum_eq|]. split; fnum_neq.
  - eexists. split; [vm_compute; reflexivity|].
    split; [reflexivity|].
    split; [fnum_eq|]. split; [fnum_eq|]. split; [fnum_eq|].
    split; [fnum_eq|]. split; [fnum_eq|].
    split.
    + repeat (apply f_equal2; [|fnum_eq]). fnum_eq.
    + split; fnum_neq.
Qed.

End BotFacts.

(* ================================================================== *)
(** * Further properties of the short-horizon analyzer *)

Module AnalyzerExtra.

Import TechnicalAnalyzer AnalyzerViews NumFacts PandasFacts AnalyzerFacts.

(** ** Evidence counts *)

Ltac split_ifs :=
  repeat match goal with
         | |- context [if ?b then _ else _] => destruct b
         end.

(** At most four tags count, and a tag counts for one side only. *)
Lemma count_bounds (latest prev : Row) :
  (0 <= bullish_count latest prev)%Z /\ (0 <= bearish_count latest prev)%Z /\
  (bullish_count latest prev + bearish_count latest prev <= 4)%Z.
Proof.
  unfold bullish_count, bearish_count, counted_tags, trend_signals,
    macd_signals, rsi_signals, bb_signals.
  split_ifs; vm_compute; repeat split; discriminate.
Qed.

(** X1. The confidence of an answer is 0 (NO_DATA), 50 (HOLD) or, for BUY
    and SELL, 40, 60 or 80 with strength WEAK, MEDIUM or STRONG: the cap of
    100 is never reached, and a BUY or SELL resting on two tags carries
    less confidence than a HOLD. *)
Theorem confidence_values (now : Z) (df : DataFrame) :
  let s := generate_signals now df in
  (signal s = NO_DATA /\ confidence s = 0%Z /\ strength s = NONE) \/
  (signal s = HOLD /\ confidence s = 50%Z /\ strength s = WEAK) \/
  ((signal s = BUY \/ signal s = SELL) /\
   ((confidence s = 40%Z /\ strength s = WEAK) \/
    (confidence s = 60%Z /\ strength s = MEDIUM) \/
    (confidence s = 80%Z /\ strength s = STRONG))).
Proof.
  cbv zeta. destruct (Nat.lt_ge_cases (length df) 50) as [Hs|Hl].
  - rewrite generate_signals_short by exact Hs. left. now repeat split.
  - destruct (generate_signals_long now df Hl) as (latest & prev & _ & _ & E).
    rewrite E. right.
    pose proof (count_bounds latest prev) as (B1 & B2 & B3).
    unfold signal_from, decide.
    set (bull := bullish_count latest prev) in *.
    set (bear := bearish_count latest prev) in *.
    destruct (Z.gtb_spec bull bear) as [G1|G1];
      destruct (Z.geb_spec bull 2) as [G2|G2]; cbn [andb].
    1:{ destruct (levels BUY latest) as [[e st] t]. cbn. right.
        split; [now left|].
        assert (bull = 2 \/ bull = 3 \/ bull = 4)%Z as [->|[->| ->]] by lia;
          cbn; auto. }
    all: destruct (Z.gtb_spec bear bull) as [G3|G3];
      destruct (Z.geb_spec bear 2) as [G4|G4]; cbn [andb];
      try (destruct (levels HOLD latest) as [[e st] t]; cbn; left;
           now repeat split).
    all: destruct (levels SELL latest) as [[e st] t]; cbn; right;
      (split; [now right|]);
      assert (bear = 2 \/ bear = 3 \/ bear = 4)%Z as [->|[->| ->]] by lia;
      cbn; auto.
Qed.

(** ** What the direction depends on *)

Lemma bb_tags_never_count (latest : Row) :
  filter is_bullish (bb_signals latest) = [] /\
  filter is_bearish (bb_signals latest) = [].
Proof. unfold bb_signals. split_ifs; now vm_compute. Qed.

Lemma counts_from_views (latest prev latest' prev' : Row) :
  counted_view latest = counted_view latest' ->
  crossover_view prev = crossover_view prev' ->
  bullish_count latest prev = bullish_count latest' prev' /\
  bearish_count latest prev = bearish_count latest' prev'.
Proof.
  unfold counted_view, crossover_view. intros V C.
  injection V as V1 V2 V3 V4 V5 V6 V7 V8. injection C as C1 C2 C3 C4.
  unfold bullish_count, bearish_count, counted_tags.
  fold is_bullish is_bearish. rewrite !filter_app.
  destruct (bb_tags_never_count latest) as [-> ->].
  destruct (bb_tags_never_count latest') as [-> ->].
  unfold trend_signals, macd_signals, rsi_signals, cl.
  now rewrite V1, V2, V3, V4, V5, V6, V7, V8, C1, C2, C3, C4.
Qed.

(** X2. Direction, confidence and strength depend only on the close, the
    two exponential and the two simple averages, the MACD pair and the RSI
    of the latest row, and on the exponential averages and MACD pair of the
    previous row: Bollinger bands, volume and support/resistance never
    change them. *)
Theorem direction_ignores_bands_volume_levels
        (now now' : Z) (df df' : DataFrame) (latest prev latest' prev' : Row) :
  (50 <= length df)%nat -> (50 <= length df')%nat ->
  iloc_neg 1 df = Some latest -> iloc_neg 2 df = Some prev ->
  iloc_neg 1 df' = Some latest' -> iloc_neg 2 df' = Some prev' ->
  counted_view latest = counted_view latest' ->
  crossover_view prev = crossover_view prev' ->
  let s := generate_signals now df in
  let s' := generate_signals now' df' in
  signal s = signal s' /\ confidence s = confidence s' /\ strength s = strength s'.
Proof.
  intros L L' E1 E2 E1' E2' V C. cbv zeta.
  destruct (generate_signals_long now df L) as (l & p & A1 & A2 & A).
  destruct (generate_signals_long now' df' L') as (l' & p' & B1 & B2 & B).
  assert (l = latest) by congruence. assert (p = prev) by congruence.
  assert (l' = latest') by congruence. assert (p' = prev') by congruence.
  subst l p l' p'. rewrite A, B.
  destruct (counts_from_views latest prev latest' prev' V C) as [Cb Cs].
  pose proof (signal_from_decide df latest prev) as D.
  pose proof (signal_from_decide df' latest' prev') as D'.
  rewrite Cb, Cs, <- D' in D. injection D as D1 D2.
  split; [exact D1|]. split; [exact D2|].
  unfold signal_from in *.
  destruct (decide (bullish_count latest prev) (bearish_count latest prev))
    as [d c].
  destruct (decide (bullish_count latest' prev') (bearish_count latest' prev'))
    as [d' c'].
  destruct (levels d latest) as [[e st] t].
  destruct (levels d' latest') as [[e' st'] t'].
  cbn in *. congruence.
Qed.

Lemma direction_ignores_bands_volume_levels_witness :
  let df := calculate_indicators TaReference.ta_reference Samples.breakout in
  let df' := calculate_indicators TaReference.ta_reference Samples.inconsistent in
  exists latest latest',
    iloc_neg 1 df = Some latest /\ iloc_neg 1 df' = Some latest' /\
    resistance latest = ofZ 200 /\ resistance latest' = ofZ 150 /\
    signal (generate_signals 1 df) = signal (generate_signals 2 df') /\
    confidence (generate_signals 1 df) = confidence (generate_signals 2 df') /\
    strength (generate_signals 1 df) = strength (generate_signals 2 df').
Proof.
  cbv zeta.
  assert (exists latest prev,
             iloc_neg 1 (calculate_indicators TaReference.ta_reference
                                              Samples.breakout) = Some latest /\
             iloc_neg 2 (calculate_indicators TaReference.ta_reference
                                              Samples.breakout) = Some prev)
    as (latest & prev & H1 & H2).
  { do 2 eexists. split; vm_compute; reflexivity. }
  assert (exists latest' prev',
             iloc_neg 1 (calculate_indicators TaReference.ta_reference
                                              Samples.inconsistent) = Some latest' /\
             iloc_neg 2 (calculate_indicators TaReference.ta_reference
                                              Samples.inconsistent) = Some prev')
    as (latest' & prev' & H1' & H2').
  { do 2 eexists. split; vm_compute; reflexivity. }
  exists latest, latest'. split; [exact H1|]. split; [exact H1'|].
  assert (counted_view latest = counted_view latest') as V.
  { vm_compute in H1, H1'. injection H1 as <-. injection H1' as <-.
    vm_compute. reflexivity. }
  assert (crossover_view prev = crossover_view prev') as C.
  { vm_compute in H2, H2'. injection H2 as <-. injection H2' as <-.
    vm_compute. reflexivity. }
  split.
  { vm_compute in H1. injection H1 as <-. fnum_eq. }
  split.
  { vm_compute in H1'. injection H1' as <-. fnum_eq. }
  apply (direction_ignores_bands_volume_levels 1 2 _ _ latest prev latest' prev');
    try assumption; vm_compute; lia.
Defined.

(** X3. Undefined indicators never produce a direction: when the fast
    exponential average, the short moving average, the MACD and the RSI of
    the latest row are NaN, the answer is HOLD with confidence 50, strength
    WEAK and all levels 0, whatever the other cells hold. *)
Theorem undefined_indicators_hold (now : Z) (df : DataFrame) (latest : Row) :
  (50 <= length df)%nat ->
  iloc_neg 1 df = Some latest ->
  ema_12 latest = NaN -> sma_20 latest = NaN ->
  macd latest = NaN -> rsi latest = NaN ->
  let s := generate_signals now df in
  signal s = HOLD /\ confidence s = 50%Z /\ strength s = WEAK /\
  entry_price s = zero /\ stop_loss s = zero /\ take_profit s = zero /\
  risk_reward s = zero.
Proof.
  intros L E1 He Hs Hm Hr. cbv zeta.
  destruct (generate_signals_long now df L) as (l & prev & A1 & _ & A).
  assert (l = latest) by congruence. subst l. rewrite A.
  assert (bullish_count latest prev = 0%Z /\ bearish_count latest prev = 0%Z)
    as [Hb Hc].
  { unfold bullish_count, bearish_count, counted_tags, trend_signals,
      macd_signals, rsi_signals, cl.
    fold is_bullish is_bearish. rewrite !filter_app.
    destruct (bb_tags_never_count latest) as [-> ->].
    rewrite He, Hs, Hm, Hr.
    assert (forall x, ltb x NaN = false) as N by (now intros []).
    unfold gtb. rewrite !N. cbn [ltb cmp andb].
    destruct (ema_26 latest), (macd_signal latest); now vm_compute. }
  unfold signal_from. rewrite Hb, Hc. cbn. now repeat split.
Qed.

Lemma undefined_indicators_hold_witness :
  exists latest,
    iloc_neg 1 undefined_frame = Some latest /\
    signal (generate_signals 7 undefined_frame) = HOLD /\
    confidence (generate_signals 7 undefined_frame) = 50%Z.
Proof.
  assert (exists latest, iloc_neg 1 undefined_frame = Some latest) as (latest & H).
  { eexists. vm_compute. reflexivity. }
  exists latest. split; [exact H|].
  assert (50 <= length undefined_frame)%nat as L by (vm_compute; lia).
  assert (ema_12 latest = NaN /\ sma_20 latest = NaN /\ macd latest = NaN
          /\ rsi latest = NaN) as (H1 & H2 & H3 & H4).
  { vm_compute in H. injection H as <-. now repeat split. }
  pose proof (undefined_indicators_hold 7 undefined_frame latest L H H1 H2 H3 H4)
    as T.
  cbv zeta in T. destruct T as (T1 & T2 & _). now split.
Defined.

(** ** Fibonacci levels *)

Lemma tail_col (f : Bar -> Qc) (n : nat) (bars : list Bar) :
  tail n (col f bars) = map Fin (tail n (map f bars)).
Proof.
  unfold tail. rewrite col_as_map, !length_map. now rewrite skipn_map.
Qed.

Lemma last_in_tail (A : Type) (n : nat) (l : list A) (x : A) :
  (1 <= n)%nat -> iloc_neg 1 l = Some x -> In x (tail n l).
Proof.
  intros Hn. unfold iloc_neg, tail. cbn [Nat.eqb].
  destruct (Nat.ltb_spec (length l) 1) as [H|H]; [discriminate|].
  intros E.
  apply nth_error_In with (n := (length l - 1 - (length l - n))%nat).
  rewrite nth_error_skipn. rewrite <- E. f_equal. lia.
Qed.

Lemma sub_Fin (a b : Qc) : sub (Fin a) (Fin b) = Fin (a - b).
Proof. reflexivity. Qed.

(** X4. With at least 20 bars, whose latest has its low at most its high,
    the four retracement levels lie between the lowest low and the highest
    high of the last 20 bars, in the order 61.8%, 50%, 38.2%, 23.6% from the
    bottom; every row of the table, the earliest included, carries these
    same four values. *)
Theorem fibonacci_levels_ordered (ta : TaLib) (bars : list Bar) (b : Bar) :
  (20 <= length bars)%nat ->
  iloc_neg 1 bars = Some b ->
  (low b <= high b)%Qc ->
  exists lo hi f1 f2 f3 f4,
    win_min (tail 20 (col low bars)) = Fin lo /\
    win_max (tail 20 (col high bars)) = Fin hi /\
    calculate_fibonacci_levels bars = Some (Fin f1, Fin f2, Fin f3, Fin f4) /\
    (lo <= f4)%Qc /\ (f4 <= f3)%Qc /\ (f3 <= f2)%Qc /\ (f2 <= f1)%Qc /\
    (f1 <= hi)%Qc /\
    forall r, In r (calculate_indicators ta bars) ->
              fib_23_6 r = Fin f1 /\ fib_38_2 r = Fin f2 /\
              fib_50_0 r = Fin f3 /\ fib_61_8 r = Fin f4.
Proof.
  intros Hn Hb Hlh.
  pose proof (last_in_tail Bar 20 bars b ltac:(lia) Hb) as Hin.
  assert (In (low b) (tail 20 (map low bars))) as Hlo.
  { unfold tail in *. rewrite length_map, skipn_map. now apply in_map. }
  assert (In (high b) (tail 20 (map high bars))) as Hhi.
  { unfold tail in *. rewrite length_map, skipn_map. now apply in_map. }
  destruct (win_min_Fin (tail 20 (map low bars))) as (lo & Elo & _ & Llo).
  { intros E. now rewrite E in Hlo. }
  destruct (win_max_Fin (tail 20 (map high bars))) as (hi & Ehi & _ & Lhi).
  { intros E. now rewrite E in Hhi. }
  assert (lo <= hi)%Qc as Hd.
  { apply Qcle_trans with (low b); [now apply Llo|].
    apply Qcle_trans with (high b); [exact Hlh|now apply Lhi]. }
  assert (calculate_fibonacci_levels bars
          = Some (Fin (hi - (hi - lo) * Q2Qc 0.236),
                  Fin (hi - (hi - lo) * Q2Qc 0.382),
                  Fin (hi - (hi - lo) * Q2Qc 0.500),
                  Fin (hi - (hi - lo) * Q2Qc 0.618))) as EF.
  { unfold calculate_fibonacci_levels.
    destruct (Nat.ltb_spec (length bars) 20) as [H|_]; [lia|].
    rewrite !tail_col, Elo, Ehi. reflexivity. }
  exists lo, hi, (hi - (hi - lo) * Q2Qc 0.236)%Qc, (hi - (hi - lo) * Q2Qc 0.382)%Qc,
    (hi - (hi - lo) * Q2Qc 0.500)%Qc, (hi - (hi - lo) * Q2Qc 0.618)%Qc.
  rewrite <- !tail_col in *.
  split; [exact Elo|]. split; [exact Ehi|].
  split; [exact EF|].
  repeat split; try (to_Q; lra).
  all: unfold calculate_indicators in H; cbv zeta in H;
    apply in_map_iff in H as (ib & <- & _); cbn [fib_23_6 fib_38_2 fib_50_0 fib_61_8];
    now rewrite EF.
Qed.

Lemma fibonacci_levels_ordered_witness :
  exists lo hi f1 f2 f3 f4,
    win_min (tail 20 (col low Samples.breakout)) = Fin lo /\
    win_max (tail 20 (col high Samples.breakout)) = Fin hi /\
    calculate_fibonacci_levels Samples.breakout
    = Some (Fin f1, Fin f2, Fin f3, Fin f4) /\
    (lo <= f4)%Qc /\ (f4 <= f3)%Qc /\ (f3 <= f2)%Qc /\ (f2 <= f1)%Qc /\
    (f1 <= hi)%Qc.
Proof.
  destruct (fibonacci_levels_ordered TaReference.ta_reference Samples.breakout
              (mkBar 49 (Samples.q 100) (Samples.q 200) (Samples.q 100)
                     (Samples.q 200) (Samples.q 1000)))
    as (lo & hi & f1 & f2 & f3 & f4 & H1 & H2 & H3 & H4 & H5 & H6 & H7 & H8 & _).
  - vm_compute; lia.
  - apply (iloc_neg_1_app (Samples.quiet 0 49)).
  - vm_compute. discriminate.
  - exists lo, hi, f1, f2, f3, f4. now repeat split.
Defined.

(** With fewer than 20 bars the retracement columns are absent. *)
Lemma fibonacci_levels_short (bars : list Bar) :
  (length bars < 20)%nat -> calculate_fibonacci_levels bars = None.
Proof.
  intros H. unfold calculate_fibonacci_levels.
  now destruct (Nat.ltb_spec (length bars) 20) as [_|H']; [|lia].
Qed.

(** ** Distance of the levels from the entry *)

Lemma qmax_ge_r (a b : Qc) : (b <= RiskSpec.qmax a b)%Qc.
Proof.
  unfold RiskSpec.qmax. destruct (Qclt_le_dec a b) as [H|H];
    [apply Qcle_refl|exact H].
Qed.

Lemma qmin_le_r (a b : Qc) : (RiskSpec.qmin a b <= b)%Qc.
Proof.
  unfold RiskSpec.qmin. destruct (Qclt_le_dec b a) as [H|H];
    [apply Qcle_refl|exact H].
Qed.

(** X5. On at least 50 bars the levels stay within fixed fractions of the
    entry, which is the latest close: a BUY has its stop-loss no lower
    than 95% and its take-profit no higher than 110% of the entry; a SELL
    has its stop-loss no higher than 105% and its take-profit no lower
    than 90% of the entry. *)
Theorem levels_within_fractions (ta : TaLib) (now : Z) (bars : list Bar) :
  (50 <= length bars)%nat ->
  let s := analyze ta now bars in
  exists b st t,
    iloc_neg 1 bars = Some b /\
    (signal s = BUY ->
       entry_price s = Fin (close b) /\ stop_loss s = Fin st /\
       take_profit s = Fin t /\
       (close b * Q2Qc 0.95 <= st)%Qc /\ (t <= close b * Q2Qc 1.1)%Qc) /\
    (signal s = SELL ->
       entry_price s = Fin (close b) /\ stop_loss s = Fin st /\
       take_profit s = Fin t /\
       (st <= close b * Q2Qc 1.05)%Qc /\ (close b * Q2Qc 0.9 <= t)%Qc).
Proof.
  intros H. cbv zeta.
  destruct (proj2 (analyzer_levels_spec ta now bars) H)
    as (b & latest & sp & rs & Hb & _ & _ & _ & _ & _ & L).
  set (s := analyze ta now bars) in *.
  destruct (signal s) eqn:D; cbn [RiskSpec.spec_levels RiskSpec.lift] in L.
  - injection L as L1 L2 L3.
    exists b, (RiskSpec.qmax sp (close b * (1 - Q2Qc 0.05)))%Qc,
      (RiskSpec.qmin rs (close b * (1 + Q2Qc 0.10)))%Qc.
    split; [exact Hb|]. split; [|discriminate].
    intros _. repeat split; try assumption.
    + apply (qmax_ge_r sp (close b * (1 - Q2Qc 0.05))%Qc).
    + apply (qmin_le_r rs (close b * (1 + Q2Qc 0.10))%Qc).
  - injection L as L1 L2 L3.
    exists b, (RiskSpec.qmin rs (close b * (1 + Q2Qc 0.05)))%Qc,
      (RiskSpec.qmax sp (close b * (1 - Q2Qc 0.10)))%Qc.
    split; [exact Hb|]. split; [discriminate|].
    intros _. repeat split; try assumption.
    + apply (qmin_le_r rs (close b * (1 + Q2Qc 0.05))%Qc).
    + apply (qmax_ge_r sp (close b * (1 - Q2Qc 0.10))%Qc).
  - exists b, 0%Qc, 0%Qc. split; [exact Hb|]. split; discriminate.
  - exists b, 0%Qc, 0%Qc. split; [exact Hb|]. split; discriminate.
  - exists b, 0%Qc, 0%Qc. split; [exact Hb|]. split; discriminate.
Qed.

Lemma levels_within_fractions_witness :
  let s := analyze TaReference.ta_reference 7 Samples.breakout in
  exists b st t,
    iloc_neg 1 Samples.breakout = Some b /\
    (signal s = BUY ->
       entry_price s = Fin (close b) /\ stop_loss s = Fin st /\
       take_profit s = Fin t /\
       (close b * Q2Qc 0.95 <= st)%Qc /\ (t <= close b * Q2Qc 1.1)%Qc) /\
    (signal s = SELL ->
       entry_price s = Fin (close b) /\ stop_loss s = Fin st /\
       take_profit s = Fin t /\
       (st <= close b * Q2Qc 1.05)%Qc /\ (close b * Q2Qc 0.9 <= t)%Qc).
Proof.
  apply (levels_within_fractions TaReference.ta_reference 7 Samples.breakout).
  vm_compute; lia.
Defined.

End AnalyzerExtra.

(* ================================================================== *)
(** * Further properties of the long-horizon engine *)

Module BotExtra.

Import Config TradingBot BotViews NumFacts PandasFacts BotFacts.

(** ** Cells of masks and of assigned columns *)

Lemma mat_overflow (m : Mask) (i : nat) : (length m <= i)%nat -> mat m i = false.
Proof. intros H. unfold mat. now apply nth_overflow. Qed.

Lemma mat_mand_eq (a b : Mask) (i : nat) :
  mat (mand a b) i = mat a i && mat b i.
Proof.
  destruct (mat (mand a b) i) eqn:E.
  - apply mat_mand in E as [-> ->]. reflexivity.
  - destruct (mat a i) eqn:Ea, (mat b i) eqn:Eb; try reflexivity.
    now rewrite (mat_mand_intro a b i Ea Eb) in E.
Qed.

Lemma mat_mor_eq (a b : Mask) (i : nat) :
  length a = length b -> mat (mor a b) i = mat a i || mat b i.
Proof.
  intros L. destruct (Nat.lt_ge_cases i (length a)) as [H|H].
  - unfold mat, mor. apply (nth_map2 _ _ _ orb); lia.
  - assert (length (mor a b) <= i)%nat as Hm
      by (unfold mor; rewrite map2_length; lia).
    rewrite (mat_overflow a i H), (mat_overflow b i ltac:(lia)),
      (mat_overflow _ i Hm).
    reflexivity.
Qed.

Lemma mat_mnot_eq (a : Mask) (i : nat) :
  (i < length a)%nat -> mat (mnot a) i = negb (mat a i).
Proof.
  intros H. unfold mat, mnot.
  rewrite (nth_indep _ false (negb false)) by now rewrite length_map.
  apply map_nth.
Qed.

Lemma mat_scmp (f : fnum -> fnum -> bool) (a b : Series) (i : nat) :
  mat (scmp f a b) i = true -> f (at_ a i) (at_ b i) = true.
Proof.
  unfold mat, scmp, at_.
  destruct (nth_map2_default _ _ _ f a b i NaN NaN false) as [E|E];
    rewrite E; [discriminate|auto].
Qed.

Lemma loc_set_at (A : Type) (m : Mask) (v : A) (col : list A) (i : nat) (d : A) :
  (i < length m)%nat -> (i < length col)%nat ->
  nth i (loc_set m v col) d = if mat m i then v else nth i col d.
Proof.
  intros Hm Hc. unfold loc_set, mat.
  apply (nth_map2 _ _ _ (fun (b : bool) old => if b then v else old)); lia.
Qed.

Lemma loc_set_length (A : Type) (m : Mask) (v : A) (col : list A) :
  length (loc_set m v col) = Nat.min (length m) (length col).
Proof. apply map2_length. Qed.

(** ** Lengths *)

Lemma diff_length (s : Series) : length (diff s) = length s.
Proof. unfold diff, ssub. rewrite map2_length, shift_length. lia. Qed.

Lemma pct_change_length (s : Series) : length (pct_change s) = length s.
Proof.
  unfold pct_change, sdiv. rewrite length_map, map2_length, shift_length. lia.
Qed.

Lemma rolling_mean_length (w : nat) (s : Series) :
  length (rolling_mean w s) = length s.
Proof. apply rolling_length. Qed.

Lemma rolling_min_length (w : nat) (s : Series) :
  length (rolling_min w s) = length s.
Proof. apply rolling_length. Qed.

Lemma rolling_max_length (w : nat) (s : Series) :
  length (rolling_max w s) = length s.
Proof. apply rolling_length. Qed.

Ltac len :=
  repeat (rewrite ?map2_length, ?length_map, ?shift_length, ?rolling_length,
                   ?rolling_mean_length, ?rolling_min_length, ?rolling_max_length,
                   ?calculate_rsi_length, ?pct_change_length, ?diff_length,
                   ?loc_set_length, ?repeat_length, ?Nat.min_id).

Section Lengths.

Variable data : list Bar.
Let ind := calculate_technical_indicators data.
Let n := length data.

Ltac mask_len :=
  subst ind n;
  repeat progress (mask_unfold);
  len; reflexivity
with mask_unfold :=
  unfold buy_condition, buy_sma_cross, buy_rsi_ok, rsi_oversold_recovery,
    strong_uptrend, price_momentum, regular_sell, strong_sell,
    strong_sell_multiple, strong_sell_extreme, strong_sell_crash,
    sma_cross_confirmed, sell_sma_cross, sell_rsi_overbought, sell_high_volume,
    sell_divergence, price_trend, rsi_trend, volume_ratio,
    mand, mor, mnot, scmp, scmp_c, sdiv, smul_c, rolling_mean, rolling_max,
    rolling_min, calculate_technical_indicators, col;
  cbn [c_Close c_Volume c_SMA_short c_SMA_long c_RSI c_Volume_MA
       c_Price_Change_Pct c_Recent_High c_Recent_Low].

Lemma len_buy1 : length (mand (buy_sma_cross ind) (buy_rsi_ok ind)) = n.
Proof. mask_len. Qed.
Lemma len_buy2 :
  length (mand (rsi_oversold_recovery ind)
               (scmp gtb (c_SMA_short ind) (c_SMA_long ind))) = n.
Proof. mask_len. Qed.
Lemma len_buy3 : length (mand (strong_uptrend ind) (price_momentum ind)) = n.
Proof. mask_len. Qed.
Lemma len_buy : length (buy_condition ind) = n.
Proof. mask_len. Qed.
Lemma len_cross : length (sma_cross_confirmed ind) = n.
Proof. mask_len. Qed.
Lemma len_overbought : length (sell_rsi_overbought ind) = n.
Proof. mask_len. Qed.
Lemma len_high_volume : length (sell_high_volume ind) = n.
Proof. mask_len. Qed.
Lemma len_divergence : length (sell_divergence ind) = n.
Proof. mask_len. Qed.
Lemma len_multiple : length (strong_sell_multiple ind) = n.
Proof. mask_len. Qed.
Lemma len_extreme : length (strong_sell_extreme ind) = n.
Proof. mask_len. Qed.
Lemma len_crash : length (strong_sell_crash ind) = n.
Proof. mask_len. Qed.
Lemma len_strong : length (strong_sell ind) = n.
Proof. mask_len. Qed.
Lemma len_regular : length (regular_sell ind) = n.
Proof. mask_len. Qed.

End Lengths.

(** ** The three assigned columns, cell by cell *)

Section Pointwise.

Variable data : list Bar.
Variable i : nat.
Hypothesis Hi : (i < length data)%nat.

Let ind := calculate_technical_indicators data.
Let n := length data.
Let b1 := mat (mand (buy_sma_cross ind) (buy_rsi_ok ind)) i.
Let b2 := mat (mand (rsi_oversold_recovery ind)
                    (scmp gtb (c_SMA_short ind) (c_SMA_long ind))) i.
Let b3 := mat (mand (strong_uptrend ind) (price_momentum ind)) i.
Let s1 := mat (sma_cross_confirmed ind) i.
Let s2 := mat (sell_rsi_overbought ind) i.
Let s3 := mat (sell_high_volume ind) i.
Let s4 := mat (sell_divergence ind) i.
Let t1 := mat (strong_sell_multiple ind) i.
Let t2 := mat (strong_sell_extreme ind) i.
Let t3 := mat (strong_sell_crash ind) i.

Lemma buy_at : mat (buy_condition ind) i = b1 || b2 || b3.
Proof.
  subst b1 b2 b3. unfold buy_condition.
  rewrite mat_mor_eq, mat_mor_eq; [reflexivity| |].
  - subst ind. now rewrite len_buy1, len_buy2.
  - unfold mor. rewrite map2_length. subst ind.
    now rewrite len_buy1, len_buy2, len_buy3, Nat.min_id.
Qed.

Lemma strong_at : mat (strong_sell ind) i = t1 || t2 || t3.
Proof.
  subst t1 t2 t3. unfold strong_sell.
  rewrite mat_mor_eq, mat_mor_eq; [reflexivity| |].
  - subst ind. now rewrite len_multiple, len_extreme.
  - unfold mor. rewrite map2_length. subst ind.
    now rewrite len_multiple, len_extreme, len_crash, Nat.min_id.
Qed.

Lemma regular_at :
  mat (regular_sell ind) i = (s1 || s2 || s3 || s4) && negb (t1 || t2 || t3).
Proof.
  subst s1 s2 s3 s4. unfold regular_sell.
  rewrite mat_mand_eq, mat_mnot_eq, strong_at.
  2:{ subst ind. now rewrite len_strong. }
  f_equal.
  rewrite mat_mor_eq, mat_mor_eq, mat_mor_eq; [reflexivity| | |].
  - subst ind. now rewrite len_cross, len_overbought.
  - unfold mor. rewrite map2_length. subst ind.
    now rewrite len_cross, len_overbought, len_high_volume, Nat.min_id.
  - unfold mor. rewrite !map2_length. subst ind.
    now rewrite len_cross, len_overbought, len_high_volume, len_divergence,
      !Nat.min_id.
Qed.

Ltac in_range :=
  subst ind n;
  rewrite ?loc_set_length, ?repeat_length, ?len_buy, ?len_regular, ?len_strong,
    ?len_buy1, ?len_buy2, ?len_buy3, ?len_cross, ?len_overbought,
    ?len_high_volume, ?len_divergence, ?len_multiple, ?len_extreme, ?len_crash,
    ?Nat.min_id;
  exact Hi.

Lemma signal_at :
  nth i (signal_column ind n) HOLD
  = if t1 || t2 || t3 then STRONG_SELL
    else if s1 || s2 || s3 || s4 then SELL
    else if b1 || b2 || b3 then BUY
    else HOLD.
Proof.
  unfold signal_column.
  rewrite loc_set_at, loc_set_at, loc_set_at; try in_range.
  rewrite strong_at, regular_at, buy_at.
  rewrite nth_repeat_lt by exact Hi.
  destruct (t1 || t2 || t3); [reflexivity|].
  now rewrite andb_true_r.
Qed.

Lemma position_at :
  nth i (position_column ind n) 0%Z
  = if t1 || t2 || t3 then (-2)%Z
    else if s1 || s2 || s3 || s4 then (-1)%Z
    else if b1 || b2 || b3 then 1%Z
    else 0%Z.
Proof.
  unfold position_column.
  rewrite loc_set_at, loc_set_at, loc_set_at; try in_range.
  rewrite strong_at, regular_at, buy_at.
  rewrite nth_repeat_lt by exact Hi.
  destruct (t1 || t2 || t3); [reflexivity|].
  now rewrite andb_true_r.
Qed.

Lemma reason_at :
  nth i (reason_column ind n) "No Signal"
  = if t3 then "Major Price Crash (-10%+)"
    else if t2 then "Extreme Overbought (85+)"
    else if t1 then "Multiple Confirmed Bearish Signals"
    else if s4 then "Long-term Bearish Divergence"
    else if s3 then "Major High Volume Sell-off"
    else if s2 then "RSI Extremely Overbought (80+)"
    else if s1 then "Confirmed SMA Bearish Crossover"
    else if b3 then "Strong Uptrend Continuation"
    else if b2 then "RSI Oversold Recovery"
    else if b1 then "Long-term SMA Crossover"
    else "No Signal".
Proof.
  unfold reason_column.
  do 10 (rewrite loc_set_at; [|in_range|in_range]).
  now rewrite nth_repeat_lt by exact Hi.
Qed.

End Pointwise.

Lemma row_cells (data : list Bar) (i : nat) (row : Row) :
  nth_error (generate_enhanced_signals data) i = Some row ->
  let ind := calculate_technical_indicators data in
  (i < length data)%nat /\
  Signal row = nth i (signal_column ind (length data)) HOLD /\
  Position row = nth i (position_column ind (length data)) 0%Z /\
  Signal_Reason row = nth i (reason_column ind (length data)) "No Signal" /\
  RSI row = at_ (c_RSI ind) i /\
  SMA_short row = at_ (c_SMA_short ind) i /\
  SMA_long row = at_ (c_SMA_long ind) i /\
  nth_error data i = Some (bar row).
Proof.
  unfold generate_enhanced_signals. cbv zeta.
  rewrite nth_error_indexed. cbn [Nat.add].
  destruct (nth_error data i) as [b|] eqn:E; [|discriminate].
  cbn [option_map fst snd]. intros H. injection H as <-.
  cbn. repeat split. apply nth_error_Some. congruence.
Qed.

(** X6. The label of a row follows a fixed order of precedence: a strong
    sell condition gives STRONG_SELL; otherwise a regular sell condition
    gives SELL; otherwise a buy condition gives BUY; otherwise HOLD.  In
    particular a row that meets both a buy and a sell condition is
    labelled as a sell. *)
Theorem signal_precedence (data : list Bar) (i : nat) (row : Row) :
  nth_error (generate_enhanced_signals data) i = Some row ->
  let ind := calculate_technical_indicators data in
  Signal row
  = if mat (strong_sell_multiple ind) i || mat (strong_sell_extreme ind) i
       || mat (strong_sell_crash ind) i
    then STRONG_SELL
    else if mat (sma_cross_confirmed ind) i || mat (sell_rsi_overbought ind) i
            || mat (sell_high_volume ind) i || mat (sell_divergence ind) i
    then SELL
    else if mat (buy_condition ind) i then BUY
    else HOLD.
Proof.
  intros H. cbv zeta.
  destruct (row_cells data i row H) as (Hi & -> & _).
  rewrite (signal_at data i Hi), (buy_at data i). reflexivity.
Qed.

Lemma signal_precedence_witness :
  exists row,
    nth_error (generate_enhanced_signals MoreSamples.pullback) 59 = Some row /\
    mat (buy_condition (calculate_technical_indicators MoreSamples.pullback)) 59
    = true /\
    mat (sell_high_volume (calculate_technical_indicators MoreSamples.pullback)) 59
    = true /\
    Signal row = SELL.
Proof.
  assert (exists row,
             nth_error (generate_enhanced_signals MoreSamples.pullback) 59
             = Some row) as (row & H).
  { eexists. vm_compute. reflexivity. }
  exists row. split; [exact H|].
  pose proof (signal_precedence MoreSamples.pullback 59 row H) as T.
  cbv zeta in T.
  assert (mat (buy_condition (calculate_technical_indicators MoreSamples.pullback)) 59
          = true) as B by (vm_compute; reflexivity).
  assert (mat (sell_high_volume
                 (calculate_technical_indicators MoreSamples.pullback)) 59 = true)
    as S by (vm_compute; reflexivity).
  split; [exact B|]. split; [exact S|].
  assert (mat (strong_sell_multiple
                 (calculate_technical_indicators MoreSamples.pullback)) 59 = false)
    as T1 by (vm_compute; reflexivity).
  assert (mat (strong_sell_extreme
                 (calculate_technical_indicators MoreSamples.pullback)) 59 = false)
    as T2 by (vm_compute; reflexivity).
  assert (mat (strong_sell_crash
                 (calculate_technical_indicators MoreSamples.pullback)) 59 = false)
    as T3 by (vm_compute; reflexivity).
  rewrite T, T1, T2, T3, S. cbn [orb]. now rewrite !orb_true_r.
Defined.

(** X7. [Position] is a code for [Signal] on every row: 1 for BUY, -1 for
    SELL, -2 for STRONG_SELL and 0 for HOLD; no row is labelled NO_DATA. *)
Theorem position_encodes_signal (data : list Bar) (i : nat) (row : Row) :
  nth_error (generate_enhanced_signals data) i = Some row ->
  Position row = position_of (Signal row) /\ Signal row <> NO_DATA.
Proof.
  intros H.
  destruct (row_cells data i row H) as (Hi & -> & -> & _).
  rewrite (signal_at data i Hi), (position_at data i Hi).
  repeat match goal with
         | |- context [if ?b then _ else _] => destruct b
         end; split; (reflexivity || discriminate).
Qed.

Lemma position_encodes_signal_witness :
  exists row,
    nth_error (generate_enhanced_signals Samples.crash) 49 = Some row /\
    Position row = (-2)%Z /\ Signal row = STRONG_SELL.
Proof.
  assert (exists row,
             nth_error (generate_enhanced_signals Samples.crash) 49 = Some row /\
             Signal row = STRONG_SELL) as (row & H & S).
  { eexists. split; [vm_compute; reflexivity|reflexivity]. }
  exists row. split; [exact H|].
  destruct (position_encodes_signal Samples.crash 49 row H) as [P _].
  rewrite S in P. now split.
Defined.

(** X8. The reason written on a row is of the same kind as its label:
    "No Signal" exactly on HOLD rows, one of the three buy reasons exactly
    on BUY rows, one of the four sell reasons exactly on SELL rows, and
    one of the three strong-sell reasons exactly on STRONG_SELL rows. *)
Theorem reason_matches_signal (data : list Bar) (i : nat) (row : Row) :
  nth_error (generate_enhanced_signals data) i = Some row ->
  (Signal row = HOLD <-> Signal_Reason row = "No Signal") /\
  (Signal row = BUY <-> mem (Signal_Reason row) buy_reasons = true) /\
  (Signal row = SELL <-> mem (Signal_Reason row) sell_reasons = true) /\
  (Signal row = STRONG_SELL <-> mem (Signal_Reason row) strong_sell_reasons = true).
Proof.
  intros H.
  destruct (row_cells data i row H) as (Hi & -> & _ & -> & _).
  rewrite (signal_at data i Hi), (reason_at data i Hi).
  set (ind := calculate_technical_indicators data).
  destruct (mat (strong_sell_crash ind) i), (mat (strong_sell_extreme ind) i),
    (mat (strong_sell_multiple ind) i), (mat (sell_divergence ind) i),
    (mat (sell_high_volume ind) i), (mat (sell_rsi_overbought ind) i),
    (mat (sma_cross_confirmed ind) i),
    (mat (mand (strong_uptrend ind) (price_momentum ind)) i),
    (mat (mand (rsi_oversold_recovery ind)
               (scmp gtb (c_SMA_short ind) (c_SMA_long ind))) i),
    (mat (mand (buy_sma_cross ind) (buy_rsi_ok ind)) i);
    vm_compute; repeat split; intros; (reflexivity || discriminate).
Qed.

Lemma reason_matches_signal_witness :
  exists row,
    nth_error (generate_enhanced_signals MoreSamples.pullback) 59 = Some row /\
    Signal row = SELL /\ Signal_Reason row = "Major High Volume Sell-off".
Proof.
  assert (exists row,
             nth_error (generate_enhanced_signals MoreSamples.pullback) 59
             = Some row /\ Signal_Reason row = "Major High Volume Sell-off")
    as (row & H & R).
  { eexists. split; [vm_compute; reflexivity|reflexivity]. }
  exists row. split; [exact H|].
  destruct (reason_matches_signal MoreSamples.pullback 59 row H)
    as (_ & _ & T & _).
  split; [|exact R]. apply T. rewrite R. reflexivity.
Defined.

(** ** Warm-up rows *)

Lemma at_rolling_warm (agg : list fnum -> fnum) (w : nat) (s : Series) (i : nat) :
  (i + 1 < w)%nat -> at_ (rolling agg w s) i = NaN.
Proof.
  intros H. destruct (Nat.lt_ge_cases i (length s)) as [L|L].
  - rewrite rolling_at by exact L.
    now destruct (Nat.ltb_spec (i + 1) w) as [_|H']; [|lia].
  - unfold at_. apply nth_overflow. now rewrite rolling_length.
Qed.

Lemma ltb_NaN_r (x : fnum) : ltb x NaN = false.
Proof. now destruct x. Qed.

Section WarmUp.

Variable data : list Bar.
Variable i : nat.
Let ind := calculate_technical_indicators data.

Lemma sma_long_warm : (i < 49)%nat -> at_ (c_SMA_long ind) i = NaN.
Proof. intros H. apply at_rolling_warm. unfold SMA_LONG_PERIOD. lia. Qed.

Lemma rsi_warm : (i < 20)%nat -> at_ (c_RSI ind) i = NaN.
Proof.
  intros H. subst ind. cbn [calculate_technical_indicators c_RSI].
  rewrite at_calculate_rsi. unfold rsi_gain, rolling_mean.
  rewrite at_rolling_warm by (unfold RSI_PERIOD; lia). reflexivity.
Qed.

Lemma volume_ratio_warm : (i < 19)%nat -> at_ (volume_ratio ind) i = NaN.
Proof.
  intros H. unfold volume_ratio. rewrite at_sdiv.
  subst ind. cbn [calculate_technical_indicators c_Volume_MA].
  unfold rolling_mean. rewrite at_rolling_warm by lia.
  now destruct (at_ _ i).
Qed.

Lemma no_short_above_long :
  (i < 49)%nat -> mat (scmp gtb (c_SMA_short ind) (c_SMA_long ind)) i = false.
Proof.
  intros H. destruct (mat _ i) eqn:E; [|reflexivity].
  apply mat_scmp in E. rewrite sma_long_warm in E by exact H.
  unfold gtb in E. discriminate.
Qed.

Lemma no_short_below_long :
  (i < 49)%nat -> mat (scmp ltb (c_SMA_short ind) (c_SMA_long ind)) i = false.
Proof.
  intros H. destruct (mat _ i) eqn:E; [|reflexivity].
  apply mat_scmp in E. rewrite sma_long_warm in E by exact H.
  now rewrite ltb_NaN_r in E.
Qed.

Lemma no_buy_warm : (i < 49)%nat -> mat (buy_condition ind) i = false.
Proof.
  intros H. pose proof (no_short_above_long H) as N.
  destruct (mat (buy_condition ind) i) eqn:E; [|reflexivity].
  unfold buy_condition in E.
  apply mat_mor in E as [E|E]; [apply mat_mor in E as [E|E]|].
  - apply mat_mand in E as [E _]. unfold buy_sma_cross in E.
    apply mat_mand in E as [E _]. congruence.
  - apply mat_mand in E as [_ E]. congruence.
  - apply mat_mand in E as [E _]. unfold strong_uptrend in E.
    apply mat_mand in E as [E _]. apply mat_mand in E as [E _].
    apply mat_mand in E as [E _]. congruence.
Qed.

Lemma no_cross_warm : (i < 49)%nat -> mat (sma_cross_confirmed ind) i = false.
Proof.
  intros H. pose proof (no_short_below_long H) as N.
  destruct (mat (sma_cross_confirmed ind) i) eqn:E; [|reflexivity].
  unfold sma_cross_confirmed, sell_sma_cross in E.
  apply mat_mand in E as [E _]. apply mat_mand in E as [E _]. congruence.
Qed.

Lemma no_rsi_above_warm (c : fnum) :
  (i < 20)%nat -> mat (scmp_c gtb c (c_RSI ind)) i = false.
Proof.
  intros H. rewrite mat_scmp_c by (unfold gtb; apply ltb_NaN_r).
  rewrite rsi_warm by exact H. apply ltb_NaN_r.
Qed.

Lemma no_volume_above_warm (c : fnum) :
  (i < 19)%nat -> mat (scmp_c gtb c (volume_ratio ind)) i = false.
Proof.
  intros H. rewrite mat_scmp_c by (unfold gtb; apply ltb_NaN_r).
  rewrite volume_ratio_warm by exact H. apply ltb_NaN_r.
Qed.

Lemma no_sell_warm :
  (i < 19)%nat ->
  mat (sma_cross_confirmed ind) i = false /\
  mat (sell_rsi_overbought ind) i = false /\
  mat (sell_high_volume ind) i = false /\
  mat (sell_divergence ind) i = false /\
  mat (strong_sell_multiple ind) i = false /\
  mat (strong_sell_extreme ind) i = false /\
  mat (strong_sell_crash ind) i = false.
Proof.
  intros H.
  assert (mat (sma_cross_confirmed ind) i = false) as C
    by (apply no_cross_warm; lia).
  assert (forall c, mat (scmp_c gtb c (c_RSI ind)) i = false) as R
    by (intros c; apply no_rsi_above_warm; lia).
  assert (forall c, mat (scmp_c gtb c (volume_ratio ind)) i = false) as V
    by (intros c; now apply no_volume_above_warm).
  repeat split.
  - exact C.
  - apply R.
  - unfold sell_high_volume. now rewrite mat_mand_eq, V.
  - unfold sell_divergence. now rewrite mat_mand_eq, R, andb_false_r.
  - unfold strong_sell_multiple. now rewrite mat_mand_eq, C.
  - unfold strong_sell_extreme. now rewrite mat_mand_eq, R.
  - unfold strong_sell_crash. now rewrite mat_mand_eq, V, andb_false_r.
Qed.

End WarmUp.

(** X9. While the indicators are still undefined no signal is given: the
    first 19 rows are HOLD with reason "No Signal" and position 0, and no
    row before the 50th is a BUY. *)
Theorem warm_up_rows (data : list Bar) (i : nat) (row : Row) :
  nth_error (generate_enhanced_signals data) i = Some row ->
  ((i < 19)%nat ->
     Signal row = HOLD /\ Signal_Reason row = "No Signal" /\ Position row = 0%Z) /\
  ((i < 49)%nat -> Signal row <> BUY).
Proof.
  intros H.
  destruct (row_cells data i row H) as (Hlt & S & P & R & _).
  cbv zeta in S, P, R.
  rewrite (signal_at data i Hlt) in S. rewrite (position_at data i Hlt) in P.
  rewrite (reason_at data i Hlt) in R.
  pose proof (buy_at data i) as B.
  split; intros Hi.
  - destruct (no_sell_warm data i Hi) as (E1 & E2 & E3 & E4 & E5 & E6 & E7).
    rewrite no_buy_warm in B by lia. symmetry in B.
    apply orb_false_elim in B as [B B3]. apply orb_false_elim in B as [B1 B2].
    rewrite E1, E2, E3, E4, E5, E6, E7, B1, B2, B3 in S, P, R.
    cbn in S, P, R. now repeat split.
  - rewrite (no_buy_warm data i Hi) in B. symmetry in B.
    apply orb_false_elim in B as [B B3]. apply orb_false_elim in B as [B1 B2].
    rewrite B1, B2, B3 in S. cbn [orb] in S.
    repeat match type of S with
           | context [if ?b then _ else _] => destruct b
           end; congruence.
Qed.

Lemma warm_up_rows_witness :
  exists row,
    nth_error (generate_enhanced_signals Samples.crash) 10 = Some row /\
    Signal row = HOLD /\ Signal_Reason row = "No Signal" /\ Position row = 0%Z.
Proof.
  assert (exists row,
             nth_error (generate_enhanced_signals Samples.crash) 10 = Some row)
    as (row & H).
  { eexists. vm_compute. reflexivity. }
  exists row. split; [exact H|].
  apply (proj1 (warm_up_rows Samples.crash 10 row H)). lia.
Defined.

(** ** The range of the oscillator *)

Lemma nonneg_Fin (x : fnum) :
  nonneg x = true <-> exists q, x = Fin q /\ (0 <= q)%Qc.
Proof.
  unfold nonneg. split.
  - destruct x as [q| | |]; try discriminate.
    intros H. apply andb_prop in H as [H _].
    apply (proj1 (leb_Fin _ _)) in H. now exists q.
  - intros (q & -> & H). apply andb_true_intro. split; [|reflexivity].
    now apply leb_Fin.
Qed.

Lemma in_firstn (A : Type) (n : nat) (l : list A) (x : A) :
  In x (firstn n l) -> In x l.
Proof.
  revert l. induction n as [|n IH]; intros [|y l]; cbn; try tauto.
  intros [H|H]; [now left|right; now apply IH].
Qed.

Lemma in_skipn (A : Type) (n : nat) (l : list A) (x : A) :
  In x (skipn n l) -> In x l.
Proof.
  revert l. induction n as [|n IH]; intros [|y l]; cbn; try tauto.
  intros H. right. now apply IH.
Qed.

Lemma in_shift (k : nat) (s : Series) (x : fnum) :
  In x (shift k s) -> x = NaN \/ In x s.
Proof.
  unfold shift. intros H. apply in_firstn in H.
  apply in_app_or in H as [H|H]; [left|now right].
  now apply repeat_spec in H.
Qed.

Lemma diff_no_inf (l : list Qc) :
  Forall (fun x => no_inf x = true) (diff (map Fin l)).
Proof.
  apply Forall_forall. intros x H. unfold diff, ssub, map2 in H.
  apply in_map_iff in H as ([a b] & <- & H). cbn [fst snd].
  pose proof (in_combine_l _ _ _ _ H) as Ha.
  pose proof (in_combine_r _ _ _ _ H) as Hb.
  apply in_map_iff in Ha as (qa & <- & _).
  apply in_shift in Hb as [->|Hb]; [reflexivity|].
  apply in_map_iff in Hb as (qb & <- & _). reflexivity.
Qed.

Lemma gains_nonneg (delta : Series) :
  Forall (fun x => no_inf x = true) delta ->
  Forall (fun x => nonneg x = true)
         (where_ (fun d => d >? zero)%F zero delta).
Proof.
  intros H. unfold where_. apply Forall_map.
  eapply Forall_impl; [|exact H]. intros x Hx. cbn beta.
  destruct (gtb x zero) eqn:E; [|reflexivity].
  destruct x as [q| | |]; try discriminate.
  apply (proj1 (gtb_Fin _ _)) in E. apply nonneg_Fin. exists q. split; auto.
  now apply Qclt_le_weak.
Qed.

Lemma losses_nonneg (delta : Series) :
  Forall (fun x => no_inf x = true) delta ->
  Forall (fun x => nonneg x = true)
         (map neg (where_ (fun d => d <? zero)%F zero delta)).
Proof.
  intros H. unfold where_. rewrite map_map. apply Forall_map.
  eapply Forall_impl; [|exact H]. intros x Hx. cbn beta.
  destruct (ltb x zero) eqn:E; [|reflexivity].
  destruct x as [q| | |]; try discriminate.
  apply (proj1 (ltb_Fin _ _)) in E. apply nonneg_Fin. exists (- q)%Qc.
  split; [reflexivity|]. revert E. to_Q. intros E.
  change (inject_Z 0) with 0%Q in E. lra.
Qed.

Lemma fsum_nonneg (w : list fnum) (a : Qc) :
  Forall (fun x => nonneg x = true) w -> (0 <= a)%Qc ->
  exists s, fold_left add w (Fin a) = Fin s /\ (a <= s)%Qc.
Proof.
  revert a. induction w as [|x w IH]; intros a Hw Ha; cbn [fold_left].
  - exists a. split; [reflexivity|apply Qcle_refl].
  - inversion Hw as [|? ? Hx Hw']; subst.
    apply nonneg_Fin in Hx as (q & -> & Hq).
    destruct (IH (a + q)%Qc Hw') as (s & E & Hs).
    + revert Ha Hq. to_Q. intros. lra.
    + exists s. split; [exact E|]. revert Hs Hq. to_Q. intros. lra.
Qed.

Lemma Qc_of_Z_pos (z : Z) : (0 < z)%Z -> (0 < Q2Qc (inject_Z z))%Qc.
Proof.
  intros H. unfold Qclt. rewrite !this_Q2Qc. change 0%Q with (inject_Z 0).
  rewrite <- Zlt_Qlt. exact H.
Qed.

Lemma Qc_of_Z_nonneg (z : Z) : (0 <= z)%Z -> (0 <= Q2Qc (inject_Z z))%Qc.
Proof.
  intros H. unfold Qcle. rewrite !this_Q2Qc. change 0%Q with (inject_Z 0).
  rewrite <- Zle_Qle. exact H.
Qed.

(** The mean of a window of non-negative values is a non-negative
    number, or NaN for the empty window. *)
Lemma win_mean_nonneg (w : list fnum) :
  Forall (fun x => nonneg x = true) w ->
  win_mean w = NaN \/ nonneg (win_mean w) = true.
Proof.
  intros Hw. unfold win_mean.
  assert (has_nan w = false) as ->.
  { unfold has_nan. apply Bool.not_true_iff_false. intros E.
    apply existsb_exists in E as (x & Hin & Hx).
    pose proof (proj1 (Forall_forall _ _) Hw x Hin) as N.
    destruct x; discriminate. }
  destruct (fsum_nonneg w 0%Qc Hw (Qcle_refl 0%Qc)) as (s & E & Hs).
  unfold fsum, zero, ofZ. change (Q2Qc (inject_Z 0)) with 0%Qc.
  rewrite E. destruct w as [|x w].
  - left. cbn in E. injection E as <-. reflexivity.
  - right. rewrite div_Fin_pos.
    + apply nonneg_Fin. exists (s / Q2Qc (inject_Z (Z.of_nat (length (x :: w)))))%Qc.
      split; [reflexivity|]. apply Qcdiv_nonneg; [exact Hs|].
      apply Qc_of_Z_pos. cbn [length]. lia.
    + apply Qc_of_Z_pos. cbn [length]. lia.
Qed.

Lemma window_incl (w i : nat) (s : Series) (x : fnum) :
  In x (window w i s) -> In x s.
Proof.
  unfold window. intros H. apply in_firstn in H.
  eapply in_skipn. exact H.
Qed.

Lemma rolling_mean_nonneg (w : nat) (s : Series) (i : nat) :
  Forall (fun x => nonneg x = true) s ->
  at_ (rolling_mean w s) i = NaN \/ nonneg (at_ (rolling_mean w s) i) = true.
Proof.
  intros Hs. unfold rolling_mean.
  destruct (Nat.lt_ge_cases i (length s)) as [L|L].
  - rewrite rolling_at by exact L.
    destruct (i + 1 <? w)%nat; [now left|].
    apply win_mean_nonneg. apply Forall_forall. intros x Hx.
    apply (proj1 (Forall_forall _ _) Hs). eapply window_incl. exact Hx.
  - left. unfold at_. apply nth_overflow. now rewrite rolling_length.
Qed.

Ltac inj_consts :=
  change (inject_Z 0) with 0%Q in *; change (inject_Z 1) with 1%Q in *;
  change (inject_Z 100) with 100%Q in *.

(** The oscillator of a non-negative or infinite ratio. *)
Lemma rsi_of_rs_range (q : Qc) :
  (0 <= q)%Qc -> in_0_100 (rsi_of_rs (Fin q)) = true.
Proof.
  intros Hq. unfold rsi_of_rs.
  change (ofZ 1 + Fin q)%F with (Fin (Q2Qc (inject_Z 1) + q)).
  assert (0 < Q2Qc (inject_Z 1) + q)%Qc as P.
  { revert Hq. to_Q. intros. change (inject_Z 1) with 1%Q. lra. }
  unfold ofZ at 2. rewrite (div_Fin_pos _ _ P).
  unfold in_0_100. apply andb_true_intro.
  set (d := (Q2Qc (inject_Z 100) / (Q2Qc (inject_Z 1) + q))%Qc).
  assert (0 <= d)%Qc as D0.
  { apply Qcdiv_nonneg; [|exact P]. apply Qc_of_Z_nonneg. lia. }
  assert (d <= Q2Qc (inject_Z 100))%Qc as D1.
  { subst d. revert Hq P. to_Q. intros Hq P.
    apply Qle_shift_div_r; [exact P|].
    change (inject_Z 100) with 100%Q. change (inject_Z 1) with 1%Q. nra. }
  split.
  - change (ofZ 100 - Fin d)%F with (Fin (Q2Qc (inject_Z 100) - d)).
    apply leb_Fin. revert D1. to_Q. intros. inj_consts. lra.
  - change (ofZ 100 - Fin d)%F with (Fin (Q2Qc (inject_Z 100) - d)).
    apply leb_Fin. revert D0. to_Q. intros. inj_consts. lra.
Qed.

(** The oscillator of a finite price history, cell by cell. *)
Lemma rsi_cell_range (closes : list Qc) (period i : nat) :
  let v := at_ (calculate_rsi (map Fin closes) period) i in
  v = NaN \/ in_0_100 v = true.
Proof.
  cbv zeta. rewrite at_calculate_rsi.
  pose proof (diff_no_inf closes) as D.
  destruct (rolling_mean_nonneg period _ i (gains_nonneg _ D)) as [G|G];
    fold (rsi_gain (map Fin closes) period) in G; [left; now rewrite G|].
  destruct (rolling_mean_nonneg period _ i (losses_nonneg _ D)) as [L|L];
    fold (rsi_loss (map Fin closes) period) in L.
  { left. rewrite L. now destruct (at_ (rsi_gain _ _) i). }
  apply nonneg_Fin in G as (g & -> & Hg).
  apply nonneg_Fin in L as (l & -> & Hl).
  unfold div. destruct (sgn l) eqn:S.
  - destruct (sgn g) eqn:S'; cbn [signed_inf].
    + now left.
    + apply (proj1 (sgn_Lt g)) in S'. exfalso.
      exact (Qcle_not_lt _ _ Hg S').
    + right. reflexivity.
  - apply (proj1 (sgn_Lt l)) in S. exfalso. exact (Qcle_not_lt _ _ Hl S).
  - right. apply rsi_of_rs_range. apply Qcdiv_nonneg; [exact Hg|].
    now apply sgn_Gt.
Qed.

(** X10. Every cell of the RSI column of a finite price history is either
    NaN or a number between 0 and 100; it is NaN on the rows before the
    window is full. *)
Theorem rsi_in_range (closes : list Qc) (period i : nat) :
  let v := at_ (calculate_rsi (map Fin closes) period) i in
  (v = NaN \/ in_0_100 v = true) /\
  ((i + 1 < period)%nat -> v = NaN).
Proof.
  cbv zeta. split; [apply rsi_cell_range|].
  rewrite at_calculate_rsi.
  intros H. unfold rsi_gain, rolling_mean.
  now rewrite at_rolling_warm by exact H.
Qed.

(** ** Rounding keeps the order *)

Lemma rint_bounds (x : Q) : (Qfloor x <= rint x <= Qfloor x + 1)%Z.
Proof.
  unfold rint. destruct (_ ?= _)%Q; [destruct (Z.even _)| |]; lia.
Qed.

Lemma rint_mono (x y : Q) : (x <= y)%Q -> (rint x <= rint y)%Z.
Proof.
  intros H. pose proof (Qfloor_resp_le x y H) as F.
  destruct (Z.eq_dec (Qfloor x) (Qfloor y)) as [E|E].
  - unfold rint. rewrite <- E.
    destruct (Qcompare_spec (x - inject_Z (Qfloor x)) (1 # 2)) as [A|A|A];
      destruct (Qcompare_spec (y - inject_Z (Qfloor x)) (1 # 2)) as [B|B|B];
      try (destruct (Z.even (Qfloor x))); try lia; exfalso; lra.
  - pose proof (rint_bounds x). pose proof (rint_bounds y). lia.
Qed.

Lemma round_q_mono (nd : nat) (a b : Qc) :
  (a <= b)%Qc -> (round_q nd a <= round_q nd b)%Qc.
Proof.
  intros H. unfold round_q. pose proof (pow10_pos nd) as P.
  assert (0 < inject_Z (pow10 nd))%Q as P'.
  { change 0%Q with (inject_Z 0). now rewrite <- Zlt_Qlt. }
  assert (rint (this a * inject_Z (pow10 nd)) <= rint (this b * inject_Z (pow10 nd)))%Z
    as R.
  { apply rint_mono. unfold Qcle in H. now apply Qmult_le_compat_r; [|apply Qlt_le_weak]. }
  unfold Qcle. rewrite !this_Q2Qc.
  apply Qmult_le_compat_r.
  - now rewrite <- Zle_Qle.
  - apply Qlt_le_weak. now apply Qinv_lt_0_compat.
Qed.

(** X11. For a close of at least 0 the validator's levels enclose the
    reported price, rounding included: stop_loss_price <= current_price
    <= take_profit_price. *)
Theorem validator_levels_enclose_price
        (data : list Row) (sym : string) (info : SignalInfo) (latest : Row) :
  validate_signal data sym = Some info ->
  iloc_neg 1 data = Some latest ->
  (0 <= Close (bar latest))%Qc ->
  exists sl cp tp,
    stop_loss_price info = Fin sl /\ current_price info = Fin cp /\
    take_profit_price info = Fin tp /\ (sl <= cp)%Qc /\ (cp <= tp)%Qc.
Proof.
  intros Hv Hl Hc.
  destruct (validator_levels data sym info latest Hv Hl) as (E1 & E2 & E3).
  set (c := Close (bar latest)) in *.
  exists (round_q 2 (c * (1 - Q2Qc 0.15))), (round_q 2 c),
    (round_q 2 (c * (1 + Q2Qc 0.25))).
  split; [exact E2|]. split; [exact E1|]. split; [exact E3|].
  split; apply round_q_mono; revert Hc; to_Q; intros; nra.
Qed.

Lemma validator_levels_enclose_price_witness :
  exists info sl cp tp,
    validate_signal (generate_enhanced_signals Samples.crash) "BBCA.JK" = Some info /\
    stop_loss_price info = Fin sl /\ current_price info = Fin cp /\
    take_profit_price info = Fin tp /\ (sl <= cp)%Qc /\ (cp <= tp)%Qc.
Proof.
  assert (exists latest,
             iloc_neg 1 (generate_enhanced_signals Samples.crash) = Some latest /\
             Close (bar latest) = Samples.q 80)
    as (latest & Hl & Hc).
  { eexists. split; [vm_compute; reflexivity|reflexivity]. }
  assert (exists info,
             validate_signal (generate_enhanced_signals Samples.crash) "BBCA.JK"
             = Some info) as (info & Hv).
  { eexists. vm_compute. reflexivity. }
  destruct (validator_levels_enclose_price _ _ info latest Hv Hl)
    as (sl & cp & tp & T).
  - rewrite Hc. vm_compute. discriminate.
  - exists info, sl, cp, tp. split; [exact Hv|exact T].
Defined.

(** ** The whole analysis of one stock *)

Lemma bot_col_as_map (f : Bar -> Qc) (data : list Bar) :
  col f data = map Fin (map f data).
Proof. unfold col. now rewrite map_map. Qed.

Lemma fsum_Fin (l : list Qc) (a : Qc) :
  exists s, fold_left add (map Fin l) (Fin a) = Fin s.
Proof.
  revert a. induction l as [|x l IH]; intros a; cbn [map fold_left].
  - now exists a.
  - apply IH.
Qed.

Lemma win_mean_Fin (l : list Qc) :
  l <> [] -> exists m, win_mean (map Fin l) = Fin m.
Proof.
  intros H. unfold win_mean. rewrite has_nan_Fin.
  destruct (fsum_Fin l (Q2Qc (inject_Z 0))) as (s & E).
  unfold fsum, zero, ofZ. rewrite E, length_map.
  rewrite div_Fin_pos; [now eexists|].
  apply Qc_of_Z_pos. destruct l; [congruence|cbn [length]; lia].
Qed.

(** Once its window is full, the rolling mean of a finite column is a
    number. *)
Lemma rolling_mean_defined (w i : nat) (l : list Qc) :
  (1 <= w)%nat -> (w <= i + 1)%nat -> (i < length l)%nat ->
  exists m, at_ (rolling_mean w (map Fin l)) i = Fin m.
Proof.
  intros Hw Hi Hl. unfold rolling_mean.
  rewrite rolling_at by now rewrite length_map.
  destruct (Nat.ltb_spec (i + 1) w) as [H|_]; [lia|].
  rewrite window_map_Fin. apply win_mean_Fin.
  intros E. apply (f_equal (@length Qc)) in E.
  rewrite length_firstn, length_skipn in E. cbn in E. lia.
Qed.

Lemma generate_enhanced_signals_length (data : list Bar) :
  length (generate_enhanced_signals data) = length data.
Proof.
  unfold generate_enhanced_signals. cbv zeta.
  rewrite length_map, length_combine, length_seq. apply Nat.min_id.
Qed.

(** The latest row of the frame of at least 50 bars: both moving
    averages are defined. *)
Lemma latest_row_defined (data : list Bar) :
  (50 <= length data)%nat ->
  exists latest b,
    iloc_neg 1 (generate_enhanced_signals data) = Some latest /\
    iloc_neg 1 data = Some b /\ bar latest = b /\
    sma_valid latest = true /\
    RSI latest
    = at_ (calculate_rsi (map Fin (map Close data)) RSI_PERIOD) (length data - 1).
Proof.
  intros H.
  destruct (iloc_neg_some 1 (generate_enhanced_signals data)) as (latest & E);
    [lia|rewrite generate_enhanced_signals_length; lia|].
  exists latest, (bar latest).
  assert (nth_error (generate_enhanced_signals data) (length data - 1)
          = Some latest) as N.
  { unfold iloc_neg in E. cbn [Nat.eqb] in E.
    rewrite generate_enhanced_signals_length in E.
    now destruct (Nat.ltb_spec (length data) 1) as [H'|_]; [lia|]. }
  destruct (row_cells data _ latest N) as (_ & _ & _ & _ & R & S1 & S2 & B).
  split; [exact E|]. split.
  { unfold iloc_neg. cbn [Nat.eqb].
    now destruct (Nat.ltb_spec (length data) 1) as [H'|_]; [lia|]. }
  split; [reflexivity|]. split.
  - unfold sma_valid. rewrite S1, S2.
    cbn [calculate_technical_indicators c_SMA_short c_SMA_long].
    rewrite !bot_col_as_map.
    destruct (rolling_mean_defined SMA_SHORT_PERIOD (length data - 1)
                (map Close data)) as (m1 & ->);
      [unfold SMA_SHORT_PERIOD; lia|unfold SMA_SHORT_PERIOD; lia
       |rewrite length_map; lia|].
    destruct (rolling_mean_defined SMA_LONG_PERIOD (length data - 1)
                (map Close data)) as (m2 & ->);
      [unfold SMA_LONG_PERIOD; lia|unfold SMA_LONG_PERIOD; lia
       |rewrite length_map; lia|].
    reflexivity.
  - rewrite R. cbn [calculate_technical_indicators c_RSI].
    now rewrite bot_col_as_map.
Qed.

(** X12. A history of fewer than 50 days is not analysed.  With 50 days
    or more a signal is always returned, for the requested symbol and the
    latest day; both moving averages are then defined, so the signal is
    valid exactly when the latest volume reaches MIN_VOLUME_THRESHOLD, and
    its strength is WEAK exactly when it is not valid and not a
    STRONG_SELL. *)
Theorem analyze_stock_outcome (data : list Bar) (sym : string) :
  ((length data < 50)%nat -> analyze_stock data sym = None) /\
  ((50 <= length data)%nat ->
     exists info b,
       analyze_stock data sym = Some info /\ iloc_neg 1 data = Some b /\
       symbol info = sym /\ date info = Date b /\
       valid info = geb (Fin (Volume b)) MIN_VOLUME_THRESHOLD /\
       (strength info = WEAK <->
          valid info = false /\ signal info <> STRONG_SELL)).
Proof.
  unfold analyze_stock.
  change (Nat.max SMA_LONG_PERIOD RSI_PERIOD) with 50%nat.
  split; intros H.
  - now destruct (Nat.ltb_spec (length data) 50) as [_|H']; [|lia].
  - destruct (Nat.ltb_spec (length data) 50) as [H'|_]; [lia|].
    destruct (latest_row_defined data H) as (latest & b & E & Eb & B & V & _).
    unfold validate_signal. rewrite E.
    eexists. exists b. split; [reflexivity|]. split; [exact Eb|].
    cbn [symbol date valid strength signal]. rewrite B.
    split; [reflexivity|]. split; [reflexivity|].
    rewrite V, andb_true_r. unfold volume_valid. rewrite B.
    split; [reflexivity|].
    unfold strength_of.
    destruct (Signal latest), (geb (Fin (Volume b)) MIN_VOLUME_THRESHOLD),
      (price_change_significant _); cbn; split;
      try (intros [? ?]); try intros ?; try congruence; try (split; congruence).
Qed.

(** X13. An empty frame cannot be validated.  On a frame of one row the
    previous close is the latest close: the reported price change is 0
    (NaN when the close is 0) and the strength is never STRONG. *)
Theorem validate_short_frames (row : Row) (sym : string) :
  validate_signal [] sym = None /\
  exists info,
    validate_signal [row] sym = Some info /\
    previous_close info = current_price info /\
    (price_change info = Fin 0%Qc \/ price_change info = NaN) /\
    strength info <> STRONG.
Proof.
  split; [reflexivity|].
  unfold validate_signal. cbn [iloc_neg length Nat.eqb Nat.ltb Nat.leb Nat.sub nth_error].
  eexists. split; [reflexivity|].
  cbn [previous_close current_price price_change strength].
  unfold previous_row. cbn [length Nat.ltb Nat.leb].
  split; [reflexivity|].
  assert (price_change_of row row = Fin 0%Qc \/ price_change_of row row = NaN)
    as P.
  { unfold price_change_of, cl. set (c := Close (bar row)).
    rewrite AnalyzerFacts.Qc_minus_diag_fnum. unfold div.
    destruct (sgn c) eqn:S.
    - right. reflexivity.
    - left. unfold ofZ. cbn [mul round].
      rewrite AnalyzerFacts.Qc_zero_div.
      replace (0 * Q2Qc (inject_Z 100))%Qc with 0%Qc
        by (apply Qc_is_canon; reflexivity).
      f_equal. apply AnalyzerFacts.round_q_zero.
    - left. unfold ofZ. cbn [mul round].
      rewrite AnalyzerFacts.Qc_zero_div.
      replace (0 * Q2Qc (inject_Z 100))%Qc with 0%Qc
        by (apply Qc_is_canon; reflexivity).
      f_equal. apply AnalyzerFacts.round_q_zero. }
  split; [exact P|].
  unfold strength_of.
  assert (price_change_significant (price_change_of row row) = false) as ->.
  { destruct P as [-> | ->]; reflexivity. }
  destruct (Direction_eqb _ _); [discriminate|].
  rewrite andb_false_r. destruct (_ && _); discriminate.
Qed.

Lemma round_q_100 : round_q 2 (Q2Qc (inject_Z 100)) = Q2Qc (inject_Z 100).
Proof. apply Qc_is_canon. vm_compute. reflexivity. Qed.

(** X14. The RSI reported for an analysed stock is always a number
    between 0 and 100 (50 stands for an undefined oscillator). *)
Theorem reported_rsi_in_range (data : list Bar) (sym : string) (info : SignalInfo) :
  analyze_stock data sym = Some info ->
  in_0_100 (rsi info) = true.
Proof.
  unfold analyze_stock.
  change (Nat.max SMA_LONG_PERIOD RSI_PERIOD) with 50%nat.
  destruct (Nat.ltb_spec (length data) 50) as [H'|H]; [discriminate|].
  destruct (latest_row_defined data H) as (latest & b & E & _ & _ & _ & R).
  unfold validate_signal. rewrite E. intros Hv. injection Hv as <-.
  cbn [rsi]. rewrite R.
  destruct (rsi_cell_range (map Close data) RSI_PERIOD (length data - 1))
    as [-> | G]; [reflexivity|].
  destruct (at_ _ (length data - 1)) as [r| | |]; try discriminate.
  cbn [isna negb round]. unfold in_0_100 in *.
  apply andb_prop in G as [G0 G1].
  apply (proj1 (leb_Fin _ _)) in G0. apply (proj1 (leb_Fin _ _)) in G1.
  apply andb_true_intro. split; apply leb_Fin.
  - apply round_q_nonneg. exact G0.
  - rewrite <- round_q_100. now apply round_q_mono.
Qed.

Lemma reported_rsi_in_range_witness :
  exists info,
    analyze_stock MoreSamples.pullback "BBCA.JK" = Some info /\
    in_0_100 (rsi info) = true.
Proof.
  assert (exists info, analyze_stock MoreSamples.pullback "BBCA.JK" = Some info)
    as (info & H).
  { eexists. vm_compute. reflexivity. }
  exists info. split; [exact H|].
  exact (reported_rsi_in_range MoreSamples.pullback "BBCA.JK" info H).
Defined.

End BotExtra.

(* ================================================================== *)
(** * The bot object: downloads, confirmation, sending, watchlist *)

Module StockBotExtra.

Import Config BotSettings TradingBot BotViews IndonesianStockBot StockBotViews.
Import NumFacts PandasFacts BotFacts.

(** ** Downloading *)

Lemma try_periods_log (history : string -> Download) (periods : list string) :
  exists n, snd (try_periods history periods) = firstn n periods.
Proof.
  induction periods as [|p rest (n & IH)]; cbn [try_periods].
  - now exists 0%nat.
  - destruct (history p) as [|data].
    + destruct (try_periods history rest) as [r log]. cbn [snd] in *.
      exists (S n). cbn [firstn]. now rewrite IH.
    + destruct (enough_rows data).
      * now exists 1%nat.
      * destruct (try_periods history rest) as [r log]. cbn [snd] in *.
        exists (S n). cbn [firstn]. now rewrite IH.
Qed.

Lemma try_periods_some (history : string -> Download) (periods : list string)
      (data : list Bar) :
  fst (try_periods history periods) = Some data ->
  (50 <= length data)%nat /\
  exists period,
    history period = Downloaded data /\
    In period (snd (try_periods history periods)).
Proof.
  induction periods as [|p rest IH]; cbn [try_periods]; [discriminate|].
  destruct (history p) as [|d] eqn:Hp.
  - destruct (try_periods history rest) as [r log]. cbn [fst snd] in *.
    intros E. destruct (IH E) as (L & q & Hq & Hin).
    split; [exact L|]. exists q. split; [exact Hq|now right].
  - destruct (enough_rows d) eqn:En.
    + cbn [fst snd]. intros E. injection E as <-. split.
      * unfold enough_rows in En. apply andb_prop in En as [_ En].
        apply Nat.leb_le in En. exact En.
      * exists p. split; [exact Hp|now left].
    + destruct (try_periods history rest) as [r log]. cbn [fst snd] in *.
      intros E. destruct (IH E) as (L & q & Hq & Hin).
      split; [exact L|]. exists q. split; [exact Hq|now right].
Qed.

Lemma attempts_spec (yf : nat -> Ticker) (remaining attempt : nat) :
  let r := attempts yf remaining attempt in
  (exists a n,
      snd r = map (pair a) (firstn n periods_to_try)) /\
  forall data,
    fst r = Some data ->
    (50 <= length data)%nat /\
    exists a history period,
      (attempt <= a < attempt + remaining)%nat /\
      yf a = TickerReady history /\
      history period = Downloaded data /\
      In (a, period) (snd r) /\
      forall a', (attempt <= a' < a)%nat ->
                 exists message, yf a' = TickerError message /\
                                 retry_after message a' = true.
Proof.
  revert attempt. induction remaining as [|k IH]; intros attempt; cbn zeta.
  - cbn [attempts fst snd]. split; [now exists 0%nat, 0%nat|discriminate].
  - cbn [attempts]. destruct (yf attempt) as [message|history] eqn:Hy.
    + destruct (retry_after message attempt) eqn:Hr.
      * specialize (IH (S attempt)). cbn zeta in IH. destruct IH as (IH1 & IH2).
        split; [exact IH1|]. intros data E.
        destruct (IH2 data E) as (L & a & h & p & Ha & Hy' & Hp & Hin & Hbefore).
        split; [exact L|]. exists a, h, p.
        repeat split; try assumption; try lia.
        intros a' Ha'. destruct (Nat.eq_dec a' attempt) as [->|Hne].
        -- now exists message.
        -- apply Hbefore. lia.
      * cbn [fst snd]. split; [now exists 0%nat, 0%nat|discriminate].
    + destruct (try_periods_log history periods_to_try) as (n & Hn).
      pose proof (try_periods_some history periods_to_try) as Hs.
      destruct (try_periods history periods_to_try) as [r log].
      cbn [fst snd] in *. split.
      * exists attempt, n. now rewrite Hn.
      * intros data E. destruct (Hs data E) as (L & p & Hp & Hin).
        split; [exact L|]. exists attempt, history, p.
        repeat split; try assumption; try lia.
        now apply in_map.
Qed.

(** X15. A download is never repeated.  Whatever Yahoo Finance answers,
    [fetch_stock_data] requests at most the four periods, in their order
    and all in one attempt: new attempts are made only while creating
    the ticker raises.  A returned frame has at least 50 rows and is the
    answer to one of these requests, after attempts that all raised. *)
Theorem fetch_never_repeats_a_download (yf : nat -> Ticker) :
  (exists attempt n,
      snd (fetch_stock_data yf)
      = map (pair attempt) (firstn n periods_to_try)) /\
  forall data,
    fst (fetch_stock_data yf) = Some data ->
    (50 <= length data)%nat /\
    exists attempt history period,
      (attempt < 3)%nat /\
      yf attempt = TickerReady history /\
      history period = Downloaded data /\
      In (attempt, period) (snd (fetch_stock_data yf)) /\
      forall earlier, (earlier < attempt)%nat ->
                      exists message, yf earlier = TickerError message.
Proof.
  unfold fetch_stock_data.
  destruct (attempts_spec yf max_retries 0) as (H1 & H2). split; [exact H1|].
  intros data E.
  destruct (H2 data E) as (L & a & h & p & Ha & Hy & Hp & Hin & Hbefore).
  split; [exact L|]. exists a, h, p. unfold max_retries in Ha.
  repeat split; try assumption; try lia.
  intros e He. destruct (Hbefore e ltac:(lia)) as (m & Hm & _). now exists m.
Qed.

(** ** The confirmation *)

Lemma request_none (api : nat -> ApiReply) :
  request api CHATGPT_MAX_RETRIES 0 = None <->
  api 1%nat = MissingFields /\ (api 0%nat = MissingFields \/ api 0%nat = ApiError).
Proof.
  unfold CHATGPT_MAX_RETRIES. cbn [request Nat.ltb Nat.leb Nat.sub].
  destruct (api 0%nat), (api 1%nat);
    (split;
     [ intros H; first [discriminate H | split; [reflexivity|auto]]
     | intros [H1 [H0|H0]]; try discriminate H1; try discriminate H0;
       reflexivity ]).
Qed.

Lemma confirmation_none (client : bool) (api : nat -> ApiReply) :
  get_chatgpt_confirmation client api = None <->
  client = true /\
  api 1%nat = MissingFields /\ (api 0%nat = MissingFields \/ api 0%nat = ApiError).
Proof.
  unfold get_chatgpt_confirmation, ENABLE_CHATGPT_CONFIRMATION.
  destruct client; cbn [negb orb].
  - rewrite request_none. tauto.
  - split; [discriminate|intros [? _]; discriminate].
Qed.

(** Every signal of an analysed history is one of the four the bot
    sends. *)
Lemma analysed_signal_listed (data : list Bar) (sym : string) (si : SignalInfo) :
  TradingBot.analyze_stock data sym = Some si ->
  signal_listed (signal si) = true.
Proof.
  unfold TradingBot.analyze_stock.
  destruct (_ <? _)%nat; [discriminate|].
  unfold validate_signal.
  destruct (iloc_neg 1 (generate_enhanced_signals data)) as [latest|] eqn:E;
    [|discriminate].
  intros H. injection H as <-. cbn [signal].
  unfold iloc_neg in E. cbn [Nat.eqb] in E.
  destruct (_ <? _)%nat; [discriminate|].
  destruct (BotExtra.row_cells data _ latest E) as (Hi & -> & _).
  rewrite (BotExtra.signal_at data _ Hi).
  repeat match goal with
         | |- context [if ?b then _ else _] => destruct b
         end; reflexivity.
Qed.

(** X16. Analysing a stock raises exactly when its signal is valid, the
    bot has a ChatGPT client, and the second reply is JSON without a
    required field after a first reply that was such JSON too or an
    error: the confirmation is then missing.  Nothing is sent or stored
    in that case, and the watchlist is not updated. *)
Theorem incomplete_reply_raises (w : World) (sym : string) (bot : Bot) :
  (fst (analyze_stock w sym bot) = Raised <->
   (exists data signal_info,
       fst (fetch_stock_data (yf w)) = Some data /\
       TradingBot.analyze_stock data sym = Some signal_info /\
       valid signal_info = true) /\
   openai_client bot = true /\
   api w 1%nat = MissingFields /\
   (api w 0%nat = MissingFields \/ api w 0%nat = ApiError)) /\
  (fst (analyze_stock w sym bot) = Raised ->
   snd (analyze_stock w sym bot) = bot).
Proof.
  unfold analyze_stock.
  destruct (fst (fetch_stock_data (yf w))) as [data|].
  2:{ cbn [fst snd]. split; [|discriminate].
      split; [discriminate|]. intros ((d & s & H & _) & _). discriminate. }
  destruct (TradingBot.analyze_stock data sym) as [si|] eqn:A.
  2:{ cbn [fst snd]. split; [|discriminate].
      split; [discriminate|].
      intros ((d & s & H & H' & _) & _). injection H as <-. congruence. }
  rewrite (analysed_signal_listed data sym si A). cbn [andb].
  destruct (valid si) eqn:V.
  2:{ cbn [fst snd]. split; [|discriminate].
      split; [discriminate|].
      intros ((d & s & H & H' & V') & _). injection H as <-.
      rewrite A in H'. injection H' as <-. congruence. }
  destruct (get_chatgpt_confirmation (openai_client bot) (api w)) as [c|] eqn:G.
  - destruct (should_send _ _ _ _) as [flag c']. cbn [fst snd].
    split; [|discriminate]. split; [discriminate|].
    intros (_ & Hc & H1 & H0).
    assert (get_chatgpt_confirmation (openai_client bot) (api w) = None) as N
      by (apply confirmation_none; auto).
    congruence.
  - cbn [fst snd]. split; [|reflexivity]. split; [|reflexivity].
    intros _. apply confirmation_none in G as (Hc & H1 & H0).
    split; [|auto]. now exists data, si.
Qed.

(** ** The send decision *)

Lemma boost_disabled : boost disabled_confirmation = disabled_confirmation.
Proof.
  unfold boost, disabled_confirmation. cbn [confidence recommendation].
  reflexivity.
Qed.

Lemma ltb_zero_nonneg (x : fnum) : leb zero x = true -> ltb x (ofQ 0.0) = false.
Proof.
  destruct x as [a| | |]; try reflexivity; try discriminate.
  unfold zero, ofZ, ofQ. intros H. apply leb_Fin in H. apply ltb_false_Fin.
  replace (Q2Qc 0.0) with (Q2Qc (inject_Z 0)) by (apply Qc_is_canon; reflexivity).
  exact H.
Qed.

(** X17. A HOLD signal is judged against the threshold 0 and its
    confidence is never raised: with a client it is sent exactly when the
    recommendation is not REJECT, provided the confidence is not
    negative; without a client it is always sent. *)
Theorem hold_sent_unless_rejected (client : bool) (sym : string) (c : Confirmation) :
  leb zero (confidence c) = true ->
  should_send client sym HOLD c
  = (negb (client && String.eqb (recommendation c) "REJECT"), c).
Proof.
  intros H. unfold should_send, route, confirm.
  cbn [Direction_eqb ENABLE_HOLD_SIGNALS negb
       SEND_HOLD_SIGNALS_REGARDLESS_OF_CONFIDENCE ENABLE_CHATGPT_CONFIRMATION andb].
  rewrite (ltb_zero_nonneg _ H).
  destruct client; [|reflexivity].
  now destruct (String.eqb _ _).
Qed.

Lemma hold_sent_unless_rejected_witness :
  should_send true "BBCA.JK" HOLD (mkConfirmation (ofQ 0.1) "CONFIRM")
  = (true, mkConfirmation (ofQ 0.1) "CONFIRM").
Proof.
  exact (hold_sent_unless_rejected true "BBCA.JK"
           (mkConfirmation (ofQ 0.1) "CONFIRM") eq_refl).
Defined.

Lemma watchlist_boost_passes (x : fnum) :
  ltb x CHATGPT_CONFIDENCE_THRESHOLD = false ->
  ltb (py_min (ofQ 1.0) (x * WATCHLIST_PRIORITY_MULTIPLIER)%F)
      WATCHLIST_ALERT_THRESHOLD = false.
Proof.
  destruct x as [a| | |]; try reflexivity; try discriminate.
  unfold CHATGPT_CONFIDENCE_THRESHOLD, WATCHLIST_PRIORITY_MULTIPLIER,
    WATCHLIST_ALERT_THRESHOLD, ofQ.
  intros H. apply ltb_false_Fin in H. cbn [mul]. unfold py_min.
  destruct (ltb (Fin (a * Q2Qc 1.2)) (Fin (Q2Qc 1.0))) eqn:E; [|reflexivity].
  apply ltb_false_Fin. revert H. to_Q. intros H. lra.
Qed.

(** X18. The watchlist is never stricter: with the same signal and the
    same confirmation, whatever is sent for a stock outside the watchlist
    is sent for a stock on it. *)
Theorem watchlist_never_stricter (client : bool) (sig : Direction)
        (c : Confirmation) (other listed : string) :
  is_watchlist_stock other = false ->
  is_watchlist_stock listed = true ->
  fst (should_send client other sig c) = true ->
  fst (should_send client listed sig c) = true.
Proof.
  intros Ho Hl. unfold should_send, route. rewrite Ho, Hl.
  destruct (Direction_eqb sig HOLD); [auto|].
  unfold confirm. cbn [fst boost recommendation confidence].
  destruct (ENABLE_CHATGPT_CONFIRMATION && client); [|auto].
  destruct (String.eqb _ _); [auto|].
  destruct (ltb (confidence c) CHATGPT_CONFIDENCE_THRESHOLD) eqn:E;
    [discriminate|].
  intros _. now rewrite (watchlist_boost_passes _ E).
Qed.

Lemma watchlist_never_stricter_witness :
  fst (should_send true "BBCA.JK" SELL (mkConfirmation (ofQ 0.75) "CONFIRM"))
  = true.
Proof.
  exact (watchlist_never_stricter true SELL (mkConfirmation (ofQ 0.75) "CONFIRM")
           "ASII.JK" "BBCA.JK" eq_refl eq_refl eq_refl).
Defined.

Lemma request_unparsed (api : nat -> ApiReply) (c : Confirmation) :
  (forall n c', api n <> Parsed c') ->
  request api CHATGPT_MAX_RETRIES 0 = Some c ->
  confidence c = ofQ 0.5 /\
  String.eqb (recommendation c) "REJECT" = false.
Proof.
  intros N. unfold CHATGPT_MAX_RETRIES. cbn [request Nat.ltb Nat.leb Nat.sub].
  pose proof (N 0%nat) as N0. pose proof (N 1%nat) as N1.
  destruct (api 0%nat) as [| | |c0]; [| | |now destruct (N0 c0)];
    (destruct (api 1%nat) as [| | |c1]; [| | |now destruct (N1 c1)]);
    intros H; try discriminate; injection H as <-; now split.
Qed.

(** X19. When no reply of ChatGPT can be used (each attempt fails or
    gives text that is not JSON) the bot falls back on a confidence of
    0.5: a BUY, SELL or STRONG_SELL signal is then sent only for a
    watchlist stock, and filtered for every other stock. *)
Theorem unusable_replies_filter (api : nat -> ApiReply) (c : Confirmation)
        (sym : string) (sig : Direction) :
  (forall n c', api n <> Parsed c') ->
  get_chatgpt_confirmation true api = Some c ->
  sig <> HOLD ->
  fst (should_send true sym sig c) = is_watchlist_stock sym.
Proof.
  intros N G H1.
  unfold get_chatgpt_confirmation, ENABLE_CHATGPT_CONFIRMATION in G.
  cbn [negb orb] in G.
  destruct (request_unparsed api c N G) as (Hc & Hr).
  unfold should_send, route.
  assert (Direction_eqb sig HOLD = false) as ->
    by (destruct sig; try reflexivity; now destruct H1).
  destruct (is_watchlist_stock sym); unfold confirm;
    cbn [fst ENABLE_CHATGPT_CONFIRMATION andb boost recommendation confidence];
    rewrite Hr, Hc; reflexivity.
Qed.

Lemma unusable_replies_filter_witness :
  fst (should_send true "ASII.JK" BUY error_fallback) = false.
Proof.
  exact (unusable_replies_filter (fun _ => ApiError) error_fallback "ASII.JK" BUY
           ltac:(discriminate) eq_refl ltac:(discriminate)).
Defined.

(** ** The watchlist store *)

Section DictFacts.

Variable V : Type.

Lemma dict_get_set_same (k : string) (v : V) (d : list (string * V)) :
  dict_get k (dict_set k v d) = Some v.
Proof.
  induction d as [|[k' v'] t IH]; cbn [dict_set dict_get].
  - now rewrite String.eqb_refl.
  - destruct (String.eqb k k') eqn:E; cbn [dict_get].
    + now rewrite String.eqb_refl.
    + now rewrite E.
Qed.

Lemma dict_get_set_other (k k' : string) (v : V) (d : list (string * V)) :
  k' <> k -> dict_get k' (dict_set k v d) = dict_get k' d.
Proof.
  intros N. apply String.eqb_neq in N.
  induction d as [|[k0 v0] t IH]; cbn [dict_set dict_get].
  - now rewrite N.
  - destruct (String.eqb k k0) eqn:E; cbn [dict_get].
    + apply String.eqb_eq in E. subst k0. now rewrite N.
    + now rewrite IH.
Qed.

Lemma keys_dict_set (k : string) (v : V) (d : list (string * V)) :
  forall x, In x (keys (dict_set k v d)) -> x = k \/ In x (keys d).
Proof.
  unfold keys. induction d as [|[k0 v0] t IH]; cbn [dict_set map fst In].
  - intros x [<-|[]]. now left.
  - destruct (String.eqb k k0) eqn:E; cbn [map fst In]; intros x [<-|H]; auto.
    destruct (IH x H); auto.
Qed.

Lemma NoDup_dict_set (k : string) (v : V) (d : list (string * V)) :
  NoDup (keys d) -> NoDup (keys (dict_set k v d)).
Proof.
  unfold keys. induction d as [|[k0 v0] t IH]; cbn [dict_set map fst]; intros H.
  - constructor; [intros []|constructor].
  - inversion H as [|? ? Hn Ht]; subst.
    destruct (String.eqb k k0) eqn:E; cbn [map fst].
    + apply String.eqb_eq in E. subst k0. now constructor.
    + constructor; [|now apply IH].
      intros Hin. apply (keys_dict_set k v t) in Hin as [->|Hin].
      * now rewrite String.eqb_refl in E.
      * now apply Hn.
Qed.

Lemma dict_get_in_keys (k : string) (d : list (string * V)) :
  In k (keys d) -> exists v, dict_get k d = Some v.
Proof.
  unfold keys. induction d as [|[k0 v0] t IH]; cbn [map fst In dict_get];
    [intros []|].
  intros [->|H].
  - rewrite String.eqb_refl. now eexists.
  - destruct (String.eqb k k0); [now eexists|now apply IH].
Qed.

End DictFacts.

Lemma last_items_length (A : Type) (n : nat) (l : list A) :
  length (last_items n l) = Nat.min n (length l).
Proof. unfold last_items. rewrite length_skipn. lia. Qed.

Lemma existsb_eqb_In (sym : string) (l : list string) :
  existsb (String.eqb sym) l = true <-> In sym l.
Proof.
  rewrite existsb_exists. split.
  - intros (x & Hx & E). apply String.eqb_eq in E. now subst.
  - intros H. exists sym. split; [exact H|apply String.eqb_refl].
Qed.

Lemma update_keeps_telegram (t : Z) (sym : string) (si : SignalInfo) (bot : Bot) :
  telegram (update_watchlist_data t sym si bot) = telegram bot /\
  signals_history (update_watchlist_data t sym si bot) = signals_history bot /\
  openai_client (update_watchlist_data t sym si bot) = openai_client bot.
Proof.
  unfold update_watchlist_data.
  now destruct (negb (is_watchlist_stock sym)).
Qed.

Lemma update_other_keys (t : Z) (sym k : string) (si : SignalInfo) (bot : Bot) :
  k <> sym ->
  dict_get k (watchlist_data (update_watchlist_data t sym si bot))
  = dict_get k (watchlist_data bot).
Proof.
  intros N. unfold update_watchlist_data.
  destruct (negb (is_watchlist_stock sym)); [reflexivity|].
  cbn [watchlist_data]. now apply dict_get_set_other.
Qed.

Lemma update_store_ok (t : Z) (sym : string) (si : SignalInfo) (bot : Bot) :
  store_ok bot -> store_ok (update_watchlist_data t sym si bot).
Proof.
  intros (Hn & Hb). unfold update_watchlist_data.
  destruct (is_watchlist_stock sym) eqn:W; cbn [negb]; [|now split].
  set (e0 := match dict_get sym (watchlist_data bot) with
             | Some e => e | None => _ end).
  split; cbn [watchlist_data].
  - now apply NoDup_dict_set.
  - intros k e. destruct (String.eqb k sym) eqn:E.
    + apply String.eqb_eq in E. subst k. rewrite dict_get_set_same.
      intros H. injection H as <-. split; [exact W|].
      unfold entry_bounded.
      cbn [price_alerts volume_alerts signal_history].
      apply andb_true_intro. split; [repeat (apply andb_true_intro; split)|].
      * apply Nat.leb_le. rewrite last_items_length. lia.
      * apply Nat.leb_le. rewrite last_items_length. lia.
      * apply Nat.leb_le. rewrite last_items_length. lia.
      * destruct (last_items 10 _) as [|x l] eqn:L; [|reflexivity].
        apply (f_equal (@length HistoryItem)) in L.
        rewrite last_items_length, length_app in L. cbn [length] in L. lia.
    + apply String.eqb_neq in E. rewrite dict_get_set_other by exact E.
      apply Hb.
Qed.

(** What one analysis leaves of the bot object. *)
Lemma analyze_stock_frame (w : World) (sym : string) (bot : Bot) :
  let bot' := snd (analyze_stock w sym bot) in
  openai_client bot' = openai_client bot /\
  (store_ok bot -> store_ok bot') /\
  forall k, k <> sym ->
            dict_get k (watchlist_data bot') = dict_get k (watchlist_data bot).
Proof.
  cbv zeta. unfold analyze_stock.
  destruct (fst (fetch_stock_data (yf w))) as [data|]; [|now cbn].
  destruct (TradingBot.analyze_stock data sym) as [si|]; [|now cbn].
  destruct (signal_listed (signal si) && valid si); [|now cbn].
  destruct (get_chatgpt_confirmation _ _) as [c0|]; [|now cbn].
  destruct (should_send _ _ _ _) as [flag c]. cbn [snd].
  set (bot1 := if flag then _ else bot).
  assert (openai_client bot1 = openai_client bot /\
          watchlist_data bot1 = watchlist_data bot) as (H1 & H2)
    by (subst bot1; now destruct flag).
  destruct (update_keeps_telegram (now w) sym si bot1) as (_ & _ & Hc).
  split; [congruence|]. split.
  - intros Hs. apply update_store_ok. unfold store_ok in *. now rewrite H2.
  - intros k Hk. rewrite update_other_keys by exact Hk. now rewrite H2.
Qed.

Lemma analyze_each_frame (world : string -> World) (symbols : list string)
      (bot : Bot) (c : Counters) :
  let bot' := fst (analyze_each world symbols bot c) in
  openai_client bot' = openai_client bot /\
  (store_ok bot -> store_ok bot') /\
  forall k, ~ In k symbols ->
            dict_get k (watchlist_data bot') = dict_get k (watchlist_data bot).
Proof.
  cbv zeta. revert bot c.
  induction symbols as [|s rest IH]; intros bot c; cbn [analyze_each].
  - cbn [fst]. split; [reflexivity|]. split; auto.
  - pose proof (analyze_stock_frame (world s) s bot) as F. cbv zeta in F.
    destruct (analyze_stock (world s) s bot) as [o bot1]. cbn [snd] in F.
    destruct F as (F1 & F2 & F3).
    destruct (IH bot1 (tally o c)) as (I1 & I2 & I3).
    split; [congruence|]. split; [auto|].
    intros k Hk. rewrite I3 by (intros H; apply Hk; now right).
    apply F3. intros ->. apply Hk. now left.
Qed.

Lemma send_watchlist_alerts_frame (bot : Bot) :
  watchlist_alerts (send_watchlist_alerts bot) = [] /\
  watchlist_data (send_watchlist_alerts bot) = watchlist_data bot /\
  openai_client (send_watchlist_alerts bot) = openai_client bot.
Proof.
  unfold send_watchlist_alerts, ENABLE_WATCHLIST. cbn [negb orb].
  destruct (watchlist_alerts bot) as [|a l] eqn:E; cbn [is_empty].
  - now rewrite E.
  - destruct a; cbn.
    + now repeat split.
    + destruct (is_empty (filter is_price_move l)); now repeat split.
Qed.

Lemma run_daily_frame (world : string -> World) (bot : Bot) :
  let bot' := fst (run_daily_analysis world bot) in
  openai_client bot' = openai_client bot /\
  (store_ok bot -> store_ok bot') /\
  watchlist_alerts bot' = [] /\
  forall k, ~ In k INDONESIAN_STOCKS ->
            dict_get k (watchlist_data bot') = dict_get k (watchlist_data bot).
Proof.
  cbv zeta. unfold run_daily_analysis.
  pose proof (analyze_each_frame world INDONESIAN_STOCKS
                (send_telegram_message StartMessage bot) no_counts) as F.
  cbv zeta in F.
  destruct (analyze_each world INDONESIAN_STOCKS _ no_counts) as [bot1 c].
  cbn [fst] in *. destruct F as (F1 & F2 & F3).
  destruct (send_watchlist_alerts_frame
              (send_telegram_message (SummaryMessage c) bot1)) as (A1 & A2 & A3).
  set (bot3 := send_watchlist_alerts _) in *.
  unfold generate_watchlist_summary.
  unfold ENABLE_WATCHLIST, ENABLE_WATCHLIST_DAILY_SUMMARY.
  cbn [andb negb orb].
  unfold store_ok in *.
  cbn [send_telegram_message openai_client watchlist_data watchlist_alerts]
    in F1, F2, F3, A2, A3 |- *.
  rewrite A1, A2, A3. split; [exact F1|]. split; [exact F2|].
  split; [reflexivity|exact F3].
Qed.

(** X20. The watchlist store stays small.  In every state the bot
    reaches by analysing stocks or running the daily analysis, the store
    has at most five entries, all of watchlist symbols, and each entry
    keeps at most ten price alerts, ten volume alerts and ten signals,
    the latest signal among them. *)
Theorem watchlist_store_bounded (client : bool) (bot : Bot) :
  reachable client bot ->
  (length (watchlist_data bot) <= 5)%nat /\
  forall sym e,
    dict_get sym (watchlist_data bot) = Some e ->
    In sym WATCHLIST_STOCKS /\ entry_bounded e = true.
Proof.
  intros R.
  assert (store_ok bot) as (Hn & Hb).
  { induction R as [|w sym bot R IH|world bot R IH].
    - split; [constructor|discriminate].
    - now apply (analyze_stock_frame w sym bot).
    - now apply (run_daily_frame world bot). }
  assert (forall sym e, dict_get sym (watchlist_data bot) = Some e ->
                        In sym WATCHLIST_STOCKS /\ entry_bounded e = true) as Hb'.
  { intros sym e H. destruct (Hb sym e H) as (W & B). split; [|exact B].
    unfold is_watchlist_stock, ENABLE_WATCHLIST in W. cbn [andb] in W.
    now apply existsb_eqb_In. }
  split; [|exact Hb'].
  change 5%nat with (length WATCHLIST_STOCKS).
  unfold keys in Hn. rewrite <- (length_map fst).
  apply NoDup_incl_length; [exact Hn|].
  intros k Hk. destruct (dict_get_in_keys _ k _ Hk) as (e & He).
  now apply (Hb' k e).
Qed.

Lemma watchlist_store_bounded_witness :
  let w := mkWorld (fun _ => TickerReady (fun _ => Downloaded MoreSamples.pullback))
                   (fun _ => ApiError) 0 in
  let bot := snd (analyze_stock w "BBCA.JK" (new_bot false)) in
  (length (watchlist_data bot) <= 5)%nat /\
  forall sym e,
    dict_get sym (watchlist_data bot) = Some e ->
    In sym WATCHLIST_STOCKS /\ entry_bounded e = true.
Proof.
  cbv zeta.
  exact (watchlist_store_bounded false _
           (@reach_analyze false
              (mkWorld (fun _ => TickerReady (fun _ => Downloaded MoreSamples.pullback))
                       (fun _ => ApiError) 0)
              "BBCA.JK" (new_bot false) (reach_new false))).
Defined.

(** ** Sending without a client *)

Lemma should_send_no_client (sym : string) (sig : Direction) :
  should_send false sym sig disabled_confirmation = (true, disabled_confirmation).
Proof.
  unfold should_send, route, confirm.
  cbn [ENABLE_HOLD_SIGNALS SEND_HOLD_SIGNALS_REGARDLESS_OF_CONFIDENCE negb
       ENABLE_CHATGPT_CONFIRMATION andb].
  destruct (Direction_eqb sig HOLD); [reflexivity|].
  destruct (is_watchlist_stock sym); [|reflexivity].
  now rewrite boost_disabled.
Qed.

(** X21. Without a ChatGPT client every valid signal is sent: the
    analysis sends exactly one message, the signal with the confirmation
    that says the confirmation is disabled (confidence 1.0), stores the
    pair in the history and returns the signal unfiltered.  A signal that
    is not valid changes nothing. *)
Theorem no_client_sends_valid_signals (w : World) (sym : string) (bot : Bot)
        (data : list Bar) (signal_info : SignalInfo) :
  openai_client bot = false ->
  fst (fetch_stock_data (yf w)) = Some data ->
  TradingBot.analyze_stock data sym = Some signal_info ->
  let (o, bot') := analyze_stock w sym bot in
  if valid signal_info then
    o = Returned (Some (mkAnalysis signal_info false (Some disabled_confirmation)))
    /\ telegram bot'
       = telegram bot ++ [SignalMessage signal_info disabled_confirmation]
    /\ signals_history bot'
       = signals_history bot ++ [(signal_info, disabled_confirmation)]
  else
    o = Returned (Some (mkAnalysis signal_info false None)) /\ bot' = bot.
Proof.
  intros C F A. unfold analyze_stock. rewrite F, A.
  rewrite (analysed_signal_listed data sym signal_info A). cbn [andb].
  destruct (valid signal_info); [|now split].
  rewrite C. unfold get_chatgpt_confirmation. cbn [negb orb].
  rewrite should_send_no_client.
  cbn [negb andb when ENABLE_CHATGPT_CONFIRMATION].
  rewrite app_nil_r.
  set (bot1 := mkBot _ _ _ _ _).
  destruct (update_keeps_telegram (now w) sym signal_info bot1) as (T & H & _).
  rewrite T, H. subst bot1. cbn [telegram signals_history]. now repeat split.
Qed.

Lemma no_client_sends_valid_signals_witness :
  let w := mkWorld (fun _ => TickerReady (fun _ => Downloaded MoreSamples.pullback))
                   (fun _ => ApiError) 0 in
  exists signal_info,
    TradingBot.analyze_stock MoreSamples.pullback "BBCA.JK" = Some signal_info /\
    valid signal_info = true /\
    telegram (snd (analyze_stock w "BBCA.JK" (new_bot false)))
    = [SignalMessage signal_info disabled_confirmation].
Proof.
  cbv zeta.
  assert (exists si,
             TradingBot.analyze_stock MoreSamples.pullback "BBCA.JK" = Some si /\
             valid si = true) as (si & A & V).
  { eexists. split; [vm_compute; reflexivity|reflexivity]. }
  exists si. split; [exact A|]. split; [exact V|].
  pose proof (no_client_sends_valid_signals
                (mkWorld (fun _ => TickerReady (fun _ => Downloaded MoreSamples.pullback))
                         (fun _ => ApiError) 0)
                "BBCA.JK" (new_bot false) MoreSamples.pullback si
                eq_refl eq_refl A) as H.
  destruct (analyze_stock _ _ _) as [o bot']. rewrite V in H.
  destruct H as (_ & T & _). exact T.
Defined.

(** ** First sight of a watchlist symbol *)

Lemma no_move_against_itself (x : fnum) :
  geb (abs ((x - x) / x * ofZ 100)%F) WATCHLIST_PRICE_ALERT_PERCENTAGE = false.
Proof.
  destruct x as [a| | |]; try reflexivity.
  rewrite AnalyzerFacts.Qc_minus_diag_fnum. unfold div.
  destruct (sgn a); try reflexivity;
    rewrite AnalyzerFacts.Qc_zero_div; reflexivity.
Qed.

(** X22. The first update of a watchlist symbol never raises a price
    alert: the price is compared with itself.  The new entry holds the
    current price, no price alert and the one signal. *)
Theorem first_sight_no_price_alert (t : Z) (sym : string) (signal_info : SignalInfo)
        (bot : Bot) :
  is_watchlist_stock sym = true ->
  dict_get sym (watchlist_data bot) = None ->
  let bot' := update_watchlist_data t sym signal_info bot in
  filter is_price_move (watchlist_alerts bot')
  = filter is_price_move (watchlist_alerts bot) /\
  exists e,
    dict_get sym (watchlist_data bot') = Some e /\
    last_price e = current_price signal_info /\
    price_alerts e = [] /\
    signal_history e
    = [mkHistoryItem (signal signal_info) (current_price signal_info) t].
Proof.
  intros W N. cbv zeta. unfold update_watchlist_data. rewrite W, N.
  cbn [negb last_price price_alerts volume_alerts signal_history
       watchlist_alerts watchlist_data].
  rewrite no_move_against_itself. cbn [when app]. split.
  - rewrite filter_app.
    destruct (ENABLE_WATCHLIST_VOLUME_ALERTS && _); cbn [when filter is_price_move];
      now rewrite ?app_nil_r.
  - eexists. rewrite dict_get_set_same. split; [reflexivity|].
    cbn [last_price price_alerts signal_history]. now repeat split.
Qed.

Lemma first_sight_no_price_alert_witness :
  exists signal_info,
    TradingBot.analyze_stock MoreSamples.pullback "TLKM.JK" = Some signal_info /\
    filter is_price_move
      (watchlist_alerts
         (update_watchlist_data 0 "TLKM.JK" signal_info (new_bot false)))
    = [].
Proof.
  assert (exists si,
             TradingBot.analyze_stock MoreSamples.pullback "TLKM.JK" = Some si)
    as (si & A).
  { eexists. vm_compute. reflexivity. }
  exists si. split; [exact A|].
  exact (proj1 (first_sight_no_price_alert 0 "TLKM.JK" si (new_bot false)
                  eq_refl eq_refl)).
Defined.

(** ** The counters of the daily run *)

Lemma signal_messages_send (m : Message) (bot : Bot) :
  signal_messages (send_telegram_message m bot)
  = (signal_messages bot + if is_signal_message m then 1 else 0)%nat.
Proof.
  unfold signal_messages, send_telegram_message. cbn [telegram].
  rewrite filter_app, length_app. cbn [filter].
  now destruct (is_signal_message m).
Qed.

Lemma signal_messages_update (t : Z) (sym : string) (si : SignalInfo) (bot : Bot) :
  signal_messages (update_watchlist_data t sym si bot) = signal_messages bot.
Proof.
  unfold signal_messages.
  now destruct (update_keeps_telegram t sym si bot) as (-> & _).
Qed.

Lemma signal_messages_alerts (bot : Bot) :
  signal_messages (send_watchlist_alerts bot) = signal_messages bot.
Proof.
  unfold send_watchlist_alerts.
  destruct (_ || _); [reflexivity|]. destruct (_ && _); [reflexivity|].
  unfold signal_messages. cbn [telegram].
  rewrite filter_app, length_app. cbn. lia.
Qed.

Lemma one_kind (d : Direction) :
  signal_listed d = true ->
  ((if Direction_eqb d BUY then 1 else 0)
   + (if Direction_eqb d SELL then 1 else 0)
   + (if Direction_eqb d STRONG_SELL then 1 else 0)
   + (if Direction_eqb d HOLD then 1 else 0) = 1)%nat.
Proof. destruct d; (discriminate || reflexivity). Qed.

Lemma analyze_stock_counts (w : World) (sym : string) (bot : Bot) (c : Counters) :
  let r := analyze_stock w sym bot in
  let c' := tally (fst r) c in
  (signals_sent c' + signal_messages bot
   = signals_sent c + signal_messages (snd r)
     + (if invalid_signal w sym then 1 else 0))%nat /\
  (by_kind c = signals_sent c -> by_kind c' = signals_sent c') /\
  (chatgpt_confirmed c = signals_sent c ->
   chatgpt_confirmed c' = signals_sent c') /\
  (signals_sent c' + chatgpt_filtered_count c'
   <= signals_sent c + chatgpt_filtered_count c + 1)%nat.
Proof.
  cbv zeta. unfold analyze_stock, invalid_signal.
  destruct (fst (fetch_stock_data (yf w))) as [data|];
    [|cbn [fst snd tally]; repeat split; auto; lia].
  destruct (TradingBot.analyze_stock data sym) as [si|] eqn:A;
    [|cbn [fst snd tally]; repeat split; auto; lia].
  pose proof (analysed_signal_listed data sym si A) as L.
  pose proof (one_kind (signal si) L) as K.
  rewrite L. cbn [andb]. destruct (valid si); cbn [negb].
  - destruct (get_chatgpt_confirmation _ _) as [c0|];
      [|cbn [fst snd tally]; repeat split; auto; lia].
    destruct (should_send _ _ _ _) as [flag conf]. cbn [fst snd].
    rewrite signal_messages_update.
    unfold tally. cbn [info chatgpt_filtered]. rewrite L.
    destruct flag; cbn [negb].
    + unfold signal_messages at 2. cbn [telegram].
      rewrite !filter_app, !length_app. unfold by_kind.
      cbn [signals_sent buy_signals sell_signals strong_sell_signals
           hold_signals chatgpt_filtered_count chatgpt_confirmed
           filter is_signal_message length].
      assert (length (filter is_signal_message
                        (when (ENABLE_CHATGPT_CONFIRMATION && openai_client bot)
                              (AiAnalysisMessage si conf))) = 0)%nat as ->
        by (destruct (_ && _); reflexivity).
      fold (signal_messages bot). repeat split; intros; lia.
    + unfold by_kind.
      cbn [signals_sent buy_signals sell_signals strong_sell_signals
           hold_signals chatgpt_filtered_count chatgpt_confirmed].
      repeat split; intros; lia.
  - cbn [fst snd]. unfold tally. cbn [info chatgpt_filtered]. rewrite L.
    unfold by_kind.
    cbn [signals_sent buy_signals sell_signals strong_sell_signals
         hold_signals chatgpt_filtered_count chatgpt_confirmed].
    repeat split; intros; lia.
Qed.

Lemma analyze_each_counts (world : string -> World) (symbols : list string)
      (bot : Bot) (c : Counters) :
  let r := analyze_each world symbols bot c in
  (signals_sent (snd r) + signal_messages bot
   = signals_sent c + signal_messages (fst r)
     + invalid_count world symbols)%nat /\
  (by_kind c = signals_sent c -> by_kind (snd r) = signals_sent (snd r)) /\
  (chatgpt_confirmed c = signals_sent c ->
   chatgpt_confirmed (snd r) = signals_sent (snd r)) /\
  (signals_sent (snd r) + chatgpt_filtered_count (snd r)
   <= signals_sent c + chatgpt_filtered_count c + length symbols)%nat.
Proof.
  cbv zeta. revert bot c.
  induction symbols as [|s rest IH]; intros bot c; cbn [analyze_each].
  - unfold invalid_count. cbn [fst snd filter length]. repeat split; auto; lia.
  - pose proof (analyze_stock_counts (world s) s bot c) as S. cbv zeta in S.
    destruct (analyze_stock (world s) s bot) as [o bot1]. cbn [fst snd] in S.
    destruct S as (S1 & S2 & S3 & S4).
    destruct (IH bot1 (tally o c)) as (I1 & I2 & I3 & I4).
    unfold invalid_count in *. cbn [filter length].
    destruct (invalid_signal (world s) s); cbn [length];
      repeat split; auto; lia.
Qed.

(** X23. The counters of the daily summary.  The signals reported as
    sent are the sum of the four counters by kind and equal the confirmed
    ones; sent and filtered together are at most the ten stocks.  But a
    stock whose signal is not valid is counted as sent although no
    message goes out for it: the number reported as sent is the number
    of signal messages of the run plus the number of stocks with a signal
    that is not valid. *)
Theorem daily_counters (world : string -> World) (bot : Bot) :
  let (bot', c) := run_daily_analysis world bot in
  In (SummaryMessage c) (telegram bot') /\
  by_kind c = signals_sent c /\
  chatgpt_confirmed c = signals_sent c /\
  (signals_sent c + chatgpt_filtered_count c <= 10)%nat /\
  (signals_sent c + signal_messages bot
   = signal_messages bot' + invalid_count world INDONESIAN_STOCKS)%nat.
Proof.
  unfold run_daily_analysis.
  pose proof (analyze_each_counts world INDONESIAN_STOCKS
                (send_telegram_message StartMessage bot) no_counts) as H.
  cbv zeta in H.
  destruct (analyze_each world INDONESIAN_STOCKS _ no_counts) as [bot1 c].
  cbn [fst snd] in H. destruct H as (H1 & H2 & H3 & H4).
  rewrite signal_messages_send in H1. cbn [is_signal_message] in H1.
  unfold generate_watchlist_summary.
  unfold ENABLE_WATCHLIST, ENABLE_WATCHLIST_DAILY_SUMMARY. cbn [andb negb orb].
  rewrite signal_messages_send, signal_messages_alerts, signal_messages_send.
  cbn [is_signal_message no_counts signals_sent chatgpt_filtered_count length
       INDONESIAN_STOCKS] in *.
  split.
  { cbn [send_telegram_message telegram]. apply in_or_app. left.
    unfold send_watchlist_alerts.
    destruct (_ || _); [cbn; apply in_or_app; right; now left|].
    destruct (_ && _); cbn [telegram send_telegram_message];
      [apply in_or_app; right; now left|].
    apply in_or_app. left. apply in_or_app. right. now left. }
  repeat split; auto; lia.
Qed.

Lemma daily_counters_witness :
  let world := fun _ : string =>
    mkWorld (fun _ => TickerReady (fun _ => Downloaded MoreSamples.thin))
            (fun _ => ApiError) 0 in
  let (bot', c) := run_daily_analysis world (new_bot true) in
  signals_sent c = 10%nat /\ signal_messages bot' = 0%nat.
Proof.
  cbv zeta.
  pose proof (daily_counters
                (fun _ : string =>
                   mkWorld (fun _ => TickerReady (fun _ => Downloaded MoreSamples.thin))
                           (fun _ => ApiError) 0)
                (new_bot true)) as H.
  destruct (run_daily_analysis _ _) as [bot' c].
  destruct H as (_ & _ & _ & H1 & H2).
  assert (invalid_count
            (fun _ : string =>
               mkWorld (fun _ => TickerReady (fun _ => Downloaded MoreSamples.thin))
                       (fun _ => ApiError) 0)
            INDONESIAN_STOCKS = 10%nat) as I by (vm_compute; reflexivity).
  rewrite I in H2. change (signal_messages (new_bot true)) with 0%nat in H2.
  split; lia.
Defined.

(** X24. After the daily run no alert is left pending, and the run has
    touched the watchlist entries of analysed symbols only: the entry of
    a symbol outside INDONESIAN_STOCKS is what it was.  AADI.JK is such a
    symbol although it is on the watchlist, so the daily run never gives
    it an entry. *)
Theorem daily_run_watchlist (world : string -> World) (bot : Bot) :
  let bot' := fst (run_daily_analysis world bot) in
  watchlist_alerts bot' = [] /\
  (forall sym, ~ In sym INDONESIAN_STOCKS ->
               dict_get sym (watchlist_data bot')
               = dict_get sym (watchlist_data bot)) /\
  is_watchlist_stock "AADI.JK" = true /\
  dict_get "AADI.JK" (watchlist_data bot')
  = dict_get "AADI.JK" (watchlist_data bot).
Proof.
  destruct (run_daily_frame world bot) as (_ & _ & A & K). cbv zeta in *.
  split; [exact A|]. split; [exact K|]. split; [reflexivity|].
  apply K. intros H. apply existsb_eqb_In in H. discriminate H.
Qed.

(** ** Analysis and download together *)

Lemma analysed_when_enough (data : list Bar) (sym : string) :
  (50 <= length data)%nat ->
  exists signal_info, TradingBot.analyze_stock data sym = Some signal_info.
Proof.
  intros H. unfold TradingBot.analyze_stock.
  change (Nat.max SMA_LONG_PERIOD RSI_PERIOD) with 50%nat.
  destruct (Nat.ltb_spec (length data) 50) as [H'|_]; [lia|].
  destruct (BotExtra.latest_row_defined data H) as (latest & b & E & _).
  unfold validate_signal. rewrite E. now eexists.
Qed.

Lemma fetched_enough (yf : nat -> Ticker) (data : list Bar) :
  fst (fetch_stock_data yf) = Some data -> (50 <= length data)%nat.
Proof.
  intros H. unfold fetch_stock_data in H.
  now destruct (proj2 (attempts_spec yf max_retries 0) data H).
Qed.

(** X25. A stock is reported as without data exactly when the download
    gives nothing: a downloaded history always has the 50 rows the
    analysis asks for, so the second test of the length never fires. *)
Theorem no_data_only_when_download_fails (w : World) (sym : string) (bot : Bot) :
  fst (analyze_stock w sym bot) = Returned None <->
  fst (fetch_stock_data (yf w)) = None.
Proof.
  unfold analyze_stock.
  destruct (fst (fetch_stock_data (yf w))) as [data|] eqn:F;
    [|cbn [fst]; tauto].
  destruct (analysed_when_enough data sym (fetched_enough _ _ F)) as (si & ->).
  split; [|discriminate].
  destruct (_ && _); [|discriminate].
  destruct (get_chatgpt_confirmation _ _); [|discriminate].
  now destruct (should_send _ _ _ _).
Qed.

(** ** The watchlist follows the valid signals *)

Lemma last_items_snoc (A : Type) (n : nat) (l : list A) (x : A) :
  (1 <= n)%nat -> last_items n (l ++ [x]) = last_items (n - 1) l ++ [x].
Proof.
  intros H. unfold last_items. rewrite length_app. cbn [length].
  rewrite skipn_app.
  replace (length l + 1 - n)%nat with (length l - (n - 1))%nat by lia.
  replace (length l - (n - 1) - length l)%nat with 0%nat by lia.
  reflexivity.
Qed.

Lemma update_tracks (t : Z) (sym : string) (si : SignalInfo) (bot : Bot) :
  is_watchlist_stock sym = true ->
  exists e older,
    dict_get sym (watchlist_data (update_watchlist_data t sym si bot)) = Some e /\
    last_price e = current_price si /\
    last_update e = t /\
    signal_history e
    = older ++ [mkHistoryItem (signal si) (current_price si) t].
Proof.
  intros W. unfold update_watchlist_data. rewrite W. cbn [negb watchlist_data].
  rewrite dict_get_set_same. eexists. eexists. split; [reflexivity|].
  cbn [last_price last_update signal_history].
  split; [reflexivity|]. split; [reflexivity|].
  apply last_items_snoc. lia.
Qed.

(** X26. The watchlist records every valid signal of a watchlist stock,
    whether the signal is sent or filtered: the entry then holds the
    current price and time, and the signal is the last of its history.
    A signal that is not valid leaves the whole bot as it was, so the
    price the next move is measured from is not updated. *)
Theorem watchlist_tracks_valid_signals (w : World) (sym : string) (bot : Bot)
        (data : list Bar) (signal_info : SignalInfo) :
  is_watchlist_stock sym = true ->
  fst (fetch_stock_data (yf w)) = Some data ->
  TradingBot.analyze_stock data sym = Some signal_info ->
  let (o, bot') := analyze_stock w sym bot in
  if valid signal_info then
    (o = Raised /\ bot' = bot) \/
    exists a e older,
      o = Returned (Some a) /\
      dict_get sym (watchlist_data bot') = Some e /\
      last_price e = current_price signal_info /\
      last_update e = now w /\
      signal_history e
      = older ++ [mkHistoryItem (signal signal_info)
                                (current_price signal_info) (now w)]
  else bot' = bot.
Proof.
  intros W F A. unfold analyze_stock. rewrite F, A.
  rewrite (analysed_signal_listed data sym signal_info A). cbn [andb].
  destruct (valid signal_info); [|reflexivity].
  destruct (get_chatgpt_confirmation _ _) as [c0|]; [|now left].
  destruct (should_send _ _ _ _) as [flag conf]. right.
  set (bot1 := if flag then _ else bot).
  destruct (update_tracks (now w) sym signal_info bot1 W)
    as (e & older & H1 & H2 & H3 & H4).
  eexists. exists e, older. split; [reflexivity|]. now repeat split.
Qed.

Lemma watchlist_tracks_valid_signals_witness :
  let w := mkWorld (fun _ => TickerReady (fun _ => Downloaded MoreSamples.thin))
                   (fun _ => ApiError) 0 in
  snd (analyze_stock w "BBCA.JK" (new_bot true)) = new_bot true.
Proof.
  cbv zeta.
  assert (exists si,
             TradingBot.analyze_stock MoreSamples.thin "BBCA.JK" = Some si /\
             valid si = false) as (si & A & V).
  { eexists. split; [vm_compute; reflexivity|reflexivity]. }
  pose proof (watchlist_tracks_valid_signals
                (mkWorld (fun _ => TickerReady (fun _ => Downloaded MoreSamples.thin))
                         (fun _ => ApiError) 0)
                "BBCA.JK" (new_bot true) MoreSamples.thin si
                eq_refl eq_refl A) as H.
  destruct (analyze_stock _ _ _) as [o bot']. rewrite V in H. exact H.
Defined.

End StockBotExtra.

(* ================================================================== *)
(** * The symbols of the interactive bot *)

Module SymbolFacts.

Import InteractiveTradingBot.

Local Open Scope string_scope.

(** ** Upper case and white space *)

Lemma upper_ascii_idem (c : ascii) : upper_ascii (upper_ascii c) = upper_ascii c.
Proof.
  destruct c as [[] [] [] [] [] [] [] []]; reflexivity.
Qed.

Lemma isspace_upper (c : ascii) : isspace (upper_ascii c) = isspace c.
Proof.
  destruct c as [[] [] [] [] [] [] [] []]; reflexivity.
Qed.

Lemma upper_idem (s : string) : upper (upper s) = upper s.
Proof.
  induction s as [|c t IH]; cbn [upper]; [reflexivity|].
  now rewrite upper_ascii_idem, IH.
Qed.

Lemma upper_app (a b : string) : upper (a ++ b) = upper a ++ upper b.
Proof.
  induction a as [|c t IH]; cbn [upper append]; [reflexivity|].
  now rewrite IH.
Qed.

Lemma upper_lstrip (s : string) : upper (lstrip s) = lstrip (upper s).
Proof.
  induction s as [|c t IH]; cbn [upper lstrip]; [reflexivity|].
  rewrite isspace_upper. destruct (isspace c); [exact IH|reflexivity].
Qed.

Lemma upper_rstrip (s : string) : upper (rstrip s) = rstrip (upper s).
Proof.
  induction s as [|c t IH]; cbn [upper rstrip]; [reflexivity|].
  rewrite isspace_upper, <- IH.
  destruct (rstrip t) as [|c' t']; cbn [upper].
  - now destruct (isspace c).
  - reflexivity.
Qed.

Lemma upper_strip (s : string) : upper (strip s) = strip (upper s).
Proof. unfold strip. now rewrite upper_rstrip, upper_lstrip. Qed.

Lemma rstrip_idem (s : string) : rstrip (rstrip s) = rstrip s.
Proof.
  induction s as [|c t IH]; cbn [rstrip]; [reflexivity|].
  destruct (rstrip t) as [|c' t'] eqn:E.
  - destruct (isspace c) eqn:S; cbn [rstrip]; [reflexivity|now rewrite S].
  - cbn [rstrip]. cbn [rstrip] in IH. now rewrite IH.
Qed.

Lemma rstrip_head (c : ascii) (t : string) :
  isspace c = false -> rstrip (String c t) = String c (rstrip t).
Proof.
  intros S. cbn [rstrip]. destruct (rstrip t); [now rewrite S|reflexivity].
Qed.

(** A stripped text does not begin with white space. *)
Lemma strip_head (s : string) (c : ascii) (t : string) :
  strip s = String c t -> isspace c = false.
Proof.
  unfold strip. induction s as [|a u IH]; cbn [lstrip]; [discriminate|].
  destruct (isspace a) eqn:S; [exact IH|].
  rewrite (rstrip_head a u S). intros H. now injection H as <- _.
Qed.

Lemma lstrip_fixed (s : string) :
  (forall c t, s = String c t -> isspace c = false) -> lstrip s = s.
Proof.
  destruct s as [|c t]; [reflexivity|]. intros H. cbn [lstrip].
  now rewrite (H c t eq_refl).
Qed.

Lemma strip_idem (s : string) : strip (strip s) = strip s.
Proof.
  unfold strip at 1. rewrite (lstrip_fixed (strip s)).
  - unfold strip. apply rstrip_idem.
  - intros c t H. now apply (strip_head s c t).
Qed.

Lemma rstrip_app (a b : string) :
  b <> EmptyString -> rstrip b = b -> rstrip (a ++ b) = a ++ b.
Proof.
  intros N R. induction a as [|c t IH]; cbn [append rstrip]; [exact R|].
  rewrite IH. destruct (t ++ b) eqn:E; [|reflexivity].
  destruct t; cbn [append] in E; [now destruct N|discriminate].
Qed.

(** The normal form of the input: upper case, stripped. *)
Lemma normal_fixed (s : string) :
  strip (upper (strip (upper s))) = strip (upper s).
Proof. now rewrite upper_strip, upper_idem, strip_idem. Qed.

(** ** Suffixes *)

Lemma endswith_app (a suffix : string) : endswith (a ++ suffix) suffix = true.
Proof.
  induction a as [|c t IH]; cbn [append].
  - destruct suffix; cbn [endswith]; now rewrite String.eqb_refl.
  - cbn [endswith]. rewrite IH. apply orb_true_r.
Qed.

Lemma endswith_split (s suffix : string) :
  endswith s suffix = true -> exists a, s = a ++ suffix.
Proof.
  induction s as [|c t IH]; cbn [endswith].
  - rewrite orb_false_r. intros H. apply String.eqb_eq in H.
    now exists EmptyString.
  - intros H. apply orb_prop in H as [H|H].
    + apply String.eqb_eq in H. now exists EmptyString.
    + destruct (IH H) as (a & ->). now exists (String c a).
Qed.

(** Of two suffixes of one text, one is a suffix of the other. *)
Lemma endswith_exclusive (a s1 s2 : string) :
  endswith s1 s2 = false ->
  endswith s2 s1 = false ->
  endswith (a ++ s1) s2 = false.
Proof.
  intros H1 H2. induction a as [|c t IH]; cbn [append]; [exact H1|].
  cbn [endswith]. rewrite IH, orb_false_r.
  apply String.eqb_neq. intros E.
  assert (endswith s2 s1 = true) as T
    by (rewrite <- E; apply (endswith_app (String c t) s1)).
  congruence.
Qed.

Lemma not_key_by_suffix (V : Type) (d : list (string * V)) (suffix s : string) :
  forallb (fun kv => negb (endswith (fst kv) suffix)) d = true ->
  endswith s suffix = true ->
  IndonesianStockBot.dict_get s d = None.
Proof.
  intros F E. induction d as [|[k v] t IH]; cbn [IndonesianStockBot.dict_get];
    [reflexivity|].
  cbn [forallb fst] in F. apply andb_prop in F as [Fk Ft].
  destruct (String.eqb s k) eqn:K; [|now apply IH].
  apply String.eqb_eq in K. subst k. now rewrite E in Fk.
Qed.

Lemma not_listed_by_suffix (l : list string) (suffix s : string) :
  forallb (fun e => negb (endswith e suffix)) l = true ->
  endswith s suffix = true ->
  existsb (String.eqb s) l = false.
Proof.
  intros F E. induction l as [|e t IH]; cbn [existsb]; [reflexivity|].
  cbn [forallb] in F. apply andb_prop in F as [Fe Ft].
  rewrite (IH Ft), orb_false_r. apply String.eqb_neq. intros ->.
  now rewrite E in Fe.
Qed.

Lemma dict_get_in (V : Type) (d : list (string * V)) (k : string) (v : V) :
  IndonesianStockBot.dict_get k d = Some v -> In (k, v) d.
Proof.
  induction d as [|[k' v'] t IH]; cbn [IndonesianStockBot.dict_get];
    [discriminate|].
  destruct (String.eqb k k') eqn:E.
  - apply String.eqb_eq in E. intros H. injection H as ->. subst. now left.
  - intros H. right. now apply IH.
Qed.

(** ** Formatting *)

(** The three outcomes of [format_symbol], with [n] the normal form. *)
Lemma format_symbol_cases (s : string) :
  let n := strip (upper s) in
  (exists formatted, In (n, formatted) crypto_pairs /\ format_symbol s = formatted) \/
  (IndonesianStockBot.dict_get n crypto_pairs = None /\
   endswith n ".JK" = false /\ endswith n "-USD" = false /\
   endswith n "-USDT" = false /\
   any_alpha n = true /\ (String.length n <= 6)%nat /\
   format_symbol s = n ++ ".JK") \/
  (IndonesianStockBot.dict_get n crypto_pairs = None /\
   (endswith n ".JK" = true \/ endswith n "-USD" = true \/
    endswith n "-USDT" = true \/
    any_alpha n = false \/ (6 < String.length n)%nat) /\
   format_symbol s = n).
Proof.
  cbv zeta. unfold format_symbol.
  destruct (IndonesianStockBot.dict_get _ crypto_pairs) as [formatted|] eqn:D.
  - left. exists formatted. split; [now apply dict_get_in|reflexivity].
  - right.
    destruct (endswith _ ".JK") eqn:E1; cbn [negb andb];
      [right; auto 10|].
    destruct (endswith _ "-USD") eqn:E2; cbn [negb andb];
      [right; auto 10|].
    destruct (endswith _ "-USDT") eqn:E3; cbn [negb andb];
      [right; auto 10|].
    destruct (any_alpha _) eqn:A; cbn [andb]; [|right; auto 10].
    destruct (Nat.leb_spec (String.length (strip (upper s))) 6) as [L|L].
    + left. repeat split; auto.
    + right. split; [reflexivity|]. split; [|reflexivity]. auto 10.
Qed.

Lemma format_symbol_normal (n : string) :
  strip (upper n) = n ->
  format_symbol n
  = match IndonesianStockBot.dict_get n crypto_pairs with
    | Some formatted => formatted
    | None =>
        if negb (endswith n ".JK") && negb (endswith n "-USD")
           && negb (endswith n "-USDT")
        then if any_alpha n && (String.length n <=? 6)%nat
             then n ++ ".JK" else n
        else n
    end.
Proof. intros H. unfold format_symbol. now rewrite H. Qed.

Lemma pairs_fixed :
  forallb (fun kv => String.eqb (format_symbol (snd kv)) (snd kv)) crypto_pairs
  = true.
Proof. vm_compute. reflexivity. Qed.

Lemma keys_without_suffix (suffix : string) :
  suffix = ".JK" \/ suffix = "-USD" \/ suffix = "-USDT" ->
  forallb (fun kv : string * string => negb (endswith (fst kv) suffix))
          crypto_pairs = true.
Proof. intros [->|[->| ->]]; vm_compute; reflexivity. Qed.

(** X27. Formatting is idempotent: formatting a symbol twice is
    formatting it once, whatever the text (a pair such as BTC-USD, a
    symbol with its .JK, or a text that is no symbol at all). *)
Theorem format_symbol_idempotent (s : string) :
  format_symbol (format_symbol s) = format_symbol s.
Proof.
  destruct (format_symbol_cases s) as
    [(formatted & Hin & ->) | [(D & E1 & E2 & E3 & A & L & ->) | (D & C & ->)]].
  - pose proof pairs_fixed as F. rewrite forallb_forall in F.
    specialize (F _ Hin). cbn [snd] in F. now apply String.eqb_eq.
  - set (n := strip (upper s)) in *.
    assert (strip (upper (n ++ ".JK")) = n ++ ".JK") as N.
    { rewrite upper_app. subst n. rewrite upper_strip, upper_idem.
      fold (strip (upper s)). set (n := strip (upper s)).
      change (upper ".JK") with ".JK". unfold strip.
      rewrite lstrip_fixed.
      - apply rstrip_app; [discriminate|reflexivity].
      - intros c t H. destruct n as [|c' t'] eqn:En.
        + cbn [append] in H. injection H as <- _. reflexivity.
        + cbn [append] in H. injection H as <- _.
          now apply (strip_head (upper s) c' t'). }
    rewrite (format_symbol_normal _ N).
    rewrite (not_key_by_suffix _ crypto_pairs ".JK" (n ++ ".JK")
               (keys_without_suffix ".JK" ltac:(auto)) (endswith_app n ".JK")).
    now rewrite endswith_app.
  - set (n := strip (upper s)) in *.
    rewrite (format_symbol_normal n (normal_fixed s)). rewrite D.
    destruct C as [C|[C|[C|[C|C]]]].
    + rewrite C. reflexivity.
    + rewrite C. cbn [negb]. now rewrite andb_false_r.
    + rewrite C. cbn [negb]. now rewrite andb_false_r.
    + rewrite C. cbn [andb]. now destruct (_ && _).
    + destruct (Nat.leb_spec (String.length n) 6) as [L|L]; [lia|].
      rewrite andb_false_r. now destruct (_ && _).
Qed.

(** ** Asset types *)

Lemma listed_without_suffix (suffix : string) :
  suffix = ".JK" \/ suffix = "-USD" \/ suffix = "-USDT" ->
  forallb (fun e => negb (endswith e suffix)) crypto_symbols = true.
Proof. intros [->|[->| ->]]; vm_compute; reflexivity. Qed.

(** A listed bare symbol has a pair, or is a short word without a
    suffix: formatting never leaves it as it is. *)
Lemma listed_get_suffix :
  forallb (fun e =>
             match IndonesianStockBot.dict_get e crypto_pairs with
             | Some _ => true
             | None =>
                 negb (endswith e ".JK") && negb (endswith e "-USD")
                 && negb (endswith e "-USDT")
                 && any_alpha e && (String.length e <=? 6)%nat
             end) crypto_symbols = true.
Proof. vm_compute. reflexivity. Qed.

Lemma pairs_end_usd :
  forallb (fun kv : string * string => endswith (snd kv) "-USD") crypto_pairs
  = true.
Proof. vm_compute. reflexivity. Qed.

Lemma existsb_eqb_true (s : string) (l : list string) :
  existsb (String.eqb s) l = true -> In s l.
Proof.
  rewrite existsb_exists. intros (x & Hx & E).
  apply String.eqb_eq in E. now subst.
Qed.

(** A formatted symbol is not one of the listed bare symbols. *)
Lemma formatted_not_listed (s : string) :
  existsb (String.eqb (format_symbol s)) crypto_symbols = false.
Proof.
  destruct (format_symbol_cases s) as
    [(formatted & Hin & ->) | [(D & E1 & E2 & E3 & A & L & ->) | (D & C & ->)]].
  - apply (not_listed_by_suffix crypto_symbols "-USD");
      [apply listed_without_suffix; auto|].
    pose proof pairs_end_usd as P. rewrite forallb_forall in P.
    exact (P _ Hin).
  - apply (not_listed_by_suffix crypto_symbols ".JK");
      [apply listed_without_suffix; auto|apply endswith_app].
  - destruct (existsb _ _) eqn:E; [|reflexivity]. exfalso.
    apply existsb_eqb_true in E.
    pose proof listed_get_suffix as F. rewrite forallb_forall in F.
    specialize (F _ E). rewrite D in F.
    apply andb_prop in F as [F F5]. apply andb_prop in F as [F F4].
    apply andb_prop in F as [F F3]. apply andb_prop in F as [F1 F2].
    apply negb_true_iff in F1, F2, F3. apply Nat.leb_le in F5.
    destruct C as [C|[C|[C|[C|C]]]]; try congruence. lia.
Qed.

(** X28. After formatting, an asset is a cryptocurrency exactly when its
    symbol ends with -USD: a formatted symbol is never one of the bare
    symbols that [is_crypto] lists, since formatting gives each of them a
    suffix.  Those without a pair, such as AAVE, become Indonesian
    stocks. *)
Theorem crypto_only_by_suffix (s : string) :
  is_crypto (format_symbol s) = endswith (format_symbol s) "-USD" /\
  (get_asset_type (format_symbol s) = "Cryptocurrency" <->
   endswith (format_symbol s) "-USD" = true) /\
  (In (strip (upper s)) crypto_symbols ->
   IndonesianStockBot.dict_get (strip (upper s)) crypto_pairs = None ->
   format_symbol s = strip (upper s) ++ ".JK" /\
   get_asset_type (format_symbol s) = "Indonesian Stock").
Proof.
  pose proof (formatted_not_listed s) as N.
  assert (is_crypto (format_symbol s) = endswith (format_symbol s) "-USD") as C
    by (unfold is_crypto; now rewrite N, orb_false_r).
  split; [exact C|]. split.
  - unfold get_asset_type. rewrite C.
    destruct (endswith (format_symbol s) "-USD"); [tauto|].
    destruct (endswith _ ".JK"); split; discriminate.
  - intros L D.
    assert (format_symbol s = strip (upper s) ++ ".JK") as F.
    { unfold format_symbol. rewrite D.
      pose proof (listed_without_suffix) as W.
      assert (forall suffix,
                 suffix = ".JK" \/ suffix = "-USD" \/ suffix = "-USDT" ->
                 endswith (strip (upper s)) suffix = false) as E.
      { intros suffix H. specialize (W suffix H).
        rewrite forallb_forall in W. specialize (W _ L).
        now apply negb_true_iff in W. }
      rewrite !E by auto. cbn [negb andb].
      assert (forallb (fun e => any_alpha e && (String.length e <=? 6)%nat)
                      crypto_symbols = true) as A by (vm_compute; reflexivity).
      rewrite forallb_forall in A. now rewrite (A _ L). }
    split; [exact F|].
    unfold get_asset_type. rewrite C, F.
    rewrite (endswith_exclusive (strip (upper s)) ".JK" "-USD" eq_refl eq_refl).
    now rewrite endswith_app.
Qed.

(** X29. A symbol that ends with -USDT is left as it is, as a crypto
    pair would be, and is then classified as a plain stock, not as a
    cryptocurrency. *)
Theorem usdt_pairs_are_stocks (s : string) :
  endswith (strip (upper s)) "-USDT" = true ->
  format_symbol s = strip (upper s) /\
  is_crypto (format_symbol s) = false /\
  get_asset_type (format_symbol s) = "Stock".
Proof.
  intros E. set (n := strip (upper s)) in *.
  assert (format_symbol s = n) as F.
  { unfold format_symbol. fold n.
    rewrite (not_key_by_suffix _ crypto_pairs "-USDT" n
               (keys_without_suffix "-USDT" ltac:(auto)) E).
    rewrite E. cbn [negb]. now rewrite !andb_false_r. }
  destruct (endswith_split n "-USDT" E) as (a & Ha).
  assert (endswith n "-USD" = false) as E1
    by (rewrite Ha; apply endswith_exclusive; reflexivity).
  assert (endswith n ".JK" = false) as E2
    by (rewrite Ha; apply endswith_exclusive; reflexivity).
  assert (is_crypto n = false) as C.
  { unfold is_crypto. rewrite E1. cbn [orb].
    apply (not_listed_by_suffix crypto_symbols "-USDT" n); [|exact E].
    apply listed_without_suffix. auto. }
  rewrite F. split; [reflexivity|]. split; [exact C|].
  unfold get_asset_type. now rewrite C, E2.
Qed.

Lemma usdt_pairs_are_stocks_witness :
  format_symbol "btc-usdt" = "BTC-USDT" /\
  is_crypto (format_symbol "btc-usdt") = false /\
  get_asset_type (format_symbol "btc-usdt") = "Stock".
Proof.
  exact (usdt_pairs_are_stocks "btc-usdt" eq_refl).
Defined.

End SymbolFacts.

(* ================================================================== *)
(** * The production runner *)

Module ProductionFacts.

Import ProductionTradingBot.

Lemma repeat_snoc (A : Type) (x : A) (k : nat) :
  repeat x k ++ [x] = repeat x (S k).
Proof.
  induction k as [|k IH]; [reflexivity|].
  cbn [repeat app]. now rewrite IH.
Qed.

(** A block of five failures does not fit in, or across, fewer than five
    failures followed by a completed run. *)
Lemma block_after_completed (k : nat) (t : Z) (rest pre post : list RunResult) :
  (k < 5)%nat ->
  repeat Failed k ++ Completed t :: rest = pre ++ repeat Failed 5 ++ post ->
  exists pre', rest = pre' ++ repeat Failed 5 ++ post.
Proof.
  intros K E.
  assert (nth_error (pre ++ repeat Failed 5 ++ post) k = Some (Completed t)) as N.
  { rewrite <- E. rewrite nth_error_app2 by (rewrite repeat_length; lia).
    rewrite repeat_length, Nat.sub_diag. reflexivity. }
  destruct (Nat.lt_ge_cases k (length pre)) as [L|L].
  - change (Completed t :: rest) with ([Completed t] ++ rest) in E.
    rewrite app_assoc in E.
    apply app_eq_app in E as (l & [(E1 & E2)|(E1 & E2)]).
    + apply (f_equal (@length RunResult)) in E1.
      rewrite !length_app, repeat_length in E1. cbn [length] in E1.
      destruct l as [|x l]; [|cbn [length] in E1; lia].
      cbn [app] in E2. exists []. now rewrite E2.
    + exists l. exact E2.
  - exfalso. rewrite nth_error_app2 in N by exact L.
    rewrite nth_error_app1 in N by (rewrite repeat_length; lia).
    rewrite nth_error_repeat in N by lia. discriminate.
Qed.

Lemma main_loop_stopped (results : list RunResult) (st : State) :
  running st = false -> main_loop results st = st.
Proof. intros R. destruct results; cbn [main_loop]; now rewrite ?R. Qed.

Lemma main_loop_stops (results : list RunResult) (st : State) :
  running st = true -> (error_count st < 5)%nat ->
  (running (main_loop results st) = false <->
   exists pre post,
     repeat Failed (error_count st) ++ results
     = pre ++ repeat Failed 5 ++ post) /\
  (running (main_loop results st) = true ->
   (error_count (main_loop results st) < 5)%nat).
Proof.
  revert st. induction results as [|r rest IH]; intros st R K.
  - cbn [main_loop]. split; [|auto]. rewrite R. split; [discriminate|].
    intros (pre & post & E). apply (f_equal (@length RunResult)) in E.
    rewrite app_nil_r, !length_app, !repeat_length in E. lia.
  - cbn [main_loop]. rewrite R. destruct r as [t|].
    + destruct (IH (run_daily_analysis_safe (Completed t) st) R ltac:(cbn; lia))
        as (IH1 & IH2).
      split; [|exact IH2]. rewrite IH1. cbn [run_daily_analysis_safe error_count repeat app].
      split.
      * intros (pre & post & E).
        exists (repeat Failed (error_count st) ++ Completed t :: pre), post.
        rewrite E. now rewrite <- app_assoc.
      * intros (pre & post & E).
        destruct (block_after_completed _ t rest pre post K E) as (pre' & E').
        now exists pre', post.
    + cbn [run_daily_analysis_safe]. unfold max_errors.
      destruct (Nat.leb_spec 5 (S (error_count st))) as [L|L].
      * assert (error_count st = 4)%nat as E4 by lia.
        rewrite main_loop_stopped by reflexivity. cbn [running].
        split; [|discriminate]. split; [intros _|reflexivity].
        exists [], rest. now rewrite E4.
      * destruct (IH {| running := running st;
                        last_successful_run := last_successful_run st;
                        error_count := S (error_count st) |} R L)
          as (IH1 & IH2).
        split; [|exact IH2]. rewrite IH1. cbn [error_count].
        rewrite <- repeat_snoc, <- app_assoc. reflexivity.
Qed.

(** X30. The production runner stops itself exactly when five scheduled
    runs in a row have failed: a completed run sets the counter back to
    0, and any number of failures with fewer than five in a row leaves
    the runner running, with a counter below five. *)
Theorem stops_after_five_failures_in_a_row (results : list RunResult) :
  (running (run_production results) = false <->
   exists before after,
     results = before ++ [Failed; Failed; Failed; Failed; Failed] ++ after) /\
  (running (run_production results) = true ->
   (error_count (run_production results) < 5)%nat).
Proof.
  unfold run_production.
  exact (main_loop_stops results (mkState true None 0) eq_refl ltac:(cbn; lia)).
Qed.

End ProductionFacts.
